(** * BlueZ device object ([src/device.c]): a shallow embedding

    The per-remote-device controller of bluetoothd keeps two bearer records
    (BR/EDR and LE), the in-flight request slots ([browse], [bonding],
    [connect], [authr]) and the key material of one remote device.  This
    file embeds the functions of [src/device.c] that decide bearer
    selection, the in-progress guards, the CSRK sign counters, the
    paired/bonded bookkeeping on disconnect and on service resolution, the
    RSSI and appearance setters, numeric-comparison confirmation and the
    temporary flag, and proves what they do.

    C state is threaded explicitly: a function of [struct btd_device *]
    becomes a computation in the monad [M], which carries the device record
    and the trace of calls made into the collaborators (D-Bus, adapter,
    agent, main loop).  Results of collaborators are read from a [world]
    record.  A function that begins with [if (!device) return;] is embedded
    for a device that exists. *)

From Stdlib Require Import ZArith List Bool Lia String.
Import ListNotations.
Open Scope string_scope.
Open Scope list_scope.
Open Scope Z_scope.

(** ** Constants *)

Definition RSSI_THRESHOLD : Z := 8.

(** [#define NVAL_TIME ((time_t) -1)] and [#define SEEN_TRESHHOLD 300]. *)
Definition NVAL_TIME : Z := -1.
Definition SEEN_TRESHHOLD : Z := 300.

(** Values of [<errno.h>] on Linux; the code only returns them negated or
    compares a result against them. *)
Definition EPERM : Z := 1.
Definition ENOENT : Z := 2.
Definition EIO : Z := 5.
Definition EBUSY : Z := 16.
Definition EHOSTDOWN : Z := 112.
Definition EALREADY : Z := 114.
Definition EINPROGRESS : Z := 115.

(** Wrap-around of a [uint32_t] that the code stores into. *)
Definition uint32 (z : Z) : Z := z mod 2 ^ 32.

(** ** Data model *)

(** Modelled from the spec: [lib/bluetooth.h], which defines the
    [BDADDR_*] address types, is not among the sources; the data model
    gives the address type as one of BR/EDR-public, LE-public, LE-random. *)
Inductive bdaddr_type_t : Type :=
  | BDADDR_BREDR
  | BDADDR_LE_PUBLIC
  | BDADDR_LE_RANDOM.

Definition bdaddr_type_eqb (a b : bdaddr_type_t) : bool :=
  match a, b with
  | BDADDR_BREDR, BDADDR_BREDR => true
  | BDADDR_LE_PUBLIC, BDADDR_LE_PUBLIC => true
  | BDADDR_LE_RANDOM, BDADDR_LE_RANDOM => true
  | _, _ => false
  end.

(** [bdaddr_t]: six bytes, [b[0]] first. *)
Record bdaddr_t : Type := { b : list Z }.

Inductive auth_type_t : Type :=
  | AUTH_TYPE_PINCODE
  | AUTH_TYPE_PASSKEY
  | AUTH_TYPE_CONFIRM
  | AUTH_TYPE_NOTIFY_PASSKEY
  | AUTH_TYPE_NOTIFY_PINCODE.

Inductive browse_type_t : Type :=
  | BROWSE_SDP
  | BROWSE_GATT.

Definition browse_type_eqb (a c : browse_type_t) : bool :=
  match a, c with
  | BROWSE_SDP, BROWSE_SDP => true
  | BROWSE_GATT, BROWSE_GATT => true
  | _, _ => false
  end.

Inductive btd_service_state_t : Type :=
  | BTD_SERVICE_STATE_UNAVAILABLE
  | BTD_SERVICE_STATE_DISCONNECTED
  | BTD_SERVICE_STATE_CONNECTING
  | BTD_SERVICE_STATE_CONNECTED
  | BTD_SERVICE_STATE_DISCONNECTING.

Definition service_state_eqb (a c : btd_service_state_t) : bool :=
  match a, c with
  | BTD_SERVICE_STATE_UNAVAILABLE, BTD_SERVICE_STATE_UNAVAILABLE => true
  | BTD_SERVICE_STATE_DISCONNECTED, BTD_SERVICE_STATE_DISCONNECTED => true
  | BTD_SERVICE_STATE_CONNECTING, BTD_SERVICE_STATE_CONNECTING => true
  | BTD_SERVICE_STATE_CONNECTED, BTD_SERVICE_STATE_CONNECTED => true
  | BTD_SERVICE_STATE_DISCONNECTING, BTD_SERVICE_STATE_DISCONNECTING => true
  | _, _ => false
  end.

(** A [struct btd_service] as far as the device looks into it. *)
Record btd_service : Type := {
  remote_uuid : string;
  service_state : btd_service_state_t
}.

Inductive jw_repairing_t : Type :=
  | JW_REPAIRING_NEVER
  | JW_REPAIRING_CONFIRM
  | JW_REPAIRING_ALWAYS.

(** Preferred-bearer policy, the anonymous enum of the source. *)
Definition PREFER_LAST_USED : Z := 0.
Definition PREFER_LE : Z := 1.
Definition PREFER_BREDR : Z := 2.
Definition PREFER_LAST_SEEN : Z := 3.

(** A [struct agent *] is an opaque handle. *)
Record agent : Type := { agent_id : Z }.

(** A D-Bus method call: the member called on [org.bluez.Device1] (or on
    the adapter interface for RemoveDevice), its sender, whether
    [dbus_message_get_args] accepts its arguments, and its string argument
    when there is one. *)
Record DBusMessage : Type := {
  member : string;
  sender : string;
  args_valid : bool;
  pattern : option string
}.

(** The error (or method return) a request is answered with:
    [btd_error_in_progress] and [btd_error_in_progress_str] build the same
    [InProgress] error, the latter with a text of its own;
    [ErrFailedErrno] is [btd_error_failed(msg, strerror(-err))] and
    [ErrErrno] is [btd_error_bredr_errno] / [btd_error_le_errno]. *)
Inductive reply : Type :=
  | MethodReturn
  | ErrInProgress (text : option string)
  | ErrInvalidArgs
  | ErrAlreadyExists
  | ErrNotReady
  | ErrProfileUnavailable
  | ErrFailed (text : string)
  | ErrFailedErrno (err : Z)
  | ErrErrno (bearer : bdaddr_type_t) (err : Z).

Definition in_progress (r : option reply) : bool :=
  match r with
  | Some (ErrInProgress _) => true
  | _ => false
  end.

(** Per-bearer (LE or BR/EDR) device state: [struct bearer_state]. *)
Record bearer_state : Type := {
  prefer : bool;
  paired : bool;
  bonded : bool;
  connected : bool;
  svc_resolved : bool;
  initiator : bool;
  connectable : bool;
  last_seen : Z;
  last_used : Z
}.

Record csrk_info : Type := {
  key : list Z;
  counter : Z;
  auth : bool
}.

Record bonding_req : Type := {
  bonding_msg : DBusMessage;
  listener_id : Z;
  bonding_bdaddr_type : bdaddr_type_t;
  bonding_agent : option agent;
  retry_timer : Z
}.

Record authentication_req : Type := {
  auth_type : auth_type_t;
  auth_agent : option agent;
  addr_type : bdaddr_type_t;
  passkey : Z;
  pincode : option string;
  secure : bool
}.

Record browse_req : Type := {
  browse_msg : option DBusMessage;
  browse_type : browse_type_t;
  browse_listener_id : Z
}.

Record svc_callback : Type := {
  cb_id : Z;
  idle_id : Z
}.

(** The fields of [struct btd_device] that the embedded functions read or
    write.  A pointer that the code only tests against NULL ([bredr], [le],
    [attrib], [att], [att_io], [client]) is the boolean "is set". *)
Record btd_device : Type := {
  bdaddr : bdaddr_t;
  bdaddr_type : bdaddr_type_t;
  bredr : bool;
  le : bool;
  pending_paired : bool;
  svc_refreshed : bool;
  svc_callbacks : list svc_callback;
  eir_uuids : list string;
  appearance : Z;
  services : list btd_service;
  pending : list btd_service;
  primaries : list Z;
  temporary : bool;
  disconn_timer : Z;
  discov_timer : Z;
  temporary_timer : Z;
  browse : option browse_req;
  bonding : option bonding_req;
  authr : option authentication_req;
  disconnects : list DBusMessage;
  connect : option DBusMessage;
  attrib : bool;
  att : bool;
  att_io : bool;
  prefer_bearer : Z;
  bredr_state : bearer_state;
  le_state : bearer_state;
  local_csrk : option csrk_info;
  remote_csrk : option csrk_info;
  trusted : bool;
  auto_connect : bool;
  disable_auto_connect : bool;
  general_connect : bool;
  rssi : Z;
  store_id : Z
}.

(** *** Field assignment

    [d->f = v] rebuilds the record with one field replaced.  The [with_f]
    functions
    are derived from the eta-expansion of the record by abstracting the
    projection being assigned. *)

Definition eta_bearer_state (s : bearer_state) : bearer_state :=
  {| prefer := prefer s; paired := paired s; bonded := bonded s;
     connected := connected s; svc_resolved := svc_resolved s;
     initiator := initiator s; connectable := connectable s;
     last_seen := last_seen s; last_used := last_used s |}.

Definition eta_device (d : btd_device) : btd_device :=
  {| bdaddr := bdaddr d; bdaddr_type := bdaddr_type d; bredr := bredr d;
     le := le d; pending_paired := pending_paired d;
     svc_refreshed := svc_refreshed d; svc_callbacks := svc_callbacks d;
     eir_uuids := eir_uuids d; appearance := appearance d;
     services := services d; pending := pending d; primaries := primaries d;
     temporary := temporary d; disconn_timer := disconn_timer d;
     discov_timer := discov_timer d; temporary_timer := temporary_timer d;
     browse := browse d; bonding := bonding d; authr := authr d;
     disconnects := disconnects d; connect := connect d;
     attrib := attrib d; att := att d; att_io := att_io d;
     prefer_bearer := prefer_bearer d; bredr_state := bredr_state d;
     le_state := le_state d; local_csrk := local_csrk d;
     remote_csrk := remote_csrk d; trusted := trusted d;
     auto_connect := auto_connect d;
     disable_auto_connect := disable_auto_connect d;
     general_connect := general_connect d; rssi := rssi d;
     store_id := store_id d |}.

Ltac field_update eta proj :=
  let e := eval cbv delta [eta] in eta in
  match eval pattern proj in e with
  | ?g _ =>
      let t := eval cbv beta in (fun v r => g (fun _ => v) r) in
      exact t
  end.

Definition with_paired : bool -> bearer_state -> bearer_state :=
  ltac:(field_update eta_bearer_state paired).
Definition with_bonded : bool -> bearer_state -> bearer_state :=
  ltac:(field_update eta_bearer_state bonded).
Definition with_connected : bool -> bearer_state -> bearer_state :=
  ltac:(field_update eta_bearer_state connected).
Definition with_svc_resolved : bool -> bearer_state -> bearer_state :=
  ltac:(field_update eta_bearer_state svc_resolved).
Definition with_initiator : bool -> bearer_state -> bearer_state :=
  ltac:(field_update eta_bearer_state initiator).
Definition with_connectable : bool -> bearer_state -> bearer_state :=
  ltac:(field_update eta_bearer_state connectable).
Definition with_last_seen : Z -> bearer_state -> bearer_state :=
  ltac:(field_update eta_bearer_state last_seen).

Definition with_prefer : bool -> bearer_state -> bearer_state :=
  ltac:(field_update eta_bearer_state prefer).
Definition with_bredr : bool -> btd_device -> btd_device :=
  ltac:(field_update eta_device bredr).
Definition with_bdaddr_type : bdaddr_type_t -> btd_device -> btd_device :=
  ltac:(field_update eta_device bdaddr_type).
Definition with_bdaddr : bdaddr_t -> btd_device -> btd_device :=
  ltac:(field_update eta_device bdaddr).
Definition with_pending_paired : bool -> btd_device -> btd_device :=
  ltac:(field_update eta_device pending_paired).
Definition with_svc_refreshed : bool -> btd_device -> btd_device :=
  ltac:(field_update eta_device svc_refreshed).
Definition with_svc_callbacks : list svc_callback -> btd_device -> btd_device :=
  ltac:(field_update eta_device svc_callbacks).
Definition with_eir_uuids : list string -> btd_device -> btd_device :=
  ltac:(field_update eta_device eir_uuids).
Definition with_appearance : Z -> btd_device -> btd_device :=
  ltac:(field_update eta_device appearance).
Definition with_pending : list btd_service -> btd_device -> btd_device :=
  ltac:(field_update eta_device pending).
Definition with_temporary : bool -> btd_device -> btd_device :=
  ltac:(field_update eta_device temporary).
Definition with_disconn_timer : Z -> btd_device -> btd_device :=
  ltac:(field_update eta_device disconn_timer).
Definition with_temporary_timer : Z -> btd_device -> btd_device :=
  ltac:(field_update eta_device temporary_timer).
Definition with_browse : option browse_req -> btd_device -> btd_device :=
  ltac:(field_update eta_device browse).
Definition with_bonding : option bonding_req -> btd_device -> btd_device :=
  ltac:(field_update eta_device bonding).
Definition with_authr : option authentication_req -> btd_device -> btd_device :=
  ltac:(field_update eta_device authr).
Definition with_disconnects : list DBusMessage -> btd_device -> btd_device :=
  ltac:(field_update eta_device disconnects).
Definition with_connect : option DBusMessage -> btd_device -> btd_device :=
  ltac:(field_update eta_device connect).
Definition with_att_io : bool -> btd_device -> btd_device :=
  ltac:(field_update eta_device att_io).
Definition with_bredr_state : bearer_state -> btd_device -> btd_device :=
  ltac:(field_update eta_device bredr_state).
Definition with_le_state : bearer_state -> btd_device -> btd_device :=
  ltac:(field_update eta_device le_state).
Definition with_local_csrk : option csrk_info -> btd_device -> btd_device :=
  ltac:(field_update eta_device local_csrk).
Definition with_remote_csrk : option csrk_info -> btd_device -> btd_device :=
  ltac:(field_update eta_device remote_csrk).
Definition with_auto_connect : bool -> btd_device -> btd_device :=
  ltac:(field_update eta_device auto_connect).
Definition with_disable_auto_connect : bool -> btd_device -> btd_device :=
  ltac:(field_update eta_device disable_auto_connect).
Definition with_general_connect : bool -> btd_device -> btd_device :=
  ltac:(field_update eta_device general_connect).
Definition with_rssi : Z -> btd_device -> btd_device :=
  ltac:(field_update eta_device rssi).
Definition with_store_id : Z -> btd_device -> btd_device :=
  ltac:(field_update eta_device store_id).

(** ** Collaborators

    What the device asks of the rest of the daemon.  Calls that a theorem
    below speaks about have their own constructor; every other call into the
    adapter, the agent, the main loop or storage is a [Call] with the name
    of the C function. *)

Inductive bearer_t : Type :=
  | BearerBredr
  | BearerLe.

Inductive event : Type :=
  | PropertyChanged (name : string)
  | EmitSignal (name : string) (reason : Z)
  | SendMessage (r : reply) (to : DBusMessage)
  | BearerPaired (br : bearer_t)
  | BearerDisconnected (br : bearer_t) (reason : Z)
  | AdapterRemoveBonding (t : bdaddr_type_t)
  | AdapterCreateBonding (t : bdaddr_type_t) (io_cap : Z)
  | AdapterCancelBonding (t : bdaddr_type_t)
  | AdapterConfirmReply (t : bdaddr_type_t) (accept : bool)
  | AgentRequestAuthorization (a : option agent)
  | AgentRequestConfirmation (a : option agent) (passkey : Z)
  | AgentCancel (a : agent)
  | IdleAdd (callback : string)
  | TimeoutAddSeconds (seconds : Z) (callback : string)
  | TimeoutRemove (id : Z)
  | SvcCallback (id : Z) (err : Z)
  | Call (function : string).

(** Results that come from outside the device object. *)
Record world : Type := {
  now : Z;                                   (* time(NULL) *)
  adapter_bredr : bool;                      (* btd_adapter_get_bredr *)
  adapter_powered : bool;                    (* btd_adapter_get_powered *)
  tmpto : Z;                                 (* btd_opts.tmpto *)
  jw_repairing : jw_repairing_t;             (* btd_opts.jw_repairing *)
  le_connect_before_pairing : bool;          (* btd_le_connect_before_pairing *)
  agent_get : option string -> option agent; (* agent_get(owner) *)
  agent_get_io_capability : agent -> Z;
  IO_CAPABILITY_NOINPUTNOOUTPUT : Z;         (* constant of lib/mgmt.h *)
  g_idle_add : Z;                            (* source id handed out *)
  timeout_add_seconds : Z;                   (* timer id handed out *)
  g_dbus_add_disconnect_watch : Z;           (* watch id handed out *)
  bt_io_connect : bool;                      (* an I/O channel was obtained *)
  bt_att_set_security : bool;
  adapter_create_bonding : Z;
  agent_request_authorization : Z;
  agent_request_confirmation : Z;
  gap_appearance_to_icon : Z -> option string;
  bt_name2string : string -> option string;
  create_pending_list : btd_device -> option string -> list btd_service;
  btd_service_connect : btd_service -> Z;
  bt_search : Z;
  bt_gatt_client_is_ready : bool;
  device_client : bool                       (* device->client is set *)
}.

(** ** The device monad: state of one device and the trace of its calls *)

Definition M (A : Type) : Type := btd_device -> A * btd_device * list event.

Definition ret {A : Type} (a : A) : M A := fun d => (a, d, []).

Definition bind {A B : Type} (m : M A) (k : A -> M B) : M B :=
  fun d =>
    let '(a, d1, t1) := m d in
    let '(r, d2, t2) := k a d1 in
    (r, d2, t1 ++ t2).

Definition gets {A : Type} (f : btd_device -> A) : M A :=
  fun d => (f d, d, []).

Definition modify (f : btd_device -> btd_device) : M unit :=
  fun d => (tt, f d, []).

Definition emit (e : event) : M unit := fun d => (tt, d, [e]).

Declare Scope dev_scope.
Delimit Scope dev_scope with dev.
Notation "x <- m ;; k" := (bind m (fun x => k))
  (at level 61, m at next level, right associativity) : dev_scope.
Notation "m ;; k" := (bind m (fun _ => k))
  (at level 61, right associativity) : dev_scope.
Open Scope dev_scope.

(** [if (c) stmt;] with no else branch. *)
Definition when (c : bool) (m : M unit) : M unit := if c then m else ret tt.

Definition device_of {A : Type} (r : A * btd_device * list event) : btd_device :=
  snd (fst r).
Definition trace_of {A : Type} (r : A * btd_device * list event) : list event :=
  snd r.
Definition value_of {A : Type} (r : A * btd_device * list event) : A :=
  fst (fst r).

(** How often a property change of the given name occurs in a trace. *)
Definition is_property_changed (n : string) (e : event) : bool :=
  match e with
  | PropertyChanged m => String.eqb m n
  | _ => false
  end.

Definition emitted (n : string) (t : list event) : nat :=
  List.length (filter (is_property_changed n) t).

(** ** Bearer state access *)

Definition get_state (dev : btd_device) (t : bdaddr_type_t) : bearer_state :=
  if bdaddr_type_eqb t BDADDR_BREDR then bredr_state dev else le_state dev.

(** Assignment through the pointer returned by [get_state]. *)
Definition upd_state (t : bdaddr_type_t) (f : bearer_state -> bearer_state)
    (dev : btd_device) : btd_device :=
  if bdaddr_type_eqb t BDADDR_BREDR
  then with_bredr_state (f (bredr_state dev)) dev
  else with_le_state (f (le_state dev)) dev.

Definition bearer_of (t : bdaddr_type_t) : bearer_t :=
  if bdaddr_type_eqb t BDADDR_BREDR then BearerBredr else BearerLe.

Definition device_is_paired (dev : btd_device) (t : bdaddr_type_t) : bool :=
  paired (get_state dev t).

Fixpoint find_service_with_state (l : list btd_service)
    (s : btd_service_state_t) : bool :=
  match l with
  | [] => false
  | service :: rest =>
      if service_state_eqb (service_state service) s then true
      else find_service_with_state rest s
  end.

Definition device_prefer_bearer_str (device : btd_device) : option string :=
  if negb (bredr device) || negb (le device) then None
  else if prefer_bearer device =? PREFER_LAST_USED then Some "last-used"
  else if prefer_bearer device =? PREFER_LE then Some "le"
  else if prefer_bearer device =? PREFER_BREDR then Some "bredr"
  else if prefer_bearer device =? PREFER_LAST_SEEN then Some "last-seen"
  else None.

(** ** Persistence and the temporary flag *)

Definition device_address_is_private (dev : btd_device) : bool :=
  if negb (bdaddr_type_eqb (bdaddr_type dev) BDADDR_LE_RANDOM) then false
  else
    let top := Z.shiftr (nth 5 (b (bdaddr dev)) 0) 6 in
    if top =? 0 then true          (* Private non-resolvable *)
    else if top =? 1 then true     (* Private resolvable *)
    else false.

Definition store_device_info (w : world) : M unit :=
  device <- gets id ;;
  if temporary device || (0 <? store_id device) then ret tt
  else if device_address_is_private device then ret tt
  else
    emit (IdleAdd "store_device_info_cb") ;;
    modify (with_store_id (g_idle_add w)).

Definition clear_temporary_timer : M unit :=
  dev <- gets id ;;
  when (negb (temporary_timer dev =? 0))
    (emit (TimeoutRemove (temporary_timer dev)) ;;
     modify (with_temporary_timer 0)).

Definition set_temporary_timer (w : world) (timeout : Z) : M unit :=
  clear_temporary_timer ;;
  if timeout =? 0 then ret tt
  else
    emit (TimeoutAddSeconds timeout "device_disappeared") ;;
    modify (with_temporary_timer (timeout_add_seconds w)).

Definition device_set_auto_connect (enable : bool) : M unit :=
  device <- gets id ;;
  if negb (le device) || device_address_is_private device then ret tt
  else if Bool.eqb (auto_connect device) enable then ret tt
  else
    modify (with_auto_connect enable) ;;
    if negb enable then
      (* Disabling auto connect *)
      emit (Call "adapter_connect_list_remove") ;;
      emit (Call "adapter_auto_connect_remove")
    else
      (* Inhibit auto connect if BR/EDR bearer is preferred *)
      let bearer := device_prefer_bearer_str device in
      if match bearer with
         | Some s => String.eqb s "bredr"
         | None => false
         end
      then ret tt
      else
        (* Enabling auto connect *)
        emit (Call "adapter_auto_connect_add") ;;
        if attrib device then ret tt
        else emit (Call "adapter_connect_list_add").

Definition btd_device_set_temporary (w : world) (temp : bool) : M unit :=
  device <- gets id ;;
  if Bool.eqb (temporary device) temp then ret tt
  else if device_address_is_private device then ret tt
  else
    modify (with_temporary temp) ;;
    if temp then
      when (bredr device) (emit (Call "adapter_accept_list_remove")) ;;
      emit (Call "adapter_connect_list_remove") ;;
      when (auto_connect device)
        (modify (with_disable_auto_connect true) ;;
         device_set_auto_connect false) ;;
      set_temporary_timer w (tmpto w)
    else
      clear_temporary_timer ;;
      when (bredr device) (emit (Call "adapter_accept_list_add")) ;;
      store_device_info w ;;
      (* attributes were not stored when resolved if device was temporary *)
      when (negb (bdaddr_type_eqb (bdaddr_type device) BDADDR_BREDR)
            && svc_resolved (le_state device)
            && negb (Nat.eqb (List.length (primaries device)) 0))
        (emit (Call "store_services")).

(** ** Advertising cache setters *)

(** [rssi] and [delta_threshold] are [int8_t]; the difference is taken in
    [int], where it cannot overflow. *)
Definition device_set_rssi_with_delta (new_rssi delta_threshold : Z) : M unit :=
  device <- gets id ;;
  if (new_rssi =? 0) || (rssi device =? 0) then
    if rssi device =? new_rssi then ret tt
    else
      modify (with_rssi new_rssi) ;;
      emit (PropertyChanged "RSSI")
  else
    let delta :=
      if rssi device >? new_rssi then rssi device - new_rssi
      else new_rssi - rssi device in
    (* only report changes of delta_threshold dBm or more *)
    if delta <? delta_threshold then ret tt
    else
      modify (with_rssi new_rssi) ;;
      emit (PropertyChanged "RSSI").

Definition device_set_rssi (new_rssi : Z) : M unit :=
  device_set_rssi_with_delta new_rssi RSSI_THRESHOLD.

Definition device_set_appearance (w : world) (value : Z) : M unit :=
  let icon := gap_appearance_to_icon w value in
  device <- gets id ;;
  if appearance device =? value then ret tt
  else
    emit (PropertyChanged "Appearance") ;;
    when (match icon with Some _ => true | None => false end)
      (emit (PropertyChanged "Icon")) ;;
    modify (with_appearance value) ;;
    store_device_info w.

(** ** Signature keys *)

Definition with_counter (c : Z) (k : csrk_info) : csrk_info :=
  {| key := key k; counter := c; auth := auth k |}.

(** [device_set_csrk]: types 0x00/0x02 are the local key, 0x01/0x03 the
    remote key, 0x02/0x03 authenticated; any other type is refused. *)
Definition device_set_csrk (w : world) (val : list Z) (cnt : Z) (type : Z)
    (store_hint : bool) : M unit :=
  let install (rem : bool) (authenticated : bool) : M unit :=
    let csrk := {| key := val; counter := cnt; auth := authenticated |} in
    modify (if rem then with_remote_csrk (Some csrk)
            else with_local_csrk (Some csrk)) ;;
    if negb store_hint then ret tt
    else
      store_device_info w ;;
      btd_device_set_temporary w false in
  if type =? 0 then install false false
  else if type =? 1 then install true false
  else if type =? 2 then install false true
  else if type =? 3 then install true true
  else emit (Call "warn").

(** [local_counter]: hands out the current counter and post-increments the
    stored [uint32_t]. *)
Definition local_counter (w : world) : M (option Z) :=
  dev <- gets id ;;
  match local_csrk dev with
  | None => ret None
  | Some k =>
      modify (with_local_csrk (Some (with_counter (uint32 (counter k + 1)) k))) ;;
      store_device_info w ;;
      ret (Some (counter k))
  end.

(** [remote_counter]: [true] when the received counter is accepted. *)
Definition remote_counter (w : world) (sign_cnt : Z) : M bool :=
  dev <- gets id ;;
  match remote_csrk dev with
  | None => ret false
  | Some k =>
      if sign_cnt <? counter k then ret false
      else
        modify (with_remote_csrk (Some (with_counter sign_cnt k))) ;;
        store_device_info w ;;
        ret true
  end.

(** A run of signed writes arriving with the given counters. *)
Fixpoint remote_counters (w : world) (cnts : list Z) : M (list bool) :=
  match cnts with
  | [] => ret []
  | c :: rest =>
      ok <- remote_counter w c ;;
      oks <- remote_counters w rest ;;
      ret (ok :: oks)
  end.

(** ** Bearer selection for Connect *)

Definition select_conn_bearer (w : world) (dev : btd_device) : bdaddr_type_t :=
  let current := now w in
  (* Use preferred bearer or bonded bearer in case only one is bonded *)
  if prefer (bredr_state dev)
     || (bonded (bredr_state dev) && negb (bonded (le_state dev)))
  then BDADDR_BREDR
  else if prefer (le_state dev)
          || (negb (bonded (bredr_state dev)) && bonded (le_state dev))
  then bdaddr_type dev
  (* If the address is random it can only be connected over LE *)
  else if bdaddr_type_eqb (bdaddr_type dev) BDADDR_LE_RANDOM
  then bdaddr_type dev
  else
    let bredr_last :=
      if connectable (bredr_state dev)
         && negb (last_seen (bredr_state dev) =? 0)
      then
        let since := current - last_seen (bredr_state dev) in
        if since >? SEEN_TRESHHOLD then NVAL_TIME else since
      else NVAL_TIME in
    let le_last :=
      if connectable (le_state dev) && negb (last_seen (le_state dev) =? 0)
      then
        let since := current - last_seen (le_state dev) in
        if since >? SEEN_TRESHHOLD then NVAL_TIME else since
      else NVAL_TIME in
    if (le_last =? NVAL_TIME) && (bredr_last =? NVAL_TIME)
    then bdaddr_type dev
    else if bredr dev && (negb (le dev) || (le_last =? NVAL_TIME))
    then BDADDR_BREDR
    else if le dev && (negb (bredr dev) || (bredr_last =? NVAL_TIME))
    then bdaddr_type dev
    (* Prefer BR/EDR if time is the same since it might be from an
       advertisement with BR/EDR flag set. *)
    else if (bredr_last <=? le_last) && adapter_bredr w
    then BDADDR_BREDR
    else bdaddr_type dev.

(** ** Connections, bonding requests and browse requests *)

Definition is_some {A : Type} (o : option A) : bool :=
  match o with
  | Some _ => true
  | None => false
  end.

Definition nonempty {A : Type} (l : list A) : bool :=
  match l with
  | [] => false
  | _ :: _ => true
  end.

Definition bonding_request_cancel : M unit :=
  device <- gets id ;;
  emit (AdapterCancelBonding (bdaddr_type device)).

Definition bonding_request_free (req : option bonding_req) : M unit :=
  match req with
  | None => ret tt
  | Some bd =>
      when (negb (listener_id bd =? 0)) (emit (Call "g_dbus_remove_watch")) ;;
      match bonding_agent bd with
      | Some a => emit (AgentCancel a)
      | None => ret tt
      end ;;
      when (negb (retry_timer bd =? 0)) (emit (Call "g_source_remove")) ;;
      modify (with_bonding None)
  end.

Definition device_connect_le (w : world) : M Z :=
  dev <- gets id ;;
  (* There is one connection attempt going on *)
  if att_io dev || att dev then ret (- EALREADY)
  else
    (* Set as initiator *)
    modify (fun d => with_le_state (with_initiator true (le_state d)) d) ;;
    emit (Call "bt_io_connect") ;;
    if negb (bt_io_connect w) then
      match bonding dev with
      | Some bd =>
          emit (SendMessage (ErrFailed "gerr->message") (bonding_msg bd)) ;;
          bonding_request_cancel ;;
          bonding_request_free (Some bd)
      | None => ret tt
      end ;;
      ret (- EIO)
    else
      (* Keep this, so we can cancel the connection *)
      modify (with_att_io true) ;;
      (* Restart temporary timer to give it time to connect/pair, etc. *)
      when (temporary dev) (set_temporary_timer w (tmpto w)) ;;
      ret 0.

Definition device_set_svc_refreshed (value : bool) : M unit :=
  device <- gets id ;;
  if Bool.eqb (svc_refreshed device) value then ret tt
  else
    modify (with_svc_refreshed value) ;;
    emit (PropertyChanged "ServicesResolved").

(** A device has one browse request, so [device->browse == req] holds
    whenever a request is freed. *)
Definition browse_request_free (req : browse_req) : M unit :=
  modify (with_browse None) ;;
  when (negb (browse_listener_id req =? 0)) (emit (Call "g_dbus_remove_watch")).

Definition browse_request_new (w : world) (type : browse_type_t)
    (msg : option DBusMessage) : M (option browse_req) :=
  device <- gets id ;;
  if is_some (browse device) then ret None
  else
    match msg with
    | None =>
        let req := {| browse_msg := None; browse_type := type;
                      browse_listener_id := 0 |} in
        modify (with_browse (Some req)) ;;
        ret (Some req)
    | Some m =>
        (* Track the request owner to cancel it automatically if the owner
           exits *)
        let req := {| browse_msg := Some m; browse_type := type;
                      browse_listener_id := g_dbus_add_disconnect_watch w |} in
        emit (Call "g_dbus_add_disconnect_watch") ;;
        modify (with_browse (Some req)) ;;
        ret (Some req)
    end.

Definition send_reply (r : option reply) (to : DBusMessage) : M unit :=
  match r with
  | Some x => emit (SendMessage x to)
  | None => ret tt
  end.

Section Requests.

(** [browse_request_complete] hands a Connect or ConnectProfile call whose
    browse succeeded back to [dev_connect] / [connect_profile], which are
    defined below in terms of it; [redispatch] stands for that re-entry. *)
Variable redispatch : DBusMessage -> M (option reply).
Variable w : world.

Definition browse_request_complete (req : browse_req) (type : browse_type_t)
    (t : bdaddr_type_t) (err : Z) : M unit :=
  if negb (browse_type_eqb (browse_type req) type) then ret tt
  else
    match browse_msg req with
    | None => browse_request_free req
    | Some m =>
        if String.eqb (member m) "Pair" then
          dev <- gets id ;;
          if negb (device_is_paired dev t) then
            emit (SendMessage (ErrFailed "Not paired") m) ;;
            browse_request_free req
          else
            when (pending_paired dev)
              (emit (BearerPaired (bearer_of t)) ;;
               emit (PropertyChanged "Paired") ;;
               modify (with_pending_paired false)) ;;
            (* Disregard browse errors in case of Pair *)
            emit (SendMessage MethodReturn m) ;;
            browse_request_free req
        else if negb (err =? 0) then
          dev <- gets id ;;
          (* Fallback to LE bearer if supported *)
          if (err =? - EHOSTDOWN) && bdaddr_type_eqb t BDADDR_BREDR
             && le dev && negb (connected (le_state dev))
          then
            err1 <- device_connect_le w ;;
            if err1 =? 0 then browse_request_free req
            else
              emit (SendMessage (ErrErrno t err1) m) ;;
              browse_request_free req
          else
            emit (SendMessage (ErrErrno t err) m) ;;
            browse_request_free req
        else
          (* if successfully resolved services we need to free browsing
             request before passing message back to connect functions *)
          browse_request_free req ;;
          r <- (if String.eqb (member m) "Connect"
                   || String.eqb (member m) "ConnectProfile"
                then redispatch m
                else ret (Some MethodReturn)) ;;
          send_reply r m
    end.

Fixpoint run_svc_callbacks (cbs : list svc_callback) (err : Z) : M unit :=
  match cbs with
  | [] => ret tt
  | cb :: rest =>
      when (0 <? idle_id cb) (emit (Call "g_source_remove")) ;;
      emit (SvcCallback (cb_id cb) err) ;;
      run_svc_callbacks rest err
  end.

Definition device_svc_resolved (type : browse_type_t) (t : bdaddr_type_t)
    (err : Z) : M unit :=
  dev <- gets id ;;
  let req := browse dev in
  modify (upd_state t (with_svc_resolved true)) ;;
  (* Disconnection notification can happen before this function gets
     called, so don't set svc_refreshed for a disconnected device. *)
  when (connected (get_state dev t)) (device_set_svc_refreshed true) ;;
  modify (with_eir_uuids []) ;;
  when (pending_paired dev)
    (emit (BearerPaired (bearer_of t)) ;;
     emit (PropertyChanged "Paired") ;;
     modify (with_pending_paired false)) ;;
  when (negb (temporary dev))
    (store_device_info w ;;
     when (negb (bdaddr_type_eqb t BDADDR_BREDR) && (err =? 0))
       (emit (Call "store_services"))) ;;
  match req with
  | Some r => browse_request_complete r type t err
  | None => ret tt
  end ;;
  cbs <- gets svc_callbacks ;;
  run_svc_callbacks cbs err ;;
  modify (with_svc_callbacks []) ;;
  emit (Call "btd_device_update_allowed_services") ;;
  emit (Call "device_resolved_drivers").

Definition device_browse_gatt (msg : option DBusMessage) : M Z :=
  req <- browse_request_new w BROWSE_GATT msg ;;
  match req with
  | None => ret (- EBUSY)
  | Some r =>
      if device_client w then
        (* If discovery has not yet completed, then wait for gatt-client
           to become ready. *)
        if negb (bt_gatt_client_is_ready w) then ret 0
        else
          (* Services have already been discovered, so signal this browse
             request as resolved. *)
          device <- gets id ;;
          device_svc_resolved BROWSE_GATT (bdaddr_type device) 0 ;;
          ret 0
      else
        emit (Call "bt_io_connect") ;;
        modify (with_att_io (bt_io_connect w)) ;;
        if negb (bt_io_connect w) then
          browse_request_free r ;;
          ret (- EIO)
        else ret 0
  end.

Definition device_browse_sdp (msg : option DBusMessage) : M Z :=
  req <- browse_request_new w BROWSE_SDP msg ;;
  match req with
  | None => ret (- EBUSY)
  | Some r =>
      emit (Call "bt_search") ;;
      if bt_search w <? 0 then
        browse_request_free r ;;
        ret (bt_search w)
      else ret (bt_search w)
  end.

Fixpoint connect_next_from (l : list btd_service) (err : Z) : M Z :=
  match l with
  | [] => modify (with_pending []) ;; ret err
  | service :: rest =>
      emit (Call "btd_service_connect") ;;
      if btd_service_connect w service =? 0 then
        modify (with_pending (service :: rest)) ;;
        ret 0
      else connect_next_from rest (btd_service_connect w service)
  end.

Definition connect_next : M Z :=
  dev <- gets id ;;
  connect_next_from (pending dev) (- ENOENT).

Definition resolve_services (t : bdaddr_type_t) (msg : DBusMessage)
    : M (option reply) :=
  err <- (if bdaddr_type_eqb t BDADDR_BREDR
          then device_browse_sdp (Some msg)
          else device_browse_gatt (Some msg)) ;;
  if err <? 0 then
    ret (Some (ErrFailed (if bdaddr_type_eqb t BDADDR_BREDR
                          then "ERR_BREDR_CONN_SDP_SEARCH"
                          else "ERR_LE_CONN_GATT_BROWSE")))
  else ret None.

Definition connect_profiles (t : bdaddr_type_t) (msg : DBusMessage)
    (uuid : option string) : M (option reply) :=
  dev <- gets id ;;
  if nonempty (pending dev) || is_some (connect dev) || is_some (browse dev)
  then ret (Some (ErrInProgress (Some "ERR_BREDR_CONN_BUSY")))
  else if negb (adapter_powered w) then ret (Some ErrNotReady)
  else
    btd_device_set_temporary w false ;;
    dev1 <- gets id ;;
    if negb (svc_resolved (get_state dev1 t)) then resolve_services t msg
    else
      modify (with_pending (create_pending_list w dev1 uuid)) ;;
      if negb (nonempty (create_pending_list w dev1 uuid)) then
        if svc_refreshed dev1 then
          if String.eqb (member msg) "Connect"
             && find_service_with_state (services dev1)
                  BTD_SERVICE_STATE_CONNECTED
          then ret (Some MethodReturn)
          else ret (Some ErrProfileUnavailable)
        else resolve_services t msg
      else
        err <- connect_next ;;
        if err <? 0 then
          if err =? - EALREADY then ret (Some MethodReturn)
          else ret (Some (ErrErrno BDADDR_BREDR err))
        else
          modify (with_connect (Some msg)) ;;
          ret None.

Definition dev_connect (msg : DBusMessage) : M (option reply) :=
  dev <- gets id ;;
  if is_some (bonding dev) then ret (Some (ErrInProgress None))
  else
    let t :=
      if connected (bredr_state dev) then
        (* Check if services have been resolved and there is at least one
           connected before switching to connect LE. *)
        if svc_resolved (bredr_state dev)
           && find_service_with_state (services dev)
                BTD_SERVICE_STATE_CONNECTED
        then bdaddr_type dev
        else BDADDR_BREDR
      else if connected (le_state dev) && bredr dev then BDADDR_BREDR
      else select_conn_bearer w dev in
    if negb (bdaddr_type_eqb t BDADDR_BREDR) then
      if is_some (connect dev) then ret (Some (ErrInProgress None))
      else if connected (le_state dev) then ret (Some MethodReturn)
      else
        btd_device_set_temporary w false ;;
        when (disable_auto_connect dev)
          (modify (with_disable_auto_connect false) ;;
           device_set_auto_connect true) ;;
        err <- device_connect_le w ;;
        if err <? 0 then ret (Some (ErrFailedErrno err))
        else
          modify (with_connect (Some msg)) ;;
          ret None
    else connect_profiles t msg None.

Definition connect_profile (msg : DBusMessage) : M (option reply) :=
  if negb (args_valid msg) then ret (Some ErrInvalidArgs)
  else
    match pattern msg with
    | None => ret (Some ErrInvalidArgs)
    | Some p =>
        match bt_name2string w p with
        | None => ret (Some ErrInvalidArgs)
        | Some uuid => connect_profiles BDADDR_BREDR msg (Some uuid)
        end
    end.

End Requests.

(** The request handlers with [browse_request_complete]'s re-entry tied
    back to them; [depth] bounds how many nested re-entries are followed,
    the innermost being recorded as a call only. *)
Fixpoint request (w : world) (depth : nat) (msg : DBusMessage)
    : M (option reply) :=
  match depth with
  | O => emit (Call "dev_connect") ;; ret None
  | S n =>
      if String.eqb (member msg) "Connect" then dev_connect (request w n) w msg
      else connect_profile (request w n) w msg
  end.

(** ** Disconnection *)

Definition device_update_last_seen (w : world) (t : bdaddr_type_t)
    (is_connectable : bool) : M unit :=
  modify (upd_state t (fun s =>
            with_connectable is_connectable (with_last_seen (now w) s))) ;;
  device <- gets id ;;
  if negb (temporary device) then ret tt
  else
    (* Restart temporary timer *)
    set_temporary_timer w (tmpto w).

(** [device_disconnected] picks the reason name and text from the reason
    code and emits the Disconnected signal. *)
Definition device_disconnected (reason : Z) : M unit :=
  emit (EmitSignal "Disconnected" reason).

Fixpoint reply_disconnects (l : list DBusMessage) : M bool :=
  match l with
  | [] => ret false
  | msg :: rest =>
      emit (SendMessage MethodReturn msg) ;;
      remove_device <- reply_disconnects rest ;;
      ret (String.eqb (member msg) "RemoveDevice" || remove_device)
  end.

(** The block of [device_remove_connection] that re-evaluates the paired
    flag of both bearers; the result is [paired_status_updated]. *)
Definition check_paired_status : M bool :=
  (* Check paired status of both bearers since it's possible to be paired
     but not connected via link key to LTK conversion. *)
  d1 <- gets id ;;
  let bredr_updated :=
    negb (connected (bredr_state d1)) && paired (bredr_state d1)
    && negb (bonded (bredr_state d1)) in
  when bredr_updated
    (emit (AdapterRemoveBonding BDADDR_BREDR) ;;
     modify (fun d => with_bredr_state (with_paired false (bredr_state d)) d) ;;
     emit (BearerPaired BearerBredr)) ;;
  d2 <- gets id ;;
  let le_updated :=
    negb (connected (le_state d2)) && paired (le_state d2)
    && negb (bonded (le_state d2)) in
  when le_updated
    (emit (AdapterRemoveBonding (bdaddr_type d2)) ;;
     modify (fun d => with_le_state (with_paired false (le_state d)) d) ;;
     emit (BearerPaired BearerLe)) ;;
  ret (bredr_updated || le_updated).

(** The result is [true] when [*remove] is set. *)
Definition device_remove_connection (w : world) (t : bdaddr_type_t)
    (reason : Z) : M bool :=
  device <- gets id ;;
  if negb (connected (get_state device t)) then ret false
  else
    modify (upd_state t (fun s => with_initiator false (with_connected false s))) ;;
    modify (with_general_connect false) ;;
    device_set_svc_refreshed false ;;
    when (0 <? disconn_timer device)
      (emit (TimeoutRemove (disconn_timer device)) ;;
       modify (with_disconn_timer 0)) ;;
    (* This could be executed while the client is waiting for Connect() but
       att_connect_cb has not been invoked.  In that case reply the client
       that the connection failed. *)
    match connect device with
    | Some msg =>
        emit (SendMessage (ErrFailed "ERR_BREDR_CONN_CANCELED") msg) ;;
        modify (with_connect None)
    | None => ret tt
    end ;;
    (* Update bearer interface *)
    emit (BearerDisconnected (bearer_of t) reason) ;;
    paired_status_updated <- check_paired_status ;;
    (* report change only if both bearers are unpaired *)
    d3 <- gets id ;;
    when (negb (paired (bredr_state d3)) && negb (paired (le_state d3))
          && paired_status_updated)
      (emit (PropertyChanged "Paired")) ;;
    if connected (bredr_state d3) || connected (le_state d3) then ret false
    else
      device_update_last_seen w t true ;;
      modify (with_eir_uuids []) ;;
      device_disconnected reason ;;
      emit (PropertyChanged "Connected") ;;
      (* remove device only if both bearers are disconnected *)
      d4 <- gets id ;;
      remove_device <- reply_disconnects (disconnects d4) ;;
      modify (with_disconnects []) ;;
      ret remove_device.

(** ** Pairing *)

Definition device_set_paired (t : bdaddr_type_t) : M unit :=
  dev <- gets id ;;
  if paired (get_state dev t) then ret tt
  else
    modify (upd_state t (with_paired true)) ;;
    emit (BearerPaired (bearer_of t)) ;;
    dev1 <- gets id ;;
    (* If the other bearer state was already true we don't need to send any
       property signals. *)
    if Bool.eqb (paired (bredr_state dev1)) (paired (le_state dev1)) then ret tt
    else if negb (svc_resolved (get_state dev1 t)) then
      modify (with_pending_paired true)
    else emit (PropertyChanged "Paired").

(** The bearer choice of [pair_device]: only a combo device goes through a
    selection, any other device uses its address type. *)
Definition pair_select_bearer (w : world) (device : btd_device)
    : bdaddr_type_t :=
  if bredr device && le device then
    if bonded (bredr_state device) then bdaddr_type device
    else if bonded (le_state device) then BDADDR_BREDR
    else select_conn_bearer w device
  else bdaddr_type device.

Definition pair_device (w : world) (msg : DBusMessage) : M (option reply) :=
  btd_device_set_temporary w false ;;
  if negb (args_valid msg) then ret (Some ErrInvalidArgs)
  else
    device <- gets id ;;
    if is_some (bonding device) || is_some (connect device)
    then ret (Some (ErrInProgress None))
    else
      let t := pair_select_bearer w device in
      let state := get_state device t in
      if bonded state then ret (Some ErrAlreadyExists)
      else
        let agent := agent_get w (Some (sender msg)) in
        let io_cap :=
          match agent with
          | Some a => agent_get_io_capability w a
          | None => IO_CAPABILITY_NOINPUTNOOUTPUT w
          end in
        emit (Call "g_dbus_add_disconnect_watch") ;;
        modify (with_bonding
                  (Some {| bonding_msg := msg;
                           listener_id := g_dbus_add_disconnect_watch w;
                           bonding_bdaddr_type := t;
                           bonding_agent := agent;
                           retry_timer := 0 |})) ;;
        (* Due to a bug in the kernel we might loose out on ATT commands
           that arrive during the SMP procedure, so connect the ATT channel
           first and only then start pairing *)
        err <- (if negb (bdaddr_type_eqb t BDADDR_BREDR) then
                  when (disable_auto_connect device)
                    (modify (with_disable_auto_connect false) ;;
                     device_set_auto_connect true) ;;
                  if negb (connected state) && le_connect_before_pairing w
                  then device_connect_le w
                  else if negb (connected state) then
                    emit (AdapterCreateBonding (bdaddr_type device) io_cap) ;;
                    ret (adapter_create_bonding w)
                  else
                    emit (Call "bt_att_set_security") ;;
                    if negb (bt_att_set_security w) then
                      emit (AdapterCreateBonding (bdaddr_type device) io_cap) ;;
                      ret (adapter_create_bonding w)
                    else ret 0
                else
                  emit (AdapterCreateBonding BDADDR_BREDR io_cap) ;;
                  ret (adapter_create_bonding w)) ;;
        if err <? 0 then
          d1 <- gets id ;;
          bonding_request_free (bonding d1) ;;
          ret (Some (ErrFailedErrno err))
        else ret None.

(** ** Authentication requests *)

(** The agent [new_auth] turns to: the one of the bonding request when it
    has one, else the default agent. *)
Definition new_auth_agent (w : world) (device : btd_device) : option agent :=
  match bonding device with
  | Some bd =>
      match bonding_agent bd with
      | Some a => Some a
      | None => agent_get w None
      end
  | None => agent_get w None
  end.

Definition new_auth (w : world) (t : bdaddr_type_t) (type : auth_type_t)
    (is_secure : bool) : M (option authentication_req) :=
  device <- gets id ;;
  if is_some (authr device) then ret None
  else
    let agent := new_auth_agent w device in
    match agent with
    | None => ret None
    | Some a =>
        let auth := {| auth_type := type; auth_agent := Some a;
                       addr_type := t; passkey := 0; pincode := None;
                       secure := is_secure |} in
        modify (with_authr (Some auth)) ;;
        ret (Some auth)
    end.

Definition device_auth_req_free : M unit :=
  modify (with_authr None).

(** [confirm_cb] with the agent's answer; [failed] is [err != NULL]. *)
Definition confirm_cb (failed : bool) : M unit :=
  device <- gets id ;;
  match authr device with
  | None => ret tt
  | Some auth =>
      match auth_agent auth with
      (* No need to reply anything if the authentication already failed *)
      | None => ret tt
      | Some _ =>
          emit (AdapterConfirmReply (addr_type auth) (negb failed)) ;;
          modify (with_authr
                    (Some {| auth_type := auth_type auth; auth_agent := None;
                             addr_type := addr_type auth;
                             passkey := passkey auth;
                             pincode := pincode auth;
                             secure := secure auth |}))
      end
  end.

Definition is_never (p : jw_repairing_t) : bool :=
  match p with
  | JW_REPAIRING_NEVER => true
  | _ => false
  end.

Definition is_always (p : jw_repairing_t) : bool :=
  match p with
  | JW_REPAIRING_ALWAYS => true
  | _ => false
  end.

Definition device_confirm_passkey (w : world) (type : bdaddr_type_t)
    (key : Z) (confirm_hint : Z) : M Z :=
  device <- gets id ;;
  (* Just-Works repairing policy *)
  if negb (confirm_hint =? 0) && device_is_paired device type
     && is_never (jw_repairing w)
  then
    emit (AdapterConfirmReply type false) ;;
    ret 0
  else if negb (confirm_hint =? 0) && device_is_paired device type
          && is_always (jw_repairing w)
  then
    emit (AdapterConfirmReply type true) ;;
    ret 0
  else
    auth <- new_auth w type AUTH_TYPE_CONFIRM false ;;
    match auth with
    | None => ret (- EPERM)
    | Some a =>
        modify (with_authr
                  (Some {| auth_type := auth_type a;
                           auth_agent := auth_agent a;
                           addr_type := addr_type a;
                           passkey := uint32 key;
                           pincode := pincode a;
                           secure := secure a |})) ;;
        if negb (confirm_hint =? 0) && is_some (bonding device) then
          (* We know the client has indicated the intent to pair with the
             peer device, so we can auto-accept. *)
          emit (AdapterConfirmReply type true) ;;
          ret 0
        else
          err <- (if negb (confirm_hint =? 0) then
                    emit (AgentRequestAuthorization (auth_agent a)) ;;
                    ret (agent_request_authorization w)
                  else
                    emit (AgentRequestConfirmation (auth_agent a) (uint32 key)) ;;
                    ret (agent_request_confirmation w)) ;;
          if err <? 0 then
            if err =? - EINPROGRESS then
              (* Already in progress *)
              confirm_cb false ;;
              ret 0
            else
              device_auth_req_free ;;
              ret err
          else ret err
    end.

(** ** Reference behaviour used in the statements below *)

(** The received counters that a remote key holding [stored] accepts, in
    order of arrival. *)
Fixpoint accepted_counters (stored : Z) (cnts : list Z) : list Z :=
  match cnts with
  | [] => []
  | c :: rest =>
      if c <? stored then accepted_counters stored rest
      else c :: accepted_counters c rest
  end.

(** The answers given to a run of received counters. *)
Fixpoint counter_verdicts (stored : Z) (cnts : list Z) : list bool :=
  match cnts with
  | [] => []
  | c :: rest =>
      if c <? stored then false :: counter_verdicts stored rest
      else true :: counter_verdicts c rest
  end.

(** Age of the last sighting of a bearer as [select_conn_bearer] computes
    it for [bredr_last] and [le_last]: [NVAL_TIME] unless the bearer is
    connectable, has been seen, and was seen at most [SEEN_TRESHHOLD]
    seconds ago. *)
Definition seen_since (w : world) (s : bearer_state) : Z :=
  if connectable s && negb (last_seen s =? 0) then
    let since := now w - last_seen s in
    if since >? SEEN_TRESHHOLD then NVAL_TIME else since
  else NVAL_TIME.

(** Freshness in the words of the selection algorithm: for a connectable
    bearer, now - last_seen, unknown when greater than 300 seconds. *)
Definition freshness_spec (w : world) (s : bearer_state) : option Z :=
  if connectable s then
    if now w - last_seen s >? 300 then None else Some (now w - last_seen s)
  else None.

(** Bearer selection for Connect on a dual-bearer device in the order the
    selection algorithm is worded: the bearer that alone is bonded, then a
    set prefer flag, then the LE-random address, then freshness with ties
    going to BR/EDR. *)
Definition select_conn_bearer_spec (w : world) (dev : btd_device)
    : bdaddr_type_t :=
  if bonded (bredr_state dev) && negb (bonded (le_state dev)) then BDADDR_BREDR
  else if bonded (le_state dev) && negb (bonded (bredr_state dev))
  then bdaddr_type dev
  else if prefer (bredr_state dev) then BDADDR_BREDR
  else if prefer (le_state dev) then bdaddr_type dev
  else if bdaddr_type_eqb (bdaddr_type dev) BDADDR_LE_RANDOM
  then bdaddr_type dev
  else
    match freshness_spec w (bredr_state dev), freshness_spec w (le_state dev) with
    | None, None => bdaddr_type dev
    | Some _, None => BDADDR_BREDR
    | None, Some _ => bdaddr_type dev
    | Some fb, Some fl => if fb <=? fl then BDADDR_BREDR else bdaddr_type dev
    end.

(** Bearer selection for Pair as worded: the only bearer present; else the
    other bearer when exactly one is bonded; else the Connect selection. *)
Definition pair_bearer_spec (w : world) (device : btd_device) : bdaddr_type_t :=
  if bredr device && negb (le device) then BDADDR_BREDR
  else if le device && negb (bredr device) then bdaddr_type device
  else if bonded (bredr_state device) && negb (bonded (le_state device))
  then bdaddr_type device
  else if bonded (le_state device) && negb (bonded (bredr_state device))
  then BDADDR_BREDR
  else select_conn_bearer w device.

(** The address type of a device names its LE bearer exactly when it has
    one: [device_create], [load_info] and [device_set_le_support] set the
    type together with the bearer. *)
Definition address_matches_bearers (device : btd_device) : Prop :=
  (bredr device = true \/ le device = true) /\
  (le device = true -> bdaddr_type device <> BDADDR_BREDR) /\
  (le device = false -> bdaddr_type device = BDADDR_BREDR).

(** ** Sample values *)

Definition bearer_state0 : bearer_state :=
  {| prefer := false; paired := false; bonded := false; connected := false;
     svc_resolved := false; initiator := false; connectable := false;
     last_seen := 0; last_used := 0 |}.

(** A freshly created temporary LE-public device, AA:BB:CC:DD:EE:01. *)
Definition device0 : btd_device :=
  {| bdaddr := {| b := [0x01; 0xEE; 0xDD; 0xCC; 0xBB; 0xAA] |};
     bdaddr_type := BDADDR_LE_PUBLIC; bredr := false; le := true;
     pending_paired := false; svc_refreshed := false; svc_callbacks := [];
     eir_uuids := []; appearance := 0; services := []; pending := [];
     primaries := []; temporary := true; disconn_timer := 0;
     discov_timer := 0; temporary_timer := 0; browse := None;
     bonding := None; authr := None; disconnects := []; connect := None;
     attrib := false; att := false; att_io := false;
     prefer_bearer := PREFER_LAST_USED; bredr_state := bearer_state0;
     le_state := bearer_state0; local_csrk := None; remote_csrk := None;
     trusted := false; auto_connect := false; disable_auto_connect := false;
     general_connect := false; rssi := 0; store_id := 0 |}.

(** A dual-mode device: [device0] with the BR/EDR bearer as well. *)
Definition dual0 : btd_device := with_bredr true device0.

Definition agent0 : agent := {| agent_id := 1 |}.

Definition world0 : world :=
  {| now := 1000; adapter_bredr := true; adapter_powered := true;
     tmpto := 30; jw_repairing := JW_REPAIRING_NEVER;
     le_connect_before_pairing := false;
     agent_get := fun _ => Some agent0;
     agent_get_io_capability := fun _ => 1;
     IO_CAPABILITY_NOINPUTNOOUTPUT := 3;
     g_idle_add := 7; timeout_add_seconds := 8;
     g_dbus_add_disconnect_watch := 9; bt_io_connect := true;
     bt_att_set_security := true; adapter_create_bonding := 0;
     agent_request_authorization := 0; agent_request_confirmation := 0;
     gap_appearance_to_icon := fun _ => None;
     bt_name2string := fun s => Some s;
     create_pending_list := fun _ _ => [];
     btd_service_connect := fun _ => 0;
     bt_search := 0; bt_gatt_client_is_ready := false;
     device_client := false |}.

Definition pair_msg : DBusMessage :=
  {| member := "Pair"; sender := ":1.42"; args_valid := true;
     pattern := None |}.

Definition connect_msg : DBusMessage :=
  {| member := "Connect"; sender := ":1.42"; args_valid := true;
     pattern := None |}.

(** ** Reasoning about computations *)

(** [post m d Q]: running [m] from device [d] yields a value, a device and
    a trace that satisfy [Q]. *)
Definition post {A : Type} (m : M A) (d : btd_device)
    (Q : A -> btd_device -> list event -> Prop) : Prop :=
  Q (value_of (m d)) (device_of (m d)) (trace_of (m d)).

(** [keeps I E m]: from a device satisfying [I], [m] ends in a device
    satisfying [I] and makes only calls accepted by [E]. *)
Definition keeps {A : Type} (I : btd_device -> Prop) (E : event -> bool)
    (m : M A) : Prop :=
  forall d, I d -> post m d (fun _ d' t => I d' /\ forallb E t = true).

(** Events that neither announce a change of Paired nor remove a bonding. *)
Definition quiet (e : event) : bool :=
  match e with
  | PropertyChanged n => negb (String.eqb n "Paired")
  | AdapterRemoveBonding _ => false
  | _ => true
  end.

(** The part of a trace that is not [quiet]. *)
Definition loud (t : list event) : list event :=
  filter (fun e => negb (quiet e)) t.

Definition pairing (s : bearer_state) : bool * bool * bool :=
  (paired s, bonded s, connected s).

(** The paired, bonded and connected flags of both bearers and the address
    type. *)
Definition flags (d : btd_device)
    : (bool * bool * bool) * (bool * bool * bool) * bdaddr_type_t :=
  (pairing (bredr_state d), pairing (le_state d), bdaddr_type d).

(** A computation that leaves [flags] alone and is [quiet]. *)
Definition framed {A : Type} (m : M A) : Prop :=
  forall p, keeps (fun d => flags d = p) quiet m.

(** What [check_paired_status] does to the flags of one bearer: a bearer
    that is disconnected and paired without being bonded loses [paired]. *)
Definition unpairs (p : bool * bool * bool) : bool :=
  let '(pa, bo, co) := p in negb co && pa && negb bo.

Definition unpair (p : bool * bool * bool) : bool * bool * bool :=
  let '(pa, bo, co) := p in if unpairs p then (false, bo, co) else p.

(** The adapter call that drops the bonding material of the bearer [t]
    names. *)
Definition removes_bonding_of (d : btd_device) (t : bdaddr_type_t) : event :=
  AdapterRemoveBonding
    (if bdaddr_type_eqb t BDADDR_BREDR then BDADDR_BREDR else bdaddr_type d).

(** What the request handlers read of a device before they start a
    bonding or a connection. *)
Definition request_view (d : btd_device) :=
  (bredr_state d, le_state d, bdaddr_type d, bredr d, le d,
   bonding d, connect d, browse d, pending d).

(** No deferred Paired signal is waiting. *)
Definition nothing_deferred (d : btd_device) : Prop :=
  pending_paired d = false.

Definition not_paired_changed (e : event) : bool :=
  negb (is_property_changed "Paired" e).

(** A computation that has no deferred Paired signal to deliver and
    defers none. *)
Definition calm {A : Type} (m : M A) : Prop :=
  keeps nothing_deferred not_paired_changed m.

Definition any_event (e : event) : bool := true.

(** A dual-mode device that prefers BR/EDR and is bonded over LE only. *)
Definition prefers_bredr_bonded_le : btd_device :=
  with_bredr_state (with_prefer true bearer_state0)
    (with_le_state (with_bonded true (with_paired true bearer_state0)) dual0).

(** A dual-mode device connected over BR/EDR, paired there but not bonded. *)
Definition paired_unbonded_bredr : btd_device :=
  with_bredr_state (with_connected true (with_paired true bearer_state0)) dual0.

(** A dual-mode device seen on both bearers 100 seconds before [now]. *)
Definition seen_both : btd_device :=
  with_bredr_state (with_last_seen 900 (with_connectable true bearer_state0))
    (with_le_state (with_last_seen 900 (with_connectable true bearer_state0))
       dual0).

(** A dual-mode device bonded over BR/EDR only. *)
Definition bonded_bredr_dual : btd_device :=
  with_bredr_state (with_bonded true (with_paired true bearer_state0)) dual0.

(** An LE device on which a service discovery with no requester is
    outstanding. *)
Definition browsing : btd_device :=
  with_browse (Some {| browse_msg := None; browse_type := BROWSE_GATT;
                       browse_listener_id := 0 |}) device0.

(** An LE device with a Pair request in flight. *)
Definition bonding0 : btd_device :=
  with_bonding (Some {| bonding_msg := pair_msg; listener_id := 9;
                        bonding_bdaddr_type := BDADDR_LE_PUBLIC;
                        bonding_agent := Some agent0; retry_timer := 0 |})
    device0.

Definition private0 : btd_device :=
  with_bdaddr {| b := [0x01; 0x02; 0x03; 0x04; 0x05; 0x46] |}
    (with_bdaddr_type BDADDR_LE_RANDOM device0).

Definition csrk5 : csrk_info :=
  {| key := repeat 0 16; counter := 5; auth := false |}.

(** * Further functions of [src/device.c]

    The functions around the ones above: the preferred-bearer policy and
    the last-used bookkeeping, bearer support, the connectable flag, a new
    connection, the bonded flag, the D-Bus property getters of Paired,
    Bonded and Connected, the temporary timer running out, the
    service-complete callbacks, the authentication requests made to the
    agent and their cancellation, and service discovery on demand.  Logging
    ([DBG], [error], [info]) is left out. *)

(** ** Further field assignments *)

Definition with_last_used : Z -> bearer_state -> bearer_state :=
  ltac:(field_update eta_bearer_state last_used).
Definition with_le : bool -> btd_device -> btd_device :=
  ltac:(field_update eta_device le).
Definition with_prefer_bearer : Z -> btd_device -> btd_device :=
  ltac:(field_update eta_device prefer_bearer).
Definition with_discov_timer : Z -> btd_device -> btd_device :=
  ltac:(field_update eta_device discov_timer).

Definition with_auth_agent (a : option agent) (auth : authentication_req)
    : authentication_req :=
  {| auth_type := auth_type auth; auth_agent := a;
     addr_type := addr_type auth; passkey := passkey auth;
     pincode := pincode auth; secure := secure auth |}.

Definition with_pincode (p : option string) (auth : authentication_req)
    : authentication_req :=
  {| auth_type := auth_type auth; auth_agent := auth_agent auth;
     addr_type := addr_type auth; passkey := passkey auth;
     pincode := p; secure := secure auth |}.

(** ** Further collaborators *)

(** [btd_opts.mode]. *)
Inductive bt_mode_t : Type :=
  | BT_MODE_DUAL
  | BT_MODE_BREDR
  | BT_MODE_LE.

(** Settings of [btd_opts] and results of calls, beside those of [world],
    that the functions below read. *)
Record settings : Type := {
  mode : bt_mode_t;                          (* btd_opts.mode *)
  reverse_discovery : bool;                  (* btd_opts.reverse_discovery *)
  btd_bearer_new : bdaddr_type_t -> bool;    (* a bearer object was obtained *)
  agent_request_pincode : Z;
  agent_request_passkey : Z;
  agent_display_passkey : Z;
  agent_display_pincode : Z
}.

Definition is_le_mode (m : bt_mode_t) : bool :=
  match m with
  | BT_MODE_LE => true
  | _ => false
  end.

Definition is_bredr_mode (m : bt_mode_t) : bool :=
  match m with
  | BT_MODE_BREDR => true
  | _ => false
  end.

(** ** Property getters

    Each getter appends one boolean to the reply; the embedding gives that
    boolean. *)

Definition dev_property_get_paired (dev : btd_device) : bool :=
  if paired (bredr_state dev) || paired (le_state dev) then true else false.

Definition dev_property_get_bonded (dev : btd_device) : bool :=
  if bonded (bredr_state dev) || bonded (le_state dev) then true else false.

Definition dev_property_get_connected (dev : btd_device) : bool :=
  if connected (bredr_state dev) || connected (le_state dev) then true
  else false.

Definition device_is_authenticating (device : btd_device) : bool :=
  is_some (authr device).

(** ** Preferred bearer *)

Definition device_set_prefer_bearer (bearer : Z) : M bool :=
  if bearer =? PREFER_LAST_USED then
    modify (with_prefer_bearer PREFER_LAST_USED) ;;
    ret true
  else if bearer =? PREFER_LE then
    modify (with_prefer_bearer PREFER_LE) ;;
    modify (fun d => with_le_state (with_prefer true (le_state d)) d) ;;
    modify (fun d => with_bredr_state (with_prefer false (bredr_state d)) d) ;;
    ret true
  else if bearer =? PREFER_BREDR then
    modify (with_prefer_bearer PREFER_BREDR) ;;
    modify (fun d => with_bredr_state (with_prefer true (bredr_state d)) d) ;;
    modify (fun d => with_le_state (with_prefer false (le_state d)) d) ;;
    ret true
  else if bearer =? PREFER_LAST_SEEN then
    modify (with_prefer_bearer PREFER_LAST_SEEN) ;;
    modify (fun d => with_bredr_state (with_prefer false (bredr_state d)) d) ;;
    modify (fun d => with_le_state (with_prefer false (le_state d)) d) ;;
    ret true
  else ret false.

Definition device_set_prefer_bearer_str (str : string) : M bool :=
  if String.eqb str "last-used" then device_set_prefer_bearer PREFER_LAST_USED
  else if String.eqb str "le" then device_set_prefer_bearer PREFER_LE
  else if String.eqb str "bredr" then device_set_prefer_bearer PREFER_BREDR
  else if String.eqb str "last-seen"
  then device_set_prefer_bearer PREFER_LAST_SEEN
  else ret false.

Definition device_update_last_used (w : world) (t : bdaddr_type_t) : M unit :=
  modify (upd_state t (with_last_used (now w))) ;;
  device <- gets id ;;
  if negb (prefer_bearer device =? PREFER_LAST_USED) then ret tt
  else
    (* If current policy is to prefer last used bearer update the state. *)
    modify (upd_state t (with_prefer true)) ;;
    d1 <- gets id ;;
    (if bdaddr_type_eqb t BDADDR_BREDR then
       when (prefer (le_state d1))
         (modify (fun d => with_le_state (with_prefer false (le_state d)) d) ;;
          (* Remove device from auto-connect list so the kernel does not
             attempt to auto-connect to it in case it starts advertising. *)
          device_set_auto_connect false)
     else
       when (prefer (bredr_state d1))
         (modify (fun d =>
                    with_bredr_state (with_prefer false (bredr_state d)) d) ;;
          (* Add device to auto-connect list *)
          device_set_auto_connect true)) ;;
    store_device_info w.

(** ** Bearer support and the connectable flag *)

Definition device_set_bredr_support (w : world) (o : settings) : M unit :=
  device <- gets id ;;
  if is_le_mode (mode o) || bredr device then ret tt
  else
    emit (Call "btd_bearer_new") ;;
    modify (with_bredr (btd_bearer_new o BDADDR_BREDR)) ;;
    when (le device) (emit (PropertyChanged "PreferredBearer")) ;;
    store_device_info w.

Definition device_set_le_support (w : world) (o : settings)
    (t : bdaddr_type_t) : M unit :=
  device <- gets id ;;
  if is_bredr_mode (mode o) || le device then ret tt
  else
    emit (Call "btd_bearer_new") ;;
    modify (with_le (btd_bearer_new o BDADDR_LE_PUBLIC)) ;;
    modify (with_bdaddr_type t) ;;
    emit (PropertyChanged "AddressType") ;;
    when (bredr device) (emit (PropertyChanged "PreferredBearer")) ;;
    store_device_info w.

Definition btd_device_set_connectable (w : world) (is_connectable : bool)
    : M unit :=
  device <- gets id ;;
  device_update_last_seen w (bdaddr_type device) is_connectable.

Definition device_is_connectable (device : btd_device) : bool :=
  if bredr device then true
  else connectable (get_state device (bdaddr_type device)).

(** ** A new connection *)

(** [device_add_connection]: the fields [conn_bdaddr] and
    [conn_bdaddr_type], which no embedded function reads, are not part of
    the device record; what the function stores into them is its result,
    [None] when it stores nothing.  [flags & BIT(3)] is bit 3 of [flags]. *)
Definition device_add_connection (w : world) (o : settings)
    (t : bdaddr_type_t) (conn_flags : Z)
    : M (option (bdaddr_t * bdaddr_type_t)) :=
  device_update_last_seen w t true ;;
  device_update_last_used w t ;;
  dev <- gets id ;;
  if connected (get_state dev t) then ret None
  else
    let conn := (bdaddr dev, bdaddr_type dev) in
    (* If this is the first connection over this bearer *)
    (if bdaddr_type_eqb t BDADDR_BREDR then
       device_set_bredr_support w o ;;
       emit (Call "btd_bearer_connected")
     else
       device_set_le_support w o t ;;
       emit (Call "btd_bearer_connected")) ;;
    modify (upd_state t (fun s =>
              with_initiator (Z.testbit conn_flags 3)
                (with_connected true s))) ;;
    d1 <- gets id ;;
    if connected (le_state d1) && connected (bredr_state d1)
    then ret (Some conn)
    else
      (* Remove temporary timer while connected *)
      clear_temporary_timer ;;
      emit (PropertyChanged "Connected") ;;
      ret (Some conn).

Definition btd_device_is_initiator (dev : btd_device) : bool :=
  if connected (le_state dev) then initiator (le_state dev)
  else if connected (bredr_state dev) then initiator (bredr_state dev)
  else if is_some (bonding dev) then true
  else if att_io dev then true else false.

(** ** The bonded flag *)

Definition device_set_bonded (w : world) (t : bdaddr_type_t) : M unit :=
  device <- gets id ;;
  if bonded (get_state device t) then ret tt
  else
    modify (upd_state t (with_bonded true)) ;;
    emit (Call "btd_bearer_bonded") ;;
    btd_device_set_temporary w false ;;
    d1 <- gets id ;;
    (* If the other bearer state was already true we don't need to send any
       property signals. *)
    if Bool.eqb (bonded (bredr_state d1)) (bonded (le_state d1)) then ret tt
    else emit (PropertyChanged "Bonded").

Definition device_remove_bonding (w : world) (t : bdaddr_type_t) : M unit :=
  (if bdaddr_type_eqb t BDADDR_BREDR
   then modify (fun d => with_bredr_state (with_bonded false (bredr_state d)) d)
   else modify (fun d => with_le_state (with_bonded false (le_state d)) d)) ;;
  d1 <- gets id ;;
  when (negb (bonded (bredr_state d1)) && negb (bonded (le_state d1)))
    (btd_device_set_temporary w true) ;;
  emit (AdapterRemoveBonding t).

(** ** The temporary timer running out *)

Definition device_service_connected (dev : btd_device) : bool :=
  if find_service_with_state (services dev) BTD_SERVICE_STATE_CONNECTING
  then true
  else find_service_with_state (services dev) BTD_SERVICE_STATE_CONNECTED.

(** [device_disappeared]: the result is [TRUE] when the timer is to run
    again. *)
Definition device_disappeared : M bool :=
  dev <- gets id ;;
  (* If there are services connected restart the timer to give more time
     for the service to either complete the connection or disconnect. *)
  if device_service_connected dev then ret true
  else
    modify (with_temporary_timer 0) ;;
    emit (Call "btd_adapter_remove_device") ;;
    ret false.

(** ** Service-complete callbacks *)

(** The list without its first callback of the given id: what
    [g_slist_remove] leaves when handed the callback found under that
    id. *)
Fixpoint svc_callbacks_remove (l : list svc_callback) (ident : Z)
    : list svc_callback :=
  match l with
  | [] => []
  | cb :: rest =>
      if cb_id cb =? ident then rest
      else cb :: svc_callbacks_remove rest ident
  end.

Fixpoint find_svc_callback (l : list svc_callback) (ident : Z)
    : option svc_callback :=
  match l with
  | [] => None
  | cb :: rest =>
      if cb_id cb =? ident then Some cb else find_svc_callback rest ident
  end.

(** [device_wait_for_svc_complete]: [last_id] is the value of the function's
    [static unsigned int id] when it is entered; the result is [cb->id],
    which is also the value the static is left with. *)
Definition device_wait_for_svc_complete (w : world) (o : settings)
    (last_id : Z) : M Z :=
  (* This API is only used for BR/EDR (for now) *)
  dev <- gets id ;;
  let state := bredr_state dev in
  let ident := uint32 (last_id + 1) in
  if svc_resolved state || negb (reverse_discovery o) then
    emit (IdleAdd "svc_idle_cb") ;;
    modify (with_svc_callbacks
              ({| cb_id := ident; idle_id := g_idle_add w |}
               :: svc_callbacks dev)) ;;
    ret ident
  else
    modify (with_svc_callbacks
              ({| cb_id := ident; idle_id := 0 |} :: svc_callbacks dev)) ;;
    when (0 <? discov_timer dev) (emit (TimeoutRemove (discov_timer dev))) ;;
    emit (TimeoutAddSeconds 0 "start_discovery") ;;
    modify (with_discov_timer (timeout_add_seconds w)) ;;
    ret ident.

Definition device_remove_svc_complete_callback (ident : Z) : M bool :=
  dev <- gets id ;;
  match find_svc_callback (svc_callbacks dev) ident with
  | None => ret false
  | Some cb =>
      when (0 <? idle_id cb) (emit (Call "g_source_remove")) ;;
      modify (with_svc_callbacks
                (svc_callbacks_remove (svc_callbacks dev) ident)) ;;
      ret true
  end.

(** [svc_idle_cb] for the callback registered under [cb]. *)
Definition svc_idle_cb (cb : svc_callback) : M unit :=
  modify (fun d =>
            with_svc_callbacks
              (svc_callbacks_remove (svc_callbacks d) (cb_id cb)) d) ;;
  emit (SvcCallback (cb_id cb) 0).

(** ** Service discovery on demand *)

Section Discovery.

Variable redispatch : DBusMessage -> M (option reply).
Variable w : world.

Definition start_discovery : M bool :=
  device <- gets id ;;
  (if bredr device then device_browse_sdp w None
   else device_browse_gatt redispatch w None) ;;
  modify (with_discov_timer 0) ;;
  ret false.

Definition device_discover_services : M Z :=
  device <- gets id ;;
  err <- (if bredr device then device_browse_sdp w None
          else device_browse_gatt redispatch w None) ;;
  d1 <- gets id ;;
  when ((err =? 0) && negb (discov_timer d1 =? 0))
    (emit (TimeoutRemove (discov_timer d1)) ;;
     modify (with_discov_timer 0)) ;;
  ret err.

End Discovery.

(** ** Authentication requests to the agent *)

(** [pincode_cb], [passkey_cb] and [display_pincode_cb] are handed the
    request they were registered with, which is [device->authr]; the reply
    they pass to the adapter is recorded as the call. *)
Definition pincode_cb : M unit :=
  device <- gets id ;;
  match authr device with
  | None => ret tt
  | Some auth =>
      match auth_agent auth with
      (* No need to reply anything if the authentication already failed *)
      | None => ret tt
      | Some _ =>
          emit (Call "btd_adapter_pincode_reply") ;;
          modify (with_authr (Some (with_auth_agent None auth)))
      end
  end.

Definition passkey_cb : M unit :=
  device <- gets id ;;
  match authr device with
  | None => ret tt
  | Some auth =>
      match auth_agent auth with
      (* No need to reply anything if the authentication already failed *)
      | None => ret tt
      | Some _ =>
          emit (Call "btd_adapter_passkey_reply") ;;
          modify (with_authr (Some (with_auth_agent None auth)))
      end
  end.

Definition display_pincode_cb : M unit :=
  pincode_cb ;;
  modify (fun d =>
            match authr d with
            | Some auth => with_authr (Some (with_pincode None auth)) d
            | None => d
            end).

Definition device_request_pincode (w : world) (o : settings)
    (is_secure : bool) : M Z :=
  auth <- new_auth w BDADDR_BREDR AUTH_TYPE_PINCODE is_secure ;;
  match auth with
  | None => ret (- EPERM)
  | Some _ =>
      emit (Call "agent_request_pincode") ;;
      when (agent_request_pincode o <? 0) device_auth_req_free ;;
      ret (agent_request_pincode o)
  end.

Definition device_request_passkey (w : world) (o : settings)
    (type : bdaddr_type_t) : M Z :=
  auth <- new_auth w type AUTH_TYPE_PASSKEY false ;;
  match auth with
  | None => ret (- EPERM)
  | Some _ =>
      emit (Call "agent_request_passkey") ;;
      when (agent_request_passkey o <? 0) device_auth_req_free ;;
      ret (agent_request_passkey o)
  end.

Definition is_notify_passkey (t : auth_type_t) : bool :=
  match t with
  | AUTH_TYPE_NOTIFY_PASSKEY => true
  | _ => false
  end.

Definition device_notify_passkey (w : world) (o : settings)
    (type : bdaddr_type_t) : M Z :=
  device <- gets id ;;
  auth <- match authr device with
          | Some auth =>
              if negb (is_notify_passkey (auth_type auth)) then ret None
              else ret (Some auth)
          | None => new_auth w type AUTH_TYPE_NOTIFY_PASSKEY false
          end ;;
  match auth with
  | None => ret (- EPERM)
  | Some _ =>
      emit (Call "agent_display_passkey") ;;
      when (agent_display_passkey o <? 0) device_auth_req_free ;;
      ret (agent_display_passkey o)
  end.

Definition device_notify_pincode (w : world) (o : settings)
    (is_secure : bool) (pin : string) : M Z :=
  auth <- new_auth w BDADDR_BREDR AUTH_TYPE_NOTIFY_PINCODE is_secure ;;
  match auth with
  | None => ret (- EPERM)
  | Some a =>
      modify (with_authr (Some (with_pincode (Some pin) a))) ;;
      emit (Call "agent_display_pincode") ;;
      let err := agent_display_pincode o in
      if err <? 0 then
        if err =? - EINPROGRESS then
          (* Already in progress *)
          display_pincode_cb ;;
          ret 0
        else
          device_auth_req_free ;;
          ret err
      else ret err
  end.

(** [cancel_authentication] is called on [device->authr]; it takes the
    agent out of the request before it runs the callback of the request's
    type with a Canceled error. *)
Definition cancel_authentication : M unit :=
  device <- gets id ;;
  match authr device with
  | None => ret tt
  | Some auth =>
      match auth_agent auth with
      | None => ret tt
      | Some _ =>
          modify (with_authr (Some (with_auth_agent None auth))) ;;
          match auth_type auth with
          | AUTH_TYPE_PINCODE => pincode_cb
          | AUTH_TYPE_CONFIRM => confirm_cb true
          | AUTH_TYPE_PASSKEY => passkey_cb
          (* User Notify doesn't require any reply *)
          | AUTH_TYPE_NOTIFY_PASSKEY => ret tt
          | AUTH_TYPE_NOTIFY_PINCODE => pincode_cb
          end
      end
  end.

(** [device->adapter] is set for every device. *)
Definition device_cancel_authentication (aborted : bool) : M unit :=
  emit (Call "btd_adapter_cancel_service_auth") ;;
  device <- gets id ;;
  match authr device with
  | None => ret tt
  | Some auth =>
      match auth_agent auth with
      | Some a => emit (AgentCancel a)
      | None => ret tt
      end ;;
      when (negb aborted) cancel_authentication ;;
      device_auth_req_free
  end.

(** ** Reference notions used in the statements below *)

(** How often a given event occurs in a trace. *)
Definition is_call (f : string) (e : event) : bool :=
  match e with
  | Call g => String.eqb g f
  | _ => false
  end.

Definition calls (f : string) (t : list event) : nat :=
  List.length (filter (is_call f) t).

(** Events other than the change of the named property. *)
Definition silent (n : string) (e : event) : bool :=
  negb (is_property_changed n e).

(** Events that neither announce a property nor remove a bonding. *)
Definition housekeeping (e : event) : bool :=
  match e with
  | PropertyChanged _ => false
  | AdapterRemoveBonding _ => false
  | _ => true
  end.

(** What a disconnection lets a D-Bus client see: the changes of Connected
    and Paired, the Disconnected signal and the method returns. *)
Definition notable (e : event) : bool :=
  match e with
  | PropertyChanged n => String.eqb n "Connected" || String.eqb n "Paired"
  | EmitSignal _ _ => true
  | SendMessage MethodReturn _ => true
  | _ => false
  end.

Definition unnotable (e : event) : bool := negb (notable e).

(** The flags of both bearers together with the queued Disconnect
    requests. *)
Definition disconnect_view (d : btd_device) :=
  (flags d, disconnects d).

(** Which bearers are connected. *)
Definition connections (d : btd_device) : bool * bool :=
  (connected (bredr_state d), connected (le_state d)).

(** The flags of a bearer once its connection is gone. *)
Definition unconnected (p : bool * bool * bool) : bool * bool * bool :=
  let '(pa, bo, _) := p in (pa, bo, false).

Definition is_method_return (e : event) : bool :=
  match e with
  | SendMessage MethodReturn _ => true
  | _ => false
  end.

Definition is_remove_device (m : DBusMessage) : bool :=
  String.eqb (member m) "RemoveDevice".

(** A reply handed to the adapter for an authentication request. *)
Definition is_adapter_reply (e : event) : bool :=
  match e with
  | AdapterConfirmReply _ _ => true
  | Call f =>
      String.eqb f "btd_adapter_pincode_reply"
      || String.eqb f "btd_adapter_passkey_reply"
  | _ => false
  end.

Definition is_svc_callback (e : event) : bool :=
  match e with
  | SvcCallback _ _ => true
  | _ => false
  end.

(** What the bearer selection reads of the prefer and bonded flags. *)
Definition prefer_view (d : btd_device) : bool * bool * bool * bool * bdaddr_type_t :=
  (prefer (bredr_state d), prefer (le_state d),
   bonded (bredr_state d), bonded (le_state d), bdaddr_type d).

(** What the bearer selection reads of a device. *)
Definition selection_view (d : btd_device) :=
  (bredr_state d, le_state d, bdaddr_type d, bredr d, le d).

(** At most one bearer carries the prefer flag. *)
Definition one_preferred (d : btd_device) : Prop :=
  prefer (bredr_state d) && prefer (le_state d) = false.

(** A device that is bonded on some bearer is not temporary. *)
Definition bonded_is_kept (d : btd_device) : Prop :=
  dev_property_get_bonded d = true -> temporary d = false.

(** The temporary timer runs only on a temporary device. *)
Definition timer_when_temporary (d : btd_device) : Prop :=
  temporary d = false -> temporary_timer d = 0.

(** Every registered callback has an id between 1 and [last_id], and no two
    share one. *)
Definition svc_ids_fresh (last_id : Z) (d : btd_device) : Prop :=
  Forall (fun cb => 0 < cb_id cb <= last_id) (svc_callbacks d) /\
  NoDup (map cb_id (svc_callbacks d)).

Definition not_svc_callback (e : event) : bool := negb (is_svc_callback e).

(** No callback is registered under the id. *)
Definition has_no_callback (ident : Z) (d : btd_device) : Prop :=
  ~ In ident (map cb_id (svc_callbacks d)).

(** Events other than the invocation of the callback of the id. *)
Definition not_callback (ident : Z) (e : event) : bool :=
  match e with
  | SvcCallback i _ => negb (i =? ident)
  | _ => true
  end.

(** The first of the services that [btd_service_connect] accepts, with
    the services before and after it. *)
Fixpoint first_willing (w : world) (l : list btd_service)
    : option (list btd_service * btd_service * list btd_service) :=
  match l with
  | [] => None
  | s :: rest =>
      if btd_service_connect w s =? 0 then Some ([], s, rest)
      else match first_willing w rest with
           | Some (before, x, after) => Some (s :: before, x, after)
           | None => None
           end
  end.

(** ** Further sample values *)

(** An LE device with a passkey request made to the agent. *)
Definition authenticating : btd_device :=
  with_authr (Some {| auth_type := AUTH_TYPE_PASSKEY;
                      auth_agent := Some agent0;
                      addr_type := BDADDR_LE_PUBLIC; passkey := 0;
                      pincode := None; secure := false |}) device0.

(** An LE device with two callbacks waiting, the first to run from idle. *)
Definition waiting : btd_device :=
  with_svc_callbacks [{| cb_id := 2; idle_id := 7 |};
                      {| cb_id := 1; idle_id := 0 |}] device0.

Definition disconnect_msg : DBusMessage :=
  {| member := "Disconnect"; sender := ":1.42"; args_valid := true;
     pattern := None |}.

(** An LE device, connected, with a Disconnect request waiting. *)
Definition disconnecting : btd_device :=
  with_disconnects [disconnect_msg]
    (with_le_state (with_connected true bearer_state0) device0).

(** [world0], except that no I/O channel can be obtained. *)
Definition unreachable0 : world :=
  {| now := 1000; adapter_bredr := true; adapter_powered := true;
     tmpto := 30; jw_repairing := JW_REPAIRING_NEVER;
     le_connect_before_pairing := false;
     agent_get := fun _ => Some agent0;
     agent_get_io_capability := fun _ => 1;
     IO_CAPABILITY_NOINPUTNOOUTPUT := 3;
     g_idle_add := 7; timeout_add_seconds := 8;
     g_dbus_add_disconnect_watch := 9; bt_io_connect := false;
     bt_att_set_security := true; adapter_create_bonding := 0;
     agent_request_authorization := 0; agent_request_confirmation := 0;
     gap_appearance_to_icon := fun _ => None;
     bt_name2string := fun s => Some s;
     create_pending_list := fun _ _ => [];
     btd_service_connect := fun _ => 0;
     bt_search := 0; bt_gatt_client_is_ready := false;
     device_client := false |}.

Definition settings0 : settings :=
  {| mode := BT_MODE_DUAL; reverse_discovery := true;
     btd_bearer_new := fun _ => true;
     agent_request_pincode := 0; agent_request_passkey := 0;
     agent_display_passkey := 0; agent_display_pincode := 0 |}.

(** * Properties *)

(** ** Running computations *)

Ltac run := cbv [bind ret gets modify emit when value_of device_of trace_of id].

Lemma bind_run {A B : Type} (m : M A) (k : A -> M B) d a d1 t1 :
  m d = (a, d1, t1) ->
  bind m k d = (let '(r, d2, t2) := k a d1 in (r, d2, t1 ++ t2)).
Proof. intros H. unfold bind. rewrite H. reflexivity. Qed.

Lemma post_bind {A B : Type} (m : M A) (k : A -> M B) d Q :
  post m d (fun a d1 t1 => post (k a) d1 (fun r d2 t2 => Q r d2 (t1 ++ t2))) ->
  post (bind m k) d Q.
Proof.
  unfold post, bind, value_of, device_of, trace_of.
  destruct (m d) as [[a d1] t1]. cbn.
  destruct (k a d1) as [[r d2] t2]. cbn. auto.
Qed.

Lemma post_ret {A : Type} (a : A) d (Q : A -> btd_device -> list event -> Prop) :
  Q a d [] -> post (ret a) d Q.
Proof. auto. Qed.

Lemma post_gets {A : Type} (f : btd_device -> A) d
    (Q : A -> btd_device -> list event -> Prop) :
  Q (f d) d [] -> post (gets f) d Q.
Proof. auto. Qed.

Lemma post_modify (g : btd_device -> btd_device) d
    (Q : unit -> btd_device -> list event -> Prop) :
  Q tt (g d) [] -> post (modify g) d Q.
Proof. auto. Qed.

Lemma post_emit (e : event) d (Q : unit -> btd_device -> list event -> Prop) :
  Q tt d [e] -> post (emit e) d Q.
Proof. auto. Qed.

Lemma post_conseq {A : Type} (m : M A) d
    (Q Q' : A -> btd_device -> list event -> Prop) :
  post m d Q -> (forall a d' t, Q a d' t -> Q' a d' t) -> post m d Q'.
Proof. unfold post. auto. Qed.

(** A property of the result alone holds of [bind m k] when it holds of
    the continuation wherever it starts. *)
Lemma post_bind_value {A B : Type} (m : M A) (k : A -> M B) d (P : B -> Prop) :
  (forall a d1, post (k a) d1 (fun r _ _ => P r)) ->
  post (bind m k) d (fun r _ _ => P r).
Proof.
  intros H. apply post_bind. unfold post at 1. cbv beta. apply H.
Qed.

(** One step of symbolic execution. *)
Ltac wp_step :=
  lazymatch goal with
  | |- post (bind _ _) _ _ => apply post_bind
  | |- post (ret _) _ _ => apply post_ret
  | |- post (gets _) _ _ => apply post_gets
  | |- post (modify _) _ _ => apply post_modify
  | |- post (emit _) _ _ => apply post_emit
  | |- post (when _ _) _ _ => unfold when
  | |- post (if true then _ else _) _ _ => cbv iota
  | |- post (if false then _ else _) _ _ => cbv iota
  | |- post (if ?c then _ else _) _ _ => destruct c eqn:?
  | |- post (match ?x with _ => _ end) _ _ => destruct x eqn:?
  end; cbv beta.

Ltac wp := repeat wp_step.

(** ** Invariants kept by a computation *)

Section Keeps.

Variable I : btd_device -> Prop.
Variable E : event -> bool.

Lemma keeps_bind {A B : Type} (m : M A) (k : A -> M B) :
  keeps I E m -> (forall a, keeps I E (k a)) -> keeps I E (bind m k).
Proof.
  intros Hm Hk d Hd. apply post_bind.
  eapply post_conseq; [apply Hm; exact Hd|]. intros a d1 t1 [H1 Hq1]. cbv beta.
  eapply post_conseq; [apply Hk; exact H1|]. intros r d2 t2 [H2 Hq2]. cbv beta.
  split; [exact H2|]. rewrite forallb_app, Hq1, Hq2. reflexivity.
Qed.

Lemma keeps_ret {A : Type} (a : A) : keeps I E (ret a).
Proof. intros d Hd. split; [exact Hd | reflexivity]. Qed.

Lemma keeps_gets {A : Type} (f : btd_device -> A) : keeps I E (gets f).
Proof. intros d Hd. split; [exact Hd | reflexivity]. Qed.

Lemma keeps_emit (e : event) : E e = true -> keeps I E (emit e).
Proof. intros He d Hd. split; [exact Hd|]. cbn. rewrite He. reflexivity. Qed.

Lemma keeps_modify (g : btd_device -> btd_device) :
  (forall d, I d -> I (g d)) -> keeps I E (modify g).
Proof. intros Hg d Hd. split; [apply Hg; exact Hd | reflexivity]. Qed.

Lemma keeps_when (c : bool) (m : M unit) : keeps I E m -> keeps I E (when c m).
Proof. intros Hm. destruct c; [exact Hm | apply keeps_ret]. Qed.

(** What is read of the device may be used by the rest of the
    computation. *)
Lemma keeps_bind_gets {A B : Type} (f : btd_device -> A) (k : A -> M B) :
  (forall d0, I d0 -> keeps I E (k (f d0))) -> keeps I E (bind (gets f) k).
Proof.
  intros H d Hd. apply post_bind. apply post_gets. cbv beta.
  eapply post_conseq; [apply (H d Hd d Hd)|].
  intros a d' t Hq. exact Hq.
Qed.

End Keeps.

Ltac keeps_step :=
  lazymatch goal with
  | |- keeps _ _ (bind (gets _) _) =>
      apply keeps_bind_gets; intros ? ?; unfold id; cbv beta
  | |- keeps _ _ (bind _ _) => apply keeps_bind; [|intros ?]
  | |- keeps _ _ (ret _) => apply keeps_ret
  | |- keeps _ _ (gets _) => apply keeps_gets
  | |- keeps _ _ (emit _) => apply keeps_emit; reflexivity
  | |- keeps _ _ (modify _) =>
      apply keeps_modify; try solve [intros ? <-; reflexivity | intros ? ?; assumption]
  | |- keeps _ _ (when false _) => apply keeps_ret
  | |- keeps _ _ (when _ _) => apply keeps_when
  | |- keeps _ _ (if ?c then _ else _) => destruct c
  | |- keeps _ _ (match ?x with _ => _ end) => destruct x
  end.

(** ** Traces *)

Lemma emitted_app (n : string) (t1 t2 : list event) :
  emitted n (t1 ++ t2) = (emitted n t1 + emitted n t2)%nat.
Proof. unfold emitted. rewrite filter_app, length_app. reflexivity. Qed.

Lemma loud_app t1 t2 : loud (t1 ++ t2) = loud t1 ++ loud t2.
Proof. apply filter_app. Qed.

Lemma loud_quiet t : forallb quiet t = true -> loud t = [].
Proof.
  induction t as [|e t IH]; [reflexivity|].
  cbn. intros H. apply andb_true_iff in H as [He Ht].
  rewrite He. cbn. apply IH. exact Ht.
Qed.

Lemma in_loud e t : quiet e = false -> (In e t <-> In e (loud t)).
Proof.
  intros He. unfold loud. rewrite filter_In. rewrite He. cbn. tauto.
Qed.

Lemma emitted_loud t : emitted "Paired" t = emitted "Paired" (loud t).
Proof.
  unfold emitted, loud.
  induction t as [|e t IH]; [reflexivity|].
  cbn [filter]. destruct e; cbn; try exact IH.
  destruct (String.eqb name "Paired") eqn:Hn; cbn; [rewrite Hn; cbn|];
  now rewrite IH.
Qed.

Lemma not_paired_changed_emitted t :
  forallb not_paired_changed t = true -> emitted "Paired" t = 0%nat.
Proof.
  unfold emitted, not_paired_changed.
  induction t as [|e t IH]; [reflexivity|].
  cbn [forallb filter]. intros H. apply andb_true_iff in H as [He Ht].
  apply negb_true_iff in He. rewrite He. apply IH. exact Ht.
Qed.

(** ** Persistence *)

Lemma store_device_info_cases w d :
  store_device_info w d = (tt, d, []) \/
  store_device_info w d
  = (tt, with_store_id (g_idle_add w) d, [IdleAdd "store_device_info_cb"]).
Proof.
  unfold store_device_info. run.
  destruct (temporary d || (0 <? store_id d)); [now left|].
  destruct (device_address_is_private d); [now left | now right].
Qed.

(** ** Framing of the helpers *)

Lemma framed_post {A : Type} (m : M A) (d : btd_device) :
  framed m ->
  post m d (fun _ d' t => flags d' = flags d /\ forallb quiet t = true).
Proof. intros H. apply (H (flags d) d eq_refl). Qed.

Lemma upd_state_flags t f d :
  (forall s, pairing (f s) = pairing s) -> flags (upd_state t f d) = flags d.
Proof.
  intros Hf. unfold upd_state, flags.
  destruct (bdaddr_type_eqb t BDADDR_BREDR); cbn; now rewrite Hf.
Qed.

Lemma reply_disconnects_keeps I E l :
  (forall r m, E (SendMessage r m) = true) ->
  keeps I E (reply_disconnects l).
Proof.
  intros HE. induction l as [|m l IH]; cbn [reply_disconnects].
  - apply keeps_ret.
  - apply keeps_bind; [apply keeps_emit, HE | intros _].
    apply keeps_bind; [exact IH | intros ?; apply keeps_ret].
Qed.

Lemma run_svc_callbacks_keeps I E cbs err :
  E (Call "g_source_remove") = true ->
  (forall i e, E (SvcCallback i e) = true) ->
  keeps I E (run_svc_callbacks cbs err).
Proof.
  intros H1 H2. induction cbs as [|cb cbs IH]; cbn [run_svc_callbacks].
  - apply keeps_ret.
  - apply keeps_bind; [apply keeps_when, keeps_emit, H1 | intros _].
    apply keeps_bind; [apply keeps_emit, H2 | intros _; exact IH].
Qed.

(** Unfold the helper that heads the computation. *)
Ltac keeps_open :=
  lazymatch goal with
  | |- keeps _ _ (store_device_info _) => unfold store_device_info
  | |- keeps _ _ clear_temporary_timer => unfold clear_temporary_timer
  | |- keeps _ _ (set_temporary_timer _ _) => unfold set_temporary_timer
  | |- keeps _ _ (device_set_auto_connect _) => unfold device_set_auto_connect
  | |- keeps _ _ (btd_device_set_temporary _ _) =>
      unfold btd_device_set_temporary
  | |- keeps _ _ (device_set_svc_refreshed _) => unfold device_set_svc_refreshed
  | |- keeps _ _ (device_update_last_seen _ _ _) =>
      unfold device_update_last_seen
  | |- keeps _ _ (device_disconnected _) => unfold device_disconnected
  | |- keeps _ _ bonding_request_cancel => unfold bonding_request_cancel
  | |- keeps _ _ (bonding_request_free _) => unfold bonding_request_free
  | |- keeps _ _ (browse_request_free _) => unfold browse_request_free
  | |- keeps _ _ (browse_request_new _ _ _) => unfold browse_request_new
  | |- keeps _ _ (send_reply _ _) => unfold send_reply
  | |- keeps _ _ (device_connect_le _) => unfold device_connect_le
  | |- keeps _ _ (reply_disconnects _) =>
      apply reply_disconnects_keeps; reflexivity
  | |- keeps _ _ (run_svc_callbacks _ _) =>
      apply run_svc_callbacks_keeps; reflexivity
  end.

Ltac keeps_auto := repeat first [keeps_step | keeps_open].

Ltac framed_auto :=
  intros ?; keeps_auto;
  try solve [intros ? <-; apply upd_state_flags; reflexivity].

(** Step over a computation that is framed. *)
Ltac wp_skip :=
  lazymatch goal with
  | |- post (bind ?m _) _ _ =>
      let H := fresh "Hf" in
      assert (H : framed m) by framed_auto;
      apply post_bind; eapply post_conseq;
      [ apply framed_post, H | clear H; intros ? ? ? [? ?]; cbv beta ]
  end.

(** Finish with a computation that is framed as a whole. *)
Ltac wp_frame :=
  lazymatch goal with
  | |- post ?m _ _ =>
      let H := fresh "Hf" in
      assert (H : framed m) by framed_auto;
      eapply post_conseq;
      [ apply framed_post, H | clear H; intros ? ? ? [? ?]; cbv beta ]
  end.

(** Step over a computation that keeps the invariant [I]. *)
Ltac wp_keep I :=
  lazymatch goal with
  | |- post (bind ?m _) ?d _ =>
      let H := fresh "Hk" in
      assert (H : keeps I any_event m) by keeps_auto;
      apply post_bind; eapply post_conseq;
      [ apply (H d) | clear H; intros ? ? ? [? _]; cbv beta ]
  | |- post ?m ?d _ =>
      let H := fresh "Hk" in
      assert (H : keeps I any_event m) by keeps_auto;
      eapply post_conseq;
      [ apply (H d) | clear H; intros ? ? ? [? _]; cbv beta ]
  end.

(** Step over a computation that keeps [I] and makes only calls in [E]. *)
Ltac wp_keeping I E tac :=
  lazymatch goal with
  | |- post (bind ?m _) ?d _ =>
      let H := fresh "Hk" in
      assert (H : keeps I E m) by tac;
      apply post_bind; eapply post_conseq;
      [ apply (H d) | clear H; intros ? ? ? [? ?]; cbv beta ]
  | |- post ?m ?d _ =>
      let H := fresh "Hk" in
      assert (H : keeps I E m) by tac;
      eapply post_conseq;
      [ apply (H d) | clear H; intros ? ? ? [? ?]; cbv beta ]
  end.

(** ** RSSI *)

(** What [device_set_rssi_with_delta] does for any threshold: with either
    value zero it stores and announces any change; with both non-zero it
    stores and announces a value at least [delta_threshold] away. *)
Lemma device_set_rssi_with_delta_cases (d : btd_device)
    (new_rssi delta_threshold : Z) :
  let reported :=
    if (new_rssi =? 0) || (rssi d =? 0) then negb (rssi d =? new_rssi)
    else delta_threshold <=? Z.abs (new_rssi - rssi d) in
  device_set_rssi_with_delta new_rssi delta_threshold d
  = if reported then (tt, with_rssi new_rssi d, [PropertyChanged "RSSI"])
    else (tt, d, []).
Proof.
  cbv zeta. unfold device_set_rssi_with_delta. run.
  destruct ((new_rssi =? 0) || (rssi d =? 0)).
  - destruct (rssi d =? new_rssi); reflexivity.
  - destruct (rssi d >? new_rssi) eqn:Hg;
    match goal with
    | |- context [?a <? ?c] => destruct (a <? c) eqn:Hlt
    end;
    match goal with
    | |- context [?a <=? ?c] => destruct (a <=? c) eqn:Hle
    end; try reflexivity; exfalso; lia.
Qed.

(** C6.  An RSSI update emits the RSSI property change, and stores the new
    value, exactly when the value changes and, if both the old and the new
    value are non-zero, they differ by at least 8; otherwise it changes
    nothing and emits nothing. *)
Theorem device_set_rssi_emits_iff (d : btd_device) (new_rssi : Z) :
  let changed_enough :=
    rssi d <> new_rssi /\
    (rssi d <> 0 -> new_rssi <> 0 -> 8 <= Z.abs (new_rssi - rssi d)) in
  (changed_enough <->
     device_set_rssi new_rssi d
     = (tt, with_rssi new_rssi d, [PropertyChanged "RSSI"])) /\
  (~ changed_enough <-> device_set_rssi new_rssi d = (tt, d, [])).
Proof.
  cbv zeta. unfold device_set_rssi.
  rewrite device_set_rssi_with_delta_cases. unfold RSSI_THRESHOLD.
  destruct (new_rssi =? 0) eqn:Hn; destruct (rssi d =? 0) eqn:Ho; cbn [orb];
  [destruct (rssi d =? new_rssi) eqn:He; cbn [negb] ..
  |destruct (8 <=? Z.abs (new_rssi - rssi d)) eqn:He];
  (split; split; intros H; try reflexivity; try discriminate; lia).
Qed.

(** ** Appearance *)

(** C9 (as the code has it).  [device_set_appearance] stores whatever value
    it is given, zero included: afterwards the stored appearance is the
    value passed, and a value that differs from the stored one is announced
    as a change of Appearance. *)
Theorem device_set_appearance_stores (w : world) (d : btd_device) (value : Z) :
  appearance (device_of (device_set_appearance w value d)) = value /\
  (appearance d <> value <->
   In (PropertyChanged "Appearance")
      (trace_of (device_set_appearance w value d))).
Proof.
  unfold device_set_appearance. run.
  destruct (appearance d =? value) eqn:He.
  - apply Z.eqb_eq in He. cbn. tauto.
  - apply Z.eqb_neq in He.
    destruct (gap_appearance_to_icon w value);
    match goal with |- context [store_device_info w ?x] =>
      destruct (store_device_info_cases w x) as [-> | ->] end;
    cbn; tauto.
Qed.

(** C9, counterexample.  A device whose appearance is 0x03C1 (keyboard) has
    appearance 0 after [device_set_appearance] is applied with value zero. *)
Lemma device_set_appearance_zero_clears :
  appearance (with_appearance 0x03C1 device0) = 0x03C1 /\
  appearance
    (device_of
       (device_set_appearance world0 0 (with_appearance 0x03C1 device0)))
  = 0.
Proof. split; reflexivity. Qed.

(** ** Private addresses *)

(** C10.  For a device whose address is LE random with the top two bits of
    the most significant byte 00 (non-resolvable private) or 01 (resolvable
    private), [btd_device_set_temporary] changes nothing and calls nothing,
    whichever value it is given, and [store_device_info] schedules no
    write. *)
Theorem private_address_freezes_temporary (w : world) (d : btd_device)
    (Hrandom : bdaddr_type d = BDADDR_LE_RANDOM)
    (Htop : Z.shiftr (nth 5 (b (bdaddr d)) 0) 6 = 0 \/
            Z.shiftr (nth 5 (b (bdaddr d)) 0) 6 = 1) :
  device_address_is_private d = true /\
  (forall temp, btd_device_set_temporary w temp d = (tt, d, [])) /\
  store_device_info w d = (tt, d, []).
Proof.
  assert (Hp : device_address_is_private d = true).
  { unfold device_address_is_private. rewrite Hrandom.
    cbv [bdaddr_type_eqb negb].
    destruct Htop as [-> | ->]; reflexivity. }
  split; [exact Hp|]. split.
  - intros temp. unfold btd_device_set_temporary. run.
    destruct (Bool.eqb (temporary d) temp); [reflexivity|].
    rewrite Hp. reflexivity.
  - unfold store_device_info. run.
    destruct (temporary d || (0 <? store_id d)); [reflexivity|].
    rewrite Hp. reflexivity.
Qed.

Lemma private_address_freezes_temporary_witness :
  device_address_is_private private0 = true /\
  (forall temp,
     btd_device_set_temporary world0 temp private0 = (tt, private0, [])) /\
  store_device_info world0 private0 = (tt, private0, []).
Proof.
  apply private_address_freezes_temporary; [reflexivity | right; reflexivity].
Defined.

(** ** Signature counters *)

Lemma remote_counter_rejects w d k c :
  remote_csrk d = Some k -> c < counter k ->
  remote_counter w c d = (false, d, []).
Proof.
  intros Hk Hc. unfold remote_counter. run. rewrite Hk.
  apply Z.ltb_lt in Hc. rewrite Hc. reflexivity.
Qed.

Lemma remote_counter_accepts w d k c :
  remote_csrk d = Some k -> counter k <= c ->
  exists d1 t1,
    remote_counter w c d = (true, d1, t1) /\
    remote_csrk d1 = Some (with_counter c k).
Proof.
  intros Hk Hc. unfold remote_counter. run. rewrite Hk.
  apply Z.ltb_ge in Hc. rewrite Hc.
  match goal with |- context [store_device_info w ?x] =>
    destruct (store_device_info_cases w x) as [-> | ->] end;
  eexists; eexists; split; reflexivity.
Qed.

Lemma max_accepted_from (l : list Z) (s c : Z) :
  s <= c -> Z.max c (fold_right Z.max s l) = fold_right Z.max c l.
Proof.
  intros Hs. induction l as [|x l IH]; cbn; lia.
Qed.

Lemma remote_counters_run w cnts :
  forall d k, remote_csrk d = Some k ->
  exists d1 t1,
    remote_counters w cnts d = (counter_verdicts (counter k) cnts, d1, t1) /\
    option_map counter (remote_csrk d1)
    = Some (fold_right Z.max (counter k) (accepted_counters (counter k) cnts)).
Proof.
  induction cnts as [|c rest IH]; intros d k Hk.
  - exists d, []. cbn. rewrite Hk. auto.
  - cbn [remote_counters counter_verdicts accepted_counters].
    destruct (c <? counter k) eqn:Hc.
    + apply Z.ltb_lt in Hc.
      rewrite (bind_run _ _ _ _ _ _ (remote_counter_rejects w d k c Hk Hc)).
      destruct (IH d k Hk) as (d1 & t1 & Hrun & Hm).
      rewrite (bind_run _ _ _ _ _ _ Hrun). cbn.
      eexists; eexists; split; [reflexivity | exact Hm].
    + apply Z.ltb_ge in Hc.
      destruct (remote_counter_accepts w d k c Hk Hc) as (d1 & t1 & Hstep & Hd).
      rewrite (bind_run _ _ _ _ _ _ Hstep).
      destruct (IH d1 _ Hd) as (d2 & t2 & Hrun & Hm).
      cbn [counter with_counter] in Hrun, Hm.
      rewrite (bind_run _ _ _ _ _ _ Hrun). cbn.
      eexists; eexists; split; [reflexivity|].
      rewrite Hm. f_equal. symmetry. apply max_accepted_from. exact Hc.
Qed.

Lemma device_set_csrk_remote w val cnt type store_hint d :
  type = 1 \/ type = 3 ->
  remote_csrk (device_of (device_set_csrk w val cnt type store_hint d))
  = Some {| key := val; counter := cnt; auth := (type =? 3) |}.
Proof.
  intros Htype.
  match goal with
  | |- remote_csrk (device_of (?m d)) = ?x =>
      change (post m d (fun _ d' _ => remote_csrk d' = x))
  end.
  unfold device_set_csrk.
  destruct Htype as [-> | ->]; cbn [Z.eqb Pos.eqb]; cbv iota zeta beta.
  - wp_step. wp_step.
    wp_keep (fun x : btd_device =>
               remote_csrk x
               = Some {| key := val; counter := cnt; auth := false |});
    [reflexivity | assumption].
  - wp_step. wp_step.
    wp_keep (fun x : btd_device =>
               remote_csrk x
               = Some {| key := val; counter := cnt; auth := true |});
    [reflexivity | assumption].
Qed.



(** ** Disconnection *)

Lemma pairing_eq s pa bo co :
  pairing s = (pa, bo, co) -> paired s = pa /\ bonded s = bo /\ connected s = co.
Proof. unfold pairing. intros H. injection H. auto. Qed.

Lemma flags_eq d d' :
  flags d' = flags d ->
  pairing (bredr_state d') = pairing (bredr_state d) /\
  pairing (le_state d') = pairing (le_state d) /\
  bdaddr_type d' = bdaddr_type d.
Proof.
  unfold flags. intros H.
  assert (H1 := f_equal (fun x => fst (fst x)) H).
  assert (H2 := f_equal (fun x => snd (fst x)) H).
  assert (H3 := f_equal snd H). auto.
Qed.

Lemma check_paired_status_post (d : btd_device) :
  post check_paired_status d (fun u d' t =>
    pairing (bredr_state d') = unpair (pairing (bredr_state d)) /\
    pairing (le_state d') = unpair (pairing (le_state d)) /\
    bdaddr_type d' = bdaddr_type d /\
    u = unpairs (pairing (bredr_state d)) || unpairs (pairing (le_state d)) /\
    loud t
    = (if unpairs (pairing (bredr_state d))
       then [AdapterRemoveBonding BDADDR_BREDR] else [])
      ++ (if unpairs (pairing (le_state d))
          then [AdapterRemoveBonding (bdaddr_type d)] else [])).
Proof.
  destruct d as [a at_ hb hl pp sr cbs eu ap svcs pd pr tmp dt dct tt_ br bo
                 au dis co atb att_ aio pb bs ls lc rc tr ac dac gc rs si].
  destruct bs as [bp bpa bbo bco bsr bi bcn bls blu].
  destruct ls as [lp lpa lbo lco lsr li lcn lls llu].
  destruct bpa, bbo, bco, lpa, lbo, lco; repeat split.
Qed.

(** Read the pairing facts off the hypotheses, reduce the trace to its
    loud part and decide what is left. *)
Ltac finish_pairing :=
  repeat match goal with
  | H : flags _ = flags _ |- _ => apply flags_eq in H as (? & ? & ?)
  end;
  repeat match goal with
  | H : pairing _ = pairing _ |- _ => unfold pairing in H; injection H as ? ? ?
  end;
  lazymatch goal with
  | |- context [emitted "Paired" ?T] =>
      rewrite (emitted_loud T);
      rewrite (in_loud (PropertyChanged "Paired") T) by reflexivity;
      lazymatch goal with
      | |- context [In (AdapterRemoveBonding ?x) T] =>
          rewrite (in_loud (AdapterRemoveBonding x) T) by reflexivity
      end
  end;
  rewrite ?loud_app;
  repeat match goal with
  | H : forallb quiet ?t = true |- _ => rewrite (loud_quiet t H); clear H
  | H : loud ?t = _ |- _ => rewrite H; clear H
  end;
  cbn; repeat split; try lia; try congruence; intuition (try congruence).

(** C4.  When [device_remove_connection] takes down a bearer that is
    connected and paired but not bonded, that bearer's paired flag is
    cleared, the adapter is told to remove the bonding of that bearer, and
    the Paired property change is emitted (once at most) exactly when both
    bearers are unpaired afterwards. *)
Theorem disconnect_unpairs_unbonded (w : world) (d : btd_device)
    (t : bdaddr_type_t) (reason : Z)
    (Hconn : connected (get_state d t) = true)
    (Hpaired : paired (get_state d t) = true)
    (Hbonded : bonded (get_state d t) = false) :
  let r := device_remove_connection w t reason d in
  paired (get_state (device_of r) t) = false /\
  In (removes_bonding_of d t) (trace_of r) /\
  (In (PropertyChanged "Paired") (trace_of r) <->
   paired (bredr_state (device_of r)) = false /\
   paired (le_state (device_of r)) = false) /\
  (emitted "Paired" (trace_of r) <= 1)%nat.
Proof.
  cbv zeta.
  change (post (device_remove_connection w t reason) d (fun _ d' tr =>
    paired (get_state d' t) = false /\
    In (removes_bonding_of d t) tr /\
    (In (PropertyChanged "Paired") tr <->
     paired (bredr_state d') = false /\ paired (le_state d') = false) /\
    (emitted "Paired" tr <= 1)%nat)).
  unfold device_remove_connection.
  wp_step. wp_step. unfold id. rewrite Hconn. cbn [negb].
  wp_step. wp_step. wp_step. wp_step.
  match goal with |- post _ ?x _ => set (d0 := x) end.
  assert (Hd0 : pairing (get_state d0 t) = (true, false, false) /\
                bdaddr_type d0 = bdaddr_type d /\
                (bdaddr_type_eqb t BDADDR_BREDR = true ->
                 pairing (le_state d0) = pairing (le_state d)) /\
                (bdaddr_type_eqb t BDADDR_BREDR = false ->
                 pairing (bredr_state d0) = pairing (bredr_state d))).
  { subst d0. unfold get_state, upd_state, pairing in *.
    destruct (bdaddr_type_eqb t BDADDR_BREDR); cbn in *;
    rewrite Hpaired, Hbonded; repeat split; intros; try discriminate. }
  clearbody d0. destruct Hd0 as (Ht0 & Ha0 & Hle0 & Hbr0).
  wp_skip. wp_skip. wp_skip. wp_skip.
  apply post_bind. eapply post_conseq; [apply check_paired_status_post|].
  intros u dE tE (HbE & HlE & HaE & Hu & HtE). cbv beta.
  wp_step. wp_step. unfold id.
  assert (Hs : flags d'2 = flags d0) by congruence.
  apply flags_eq in Hs as (Hsb & Hsl & Hsa).
  rewrite Hsb, Hsl, Hsa in *. rewrite Ha0 in *.
  clear H H1 H3 H5.
  unfold get_state in Ht0. unfold get_state, removes_bonding_of.
  destruct (bdaddr_type_eqb t BDADDR_BREDR) eqn:Ht.
  - specialize (Hle0 eq_refl). clear Hbr0. rewrite Ht0, Hle0 in *.
    destruct (pairing (le_state d)) as [[lpa lbo] lco].
    apply pairing_eq in HbE as (Hb1 & Hb2 & Hb3).
    destruct lpa, lbo, lco; cbn in HlE, Hu, HtE; subst u;
    apply pairing_eq in HlE as (Hl1 & Hl2 & Hl3);
    rewrite Hb1, Hb3, Hl1, Hl3; cbn [negb andb orb].
    all: repeat first [wp_frame | wp_step]; finish_pairing.
  - specialize (Hbr0 eq_refl). clear Hle0. rewrite Ht0, Hbr0 in *.
    destruct (pairing (bredr_state d)) as [[bpa bbo] bco].
    apply pairing_eq in HlE as (Hl1 & Hl2 & Hl3).
    destruct bpa, bbo, bco; cbn in HbE, Hu, HtE; subst u;
    apply pairing_eq in HbE as (Hb1 & Hb2 & Hb3);
    rewrite Hb1, Hb3, Hl1, Hl3; cbn [negb andb orb].
    all: repeat first [wp_frame | wp_step]; finish_pairing.
Qed.

Lemma disconnect_unpairs_unbonded_witness :
  let r := device_remove_connection world0 BDADDR_BREDR 0 paired_unbonded_bredr in
  paired (get_state (device_of r) BDADDR_BREDR) = false /\
  In (removes_bonding_of paired_unbonded_bredr BDADDR_BREDR) (trace_of r) /\
  (In (PropertyChanged "Paired") (trace_of r) <->
   paired (bredr_state (device_of r)) = false /\
   paired (le_state (device_of r)) = false) /\
  (emitted "Paired" (trace_of r) <= 1)%nat.
Proof.
  apply (disconnect_unpairs_unbonded world0 paired_unbonded_bredr BDADDR_BREDR 0);
  reflexivity.
Defined.

(** ** Bearer selection for Connect *)

Lemma select_conn_bearer_range w dev :
  select_conn_bearer w dev = BDADDR_BREDR \/
  select_conn_bearer w dev = bdaddr_type dev.
Proof.
  unfold select_conn_bearer.
  repeat match goal with
  | |- context [if ?c then _ else _] => destruct c
  end; auto.
Qed.

Lemma seen_since_known w s :
  connectable s = true -> last_seen s <> 0 ->
  now w - last_seen s <= SEEN_TRESHHOLD ->
  seen_since w s = now w - last_seen s.
Proof.
  intros Hc Hs Ht. unfold seen_since. rewrite Hc.
  apply Z.eqb_neq in Hs. rewrite Hs. cbn.
  destruct (now w - last_seen s >? SEEN_TRESHHOLD) eqn:Hg; [lia | reflexivity].
Qed.

Lemma seen_since_unknown w s :
  connectable s = false \/ last_seen s = 0 \/
  now w - last_seen s > SEEN_TRESHHOLD ->
  seen_since w s = NVAL_TIME.
Proof.
  intros H. unfold seen_since.
  destruct (connectable s); [|reflexivity].
  destruct (last_seen s =? 0) eqn:Hs; [reflexivity|]. cbn.
  apply Z.eqb_neq in Hs.
  destruct (now w - last_seen s >? SEEN_TRESHHOLD) eqn:Hg; [reflexivity|].
  destruct H as [H | [H | H]]; [discriminate | contradiction | lia].
Qed.




(** ** Bearer selection for Pair *)

Lemma get_state_address d :
  le d = true -> bdaddr_type d <> BDADDR_BREDR ->
  get_state d (bdaddr_type d) = le_state d.
Proof.
  intros _ H. unfold get_state. destruct (bdaddr_type d); [contradiction| |];
  reflexivity.
Qed.

Lemma pair_select_agrees w d :
  address_matches_bearers d ->
  bonded (get_state d (pair_select_bearer w d))
  = bonded (get_state d (pair_bearer_spec w d)) /\
  (bonded (get_state d (pair_bearer_spec w d)) = false ->
   pair_select_bearer w d = pair_bearer_spec w d).
Proof.
  intros (Hany & Hle & Hnole).
  unfold pair_select_bearer, pair_bearer_spec.
  destruct (bredr d) eqn:Hb, (le d) eqn:Hl; cbn [andb negb].
  - specialize (Hle eq_refl).
    pose proof (get_state_address d Hl Hle) as Hg.
    destruct (bonded (bredr_state d)) eqn:Hbb, (bonded (le_state d)) eqn:Hlb;
    cbn [andb negb]; auto.
    split; [|intros H].
    + rewrite Hg, Hlb.
      destruct (select_conn_bearer_range w d) as [-> | ->];
      [cbn; now rewrite Hbb | now rewrite Hg, Hlb].
    + destruct (select_conn_bearer_range w d) as [E | E]; rewrite E in H.
      * cbn in H. congruence.
      * rewrite Hg in H. congruence.
  - rewrite (Hnole eq_refl). auto.
  - auto.
  - destruct Hany; discriminate.
Qed.

Lemma view_fields d d' :
  request_view d' = request_view d ->
  bredr_state d' = bredr_state d /\ le_state d' = le_state d /\
  bdaddr_type d' = bdaddr_type d /\ bredr d' = bredr d /\ le d' = le d /\
  bonding d' = bonding d /\ connect d' = connect d /\
  browse d' = browse d /\ pending d' = pending d.
Proof.
  unfold request_view. intros H. inversion H. repeat split; assumption.
Qed.

Lemma btd_device_set_temporary_view w temp p :
  keeps (fun d => request_view d = p) any_event (btd_device_set_temporary w temp).
Proof. keeps_auto. Qed.

Lemma device_connect_le_bonding w d :
  post (device_connect_le w) d (fun err d' _ =>
    err < 0 \/ (err = 0 /\ bonding d' = bonding d)).
Proof.
  unfold device_connect_le.
  wp_step. wp_step. unfold id.
  destruct (att_io d || att d); [wp_step; left; reflexivity|].
  wp_step. wp_step. wp_step. wp_step.
  destruct (bt_io_connect w); cbn [negb]; cbv iota.
  - wp_step. wp_step.
    wp_keep (fun x : btd_device => bonding x = bonding d); [reflexivity|].
    wp_step. right. split; [reflexivity | assumption].
  - eapply (post_conseq _ _ (fun err _ _ => err < 0));
    [| intros; left; assumption].
    apply post_bind_value. intros a d1. wp_step. reflexivity.
Qed.



(** ** In-progress guards *)

(** C2 (as the code has it).  Pair, with valid arguments, answers
    InProgress exactly when a bonding or a Connect request is in flight (an
    outstanding browse does not block it); Connect answers InProgress
    whenever a bonding or a Connect request is in flight; the profile
    connection shared by Connect over BR/EDR and ConnectProfile answers
    InProgress whenever services are pending, a Connect request is in
    flight or a browse is outstanding, and so does ConnectProfile with a
    valid profile argument. *)
Theorem in_progress_guards (redispatch : DBusMessage -> M (option reply))
    (w : world) (msg : DBusMessage) (d : btd_device) :
  (args_valid msg = true ->
   in_progress (value_of (pair_device w msg d))
   = is_some (bonding d) || is_some (connect d)) /\
  (is_some (bonding d) || is_some (connect d) = true ->
   in_progress (value_of (dev_connect redispatch w msg d)) = true) /\
  (nonempty (pending d) || is_some (connect d) || is_some (browse d) = true ->
   (forall t uuid,
      in_progress (value_of (connect_profiles redispatch w t msg uuid d)) = true) /\
   (forall p uuid,
      args_valid msg = true -> pattern msg = Some p ->
      bt_name2string w p = Some uuid ->
      in_progress (value_of (connect_profile redispatch w msg d)) = true)).
Proof.
  assert (Hprofiles :
    nonempty (pending d) || is_some (connect d) || is_some (browse d) = true ->
    forall t uuid,
      in_progress (value_of (connect_profiles redispatch w t msg uuid d)) = true).
  { intros Hbusy t uuid. unfold connect_profiles. run. rewrite Hbusy.
    reflexivity. }
  split; [|split; [|intros Hbusy; split]].
  - intros Hargs.
    change (post (pair_device w msg) d (fun r _ _ =>
      in_progress r = is_some (bonding d) || is_some (connect d))).
    unfold pair_device.
    apply post_bind. eapply post_conseq;
      [apply (btd_device_set_temporary_view w false (request_view d) d eq_refl)|].
    intros _ d1 t1 [Hv _]. cbv beta.
    apply view_fields in Hv as (_ & _ & _ & _ & _ & Hbn & Hcn & _ & _).
    rewrite Hargs. cbn [negb].
    wp_step. wp_step. unfold id. rewrite Hbn, Hcn.
    destruct (is_some (bonding d) || is_some (connect d)); [wp_step; reflexivity|].
    cbv zeta.
    destruct (bonded (get_state d1 (pair_select_bearer w d1)));
      [wp_step; reflexivity|].
    apply (post_conseq _ _ (fun r _ _ =>
             r = None \/ exists err, r = Some (ErrFailedErrno err))).
    + apply post_bind_value. intros _ d3.
      apply post_bind_value. intros _ d4.
      apply post_bind_value. intros err d5.
      destruct (err <? 0).
      * apply post_bind_value. intros ? ?.
        apply post_bind_value. intros ? ?. wp_step. eauto.
      * wp_step. auto.
    + intros r _ _ [-> | [err ->]]; reflexivity.
  - intros Hbusy. unfold dev_connect.
    match goal with
    | |- in_progress (value_of (?m d)) = true =>
        change (post m d (fun r _ _ => in_progress r = true))
    end.
    wp_step. wp_step. unfold id.
    destruct (is_some (bonding d)); [wp_step; reflexivity|].
    cbn [orb] in Hbusy. cbv zeta.
    match goal with
    | |- post (if negb (bdaddr_type_eqb ?t BDADDR_BREDR) then _ else _) _ _ =>
        destruct (negb (bdaddr_type_eqb t BDADDR_BREDR))
    end.
    + rewrite Hbusy. wp_step. reflexivity.
    + apply Hprofiles. rewrite Hbusy. destruct (nonempty (pending d)); reflexivity.
  - exact (Hprofiles Hbusy).
  - intros p uuid Hargs Hp Hu. unfold connect_profile.
    rewrite Hargs, Hp, Hu. cbn [negb]. apply Hprofiles. assumption.
Qed.

(** C2, counterexample.  An LE device on which a service discovery is
    outstanding receives Pair: the call is not answered InProgress (it is
    left pending), and afterwards a browse and a bonding are active
    together. *)
Lemma pair_device_during_browse :
  is_some (browse browsing) = true /\
  in_progress (value_of (pair_device world0 pair_msg browsing)) = false /\
  value_of (pair_device world0 pair_msg browsing) = None /\
  is_some (browse (device_of (pair_device world0 pair_msg browsing))) = true /\
  is_some (bonding (device_of (pair_device world0 pair_msg browsing))) = true.
Proof. repeat split. Qed.

Lemma in_progress_guards_witness :
  in_progress (value_of (pair_device world0 pair_msg bonding0)) = true.
Proof.
  rewrite (proj1 (in_progress_guards (fun _ => ret None) world0 pair_msg bonding0)
             eq_refl).
  reflexivity.
Defined.

(** ** Numeric comparison *)

(** C8 (as the code has it).  While a bonding is in progress, with no other
    authentication request pending and an agent available: a Confirm
    request that carries the confirm hint is answered at once without
    prompting the agent, and accepted unless the bearer is already paired
    and the just-works re-pairing policy is "never"; a Confirm request
    without the hint is passed to the agent for confirmation. *)
Theorem confirm_during_bonding (w : world) (d : btd_device)
    (type : bdaddr_type_t) (key confirm_hint : Z)
    (Hbonding : is_some (bonding d) = true)
    (Hauth : authr d = None)
    (Hagent : is_some (new_auth_agent w d) = true) :
  let r := device_confirm_passkey w type key confirm_hint d in
  (confirm_hint <> 0 ->
   value_of r = 0 /\
   trace_of r
   = [AdapterConfirmReply type
        (negb (device_is_paired d type && is_never (jw_repairing w)))]) /\
  (confirm_hint = 0 ->
   exists rest,
     trace_of r
     = AgentRequestConfirmation (new_auth_agent w d) (uint32 key) :: rest /\
     forall accept, ~ In (AdapterConfirmReply type accept) rest \/
                    agent_request_confirmation w = - EINPROGRESS).
Proof.
  cbv zeta. unfold device_confirm_passkey, new_auth, confirm_cb,
    device_auth_req_free.
  destruct (new_auth_agent w d) as [a|] eqn:Ha; [|discriminate].
  destruct (bonding d) as [bd|] eqn:Hbd; [|discriminate].
  split.
  - intros Hh. apply Z.eqb_neq in Hh. run. rewrite Hh. cbn [negb andb].
    destruct (device_is_paired d type), (jw_repairing w);
    cbn [negb andb is_never is_always]; cbv beta iota;
    rewrite ?Hauth, ?Ha, ?Hbd; cbn [is_some]; cbv beta iota;
    rewrite ?Hauth, ?Ha, ?Hbd; cbv beta iota; split; reflexivity.
  - intros ->. run. cbn [Z.eqb negb andb]. cbv beta iota.
    rewrite Hauth. cbn [is_some]. cbv beta iota.
    rewrite Ha. cbv beta iota. cbn [auth_agent app fst snd].
    destruct (agent_request_confirmation w <? 0) eqn:Hneg.
    + destruct (agent_request_confirmation w =? - EINPROGRESS) eqn:Hip.
      * eexists. split; [reflexivity|]. intros accept. right.
        apply Z.eqb_eq in Hip. exact Hip.
      * eexists. split; [reflexivity|]. intros accept. left. cbn. tauto.
    + eexists. split; [reflexivity|]. intros accept. left. cbn. tauto.
Qed.

Lemma confirm_during_bonding_witness :
  value_of (device_confirm_passkey world0 BDADDR_LE_PUBLIC 123456 1 bonding0) = 0 /\
  trace_of (device_confirm_passkey world0 BDADDR_LE_PUBLIC 123456 1 bonding0)
  = [AdapterConfirmReply BDADDR_LE_PUBLIC true].
Proof.
  apply (confirm_during_bonding world0 bonding0 BDADDR_LE_PUBLIC 123456 1);
  try reflexivity. discriminate.
Defined.

(** C8, counterexample.  A device with a Pair request in flight receives a
    Confirm request without the confirm hint: nothing is answered to the
    adapter, the agent is asked to confirm the passkey. *)
Lemma confirm_without_hint_prompts_agent :
  is_some (bonding bonding0) = true /\
  trace_of (device_confirm_passkey world0 BDADDR_LE_PUBLIC 123456 0 bonding0)
  = [AgentRequestConfirmation (Some agent0) 123456].
Proof. split; reflexivity. Qed.

(** ** The deferred Paired signal *)

Lemma upd_state_pending_paired t f d :
  pending_paired (upd_state t f d) = pending_paired d.
Proof. unfold upd_state. destruct (bdaddr_type_eqb t BDADDR_BREDR); reflexivity. Qed.

(** Use what is known of the deferred signal. *)
Ltac calm_known :=
  repeat match goal with
  | H : nothing_deferred ?dev_ |- context [pending_paired ?dev_] =>
      rewrite (H : pending_paired dev_ = false)
  end.

Ltac calm_auto :=
  repeat first
    [ progress calm_known
    | keeps_step
    | keeps_open
    | solve [intros ? ?; unfold nothing_deferred in *;
             rewrite upd_state_pending_paired; assumption]
    | solve [intros ? ?; unfold nothing_deferred in *; assumption] ].

Lemma connect_next_from_calm w l err : calm (connect_next_from w l err).
Proof.
  revert err. induction l as [|service rest IH]; intros err;
  cbn [connect_next_from]; unfold calm; calm_auto.
  apply IH.
Qed.

Section Calm.

Variable redispatch : DBusMessage -> M (option reply).
Variable w : world.
Hypothesis redispatch_calm : forall m, calm (redispatch m).

Lemma browse_request_complete_calm req type t err :
  calm (browse_request_complete redispatch w req type t err).
Proof.
  unfold calm, browse_request_complete.
  calm_auto.
  apply redispatch_calm.
Qed.

Lemma device_svc_resolved_calm type t err :
  calm (device_svc_resolved redispatch w type t err).
Proof.
  unfold calm, device_svc_resolved. calm_auto.
  apply browse_request_complete_calm.
Qed.

Lemma resolve_services_calm t msg : calm (resolve_services redispatch w t msg).
Proof.
  unfold calm, resolve_services, device_browse_sdp, device_browse_gatt.
  calm_auto. apply device_svc_resolved_calm.
Qed.

Lemma connect_profiles_calm t msg uuid :
  calm (connect_profiles redispatch w t msg uuid).
Proof.
  unfold calm, connect_profiles, connect_next. calm_auto;
  first [apply resolve_services_calm | apply connect_next_from_calm].
Qed.

Lemma dev_connect_calm msg : calm (dev_connect redispatch w msg).
Proof.
  unfold calm, dev_connect. calm_auto. apply connect_profiles_calm.
Qed.

Lemma connect_profile_calm msg : calm (connect_profile redispatch w msg).
Proof.
  unfold calm, connect_profile. calm_auto. apply connect_profiles_calm.
Qed.

End Calm.

Lemma request_calm w depth : forall msg, calm (request w depth msg).
Proof.
  induction depth as [|n IH]; intros msg; cbn [request].
  - unfold calm. calm_auto.
  - destruct (String.eqb (member msg) "Connect");
    [apply dev_connect_calm | apply connect_profile_calm]; exact IH.
Qed.

Lemma device_svc_resolved_delivers redispatch w type t err d :
  (forall m, calm (redispatch m)) ->
  pending_paired d = true ->
  post (device_svc_resolved redispatch w type t err) d (fun _ d' tr =>
    emitted "Paired" tr = 1%nat /\ pending_paired d' = false).
Proof.
  intros Hcalm Hp. unfold device_svc_resolved.
  wp_step. wp_step. unfold id. wp_step. wp_step.
  wp_keeping (fun x : btd_device => pending_paired x = true) not_paired_changed
    ltac:(keeps_auto).
  { rewrite upd_state_pending_paired. exact Hp. }
  wp_step. wp_step. rewrite Hp.
  wp_step. wp_step. wp_step. wp_step. wp_step. wp_step. wp_step.
  repeat
    (wp_keeping nothing_deferred not_paired_changed
       ltac:(calm_auto; apply browse_request_complete_calm; exact Hcalm);
     [first [reflexivity | assumption]|]).
  split; [|assumption].
  rewrite !emitted_app.
  repeat match goal with
  | H : forallb not_paired_changed ?x = true |- _ =>
      rewrite (not_paired_changed_emitted x H); clear H
  end.
  reflexivity.
Qed.




(** * Further properties *)

(** ** Preferred bearer *)

Lemma prefer_view_eq d d' :
  prefer_view d' = prefer_view d ->
  prefer (bredr_state d') = prefer (bredr_state d) /\
  prefer (le_state d') = prefer (le_state d) /\
  bonded (bredr_state d') = bonded (bredr_state d) /\
  bonded (le_state d') = bonded (le_state d) /\
  bdaddr_type d' = bdaddr_type d.
Proof.
  unfold prefer_view. intros H.
  assert (H1 := f_equal (fun x => fst (fst (fst (fst x)))) H).
  assert (H2 := f_equal (fun x => snd (fst (fst (fst x)))) H).
  assert (H3 := f_equal (fun x => snd (fst (fst x))) H).
  assert (H4 := f_equal (fun x => snd (fst x)) H).
  assert (H5 := f_equal snd H). auto.
Qed.

Lemma prefer_view_inv d pb pl bb bl ty :
  prefer_view d = (pb, pl, bb, bl, ty) ->
  prefer (bredr_state d) = pb /\ prefer (le_state d) = pl /\
  bonded (bredr_state d) = bb /\ bonded (le_state d) = bl /\
  bdaddr_type d = ty.
Proof. unfold prefer_view. intros H. injection H. auto. Qed.

(** Step over a computation that leaves [prefer_view] alone. *)
Ltac wp_view :=
  match goal with
  | |- post _ ?x _ =>
      wp_keeping (fun y : btd_device => prefer_view y = prefer_view x)
                 any_event keeps_auto; [reflexivity|]
  end.

(** What [device_update_last_used] leaves of the flags the bearer selection
    reads: under the last-used policy the bearer just used is the preferred
    one and the other is not; under any other policy nothing changes. *)
Lemma device_update_last_used_view (w : world) (t : bdaddr_type_t)
    (d : btd_device) :
  post (device_update_last_used w t) d (fun _ d' _ =>
    prefer_view d'
    = (if prefer_bearer d =? PREFER_LAST_USED
       then (bdaddr_type_eqb t BDADDR_BREDR,
             negb (bdaddr_type_eqb t BDADDR_BREDR),
             bonded (bredr_state d), bonded (le_state d), bdaddr_type d)
       else prefer_view d)).
Proof.
  unfold device_update_last_used.
  wp_step. wp_step. wp_step. wp_step. unfold id.
  assert (Hpb : prefer_bearer (upd_state t (with_last_used (now w)) d)
                = prefer_bearer d)
    by (unfold upd_state; destruct (bdaddr_type_eqb t BDADDR_BREDR); reflexivity).
  rewrite Hpb.
  destruct (prefer_bearer d =? PREFER_LAST_USED) eqn:Hp; cbn [negb].
  - wp_step. wp_step. wp_step. wp_step.
    match goal with |- post _ ?x _ => set (d1 := x) end.
    unfold id.
    assert (Hd1 : prefer_view d1
                  = (if bdaddr_type_eqb t BDADDR_BREDR
                     then (true, prefer (le_state d))
                     else (prefer (bredr_state d), true),
                     bonded (bredr_state d), bonded (le_state d),
                     bdaddr_type d)).
    { subst d1. unfold upd_state, prefer_view.
      destruct (bdaddr_type_eqb t BDADDR_BREDR); reflexivity. }
    clearbody d1. wp_step.
    destruct (bdaddr_type_eqb t BDADDR_BREDR) eqn:Ht;
    destruct (prefer_view_inv _ _ _ _ _ _ Hd1) as (Hb & Hl & Hbb & Hbl & Hty);
    [rewrite Hl; destruct (prefer (le_state d))
    |rewrite Hb; destruct (prefer (bredr_state d))];
    unfold when.
    1, 3: wp_step; wp_step; wp_view; wp_view;
      repeat match goal with
      | H : prefer_view _ = prefer_view _ |- _ => rewrite H; clear H
      end;
      unfold prefer_view; cbn; rewrite ?Hb, ?Hl, Hbb, Hbl, Hty; reflexivity.
    1, 2: wp_step; wp_view;
      match goal with H : prefer_view _ = prefer_view _ |- _ => rewrite H end;
      rewrite Hd1; reflexivity.
  - wp_step. unfold upd_state, prefer_view.
    destruct (bdaddr_type_eqb t BDADDR_BREDR); reflexivity.
Qed.

Lemma device_set_prefer_bearer_view (bearer : Z) (d : btd_device) :
  let r := device_set_prefer_bearer bearer d in
  trace_of r = [] /\
  (value_of r = true <-> 0 <= bearer <= 3) /\
  (value_of r = false -> device_of r = d) /\
  (value_of r = true -> prefer_bearer (device_of r) = bearer) /\
  bredr (device_of r) = bredr d /\ le (device_of r) = le d /\
  prefer_view (device_of r)
  = (if bearer =? PREFER_LE then (false, true)
     else if bearer =? PREFER_BREDR then (true, false)
     else if bearer =? PREFER_LAST_SEEN then (false, false)
     else (prefer (bredr_state d), prefer (le_state d)),
     bonded (bredr_state d), bonded (le_state d), bdaddr_type d).
Proof.
  cbv zeta. unfold device_set_prefer_bearer, PREFER_LAST_USED, PREFER_LE,
    PREFER_BREDR, PREFER_LAST_SEEN.
  destruct (bearer =? 0) eqn:H0; [apply Z.eqb_eq in H0; subst bearer; cbn;
    repeat split; intros; try lia; try discriminate; reflexivity|].
  destruct (bearer =? 1) eqn:H1; [apply Z.eqb_eq in H1; subst bearer; cbn;
    repeat split; intros; try lia; try discriminate; reflexivity|].
  destruct (bearer =? 2) eqn:H2; [apply Z.eqb_eq in H2; subst bearer; cbn;
    repeat split; intros; try lia; try discriminate; reflexivity|].
  destruct (bearer =? 3) eqn:H3; [apply Z.eqb_eq in H3; subst bearer; cbn;
    repeat split; intros; try lia; try discriminate; reflexivity|].
  apply Z.eqb_neq in H0, H1, H2, H3. cbn.
  repeat split; intros; try lia; try discriminate; reflexivity.
Qed.

(** X1.  On a device with both bearers, [device_set_prefer_bearer_str]
    accepts exactly the four policy names "last-used", "le", "bredr" and
    "last-seen" (compared case-sensitively); after a name is accepted
    [device_prefer_bearer_str] reads that same name back; a name that is
    refused changes nothing and calls nothing. *)
Theorem prefer_bearer_str_round_trip (d : btd_device) (str : string)
    (Hdual : bredr d = true /\ le d = true) :
  let r := device_set_prefer_bearer_str str d in
  (value_of r = true <-> In str ["last-used"; "le"; "bredr"; "last-seen"]) /\
  (value_of r = true -> device_prefer_bearer_str (device_of r) = Some str) /\
  (value_of r = false -> device_of r = d /\ trace_of r = []).
Proof.
  destruct Hdual as [Hb Hl]. cbv zeta. unfold device_set_prefer_bearer_str.
  destruct (String.eqb str "last-used") eqn:E0;
  [|destruct (String.eqb str "le") eqn:E1;
    [|destruct (String.eqb str "bredr") eqn:E2;
      [|destruct (String.eqb str "last-seen") eqn:E3]]].
  1-4: match goal with
       | H : String.eqb ?s _ = true |- _ => apply String.eqb_eq in H; subst s
       end;
       unfold device_prefer_bearer_str; cbn; rewrite Hb, Hl; cbn;
       repeat split; intros; try discriminate; try reflexivity; tauto.
  apply String.eqb_neq in E0, E1, E2, E3. cbn.
  repeat split; intros; try discriminate; try reflexivity.
  destruct H as [H | [H | [H | [H | []]]]]; congruence.
Qed.

Lemma prefer_bearer_str_round_trip_witness :
  device_prefer_bearer_str
    (device_of (device_set_prefer_bearer_str "bredr" dual0)) = Some "bredr" /\
  device_of (device_set_prefer_bearer_str "BREDR" dual0) = dual0.
Proof.
  pose proof (prefer_bearer_str_round_trip dual0 "bredr" (conj eq_refl eq_refl))
    as (_ & H1 & _).
  pose proof (prefer_bearer_str_round_trip dual0 "BREDR" (conj eq_refl eq_refl))
    as (_ & _ & H2).
  split; [apply H1; reflexivity | apply H2; reflexivity].
Defined.

(** X2.  At most one bearer carries the prefer flag: a device on which this
    holds keeps it through [device_set_prefer_bearer] with any value and
    through [device_update_last_used] on either bearer; and whenever the
    policy is last-used, [device_update_last_used] leaves the flag on the
    bearer just used and on no other. *)
Theorem prefer_flag_exclusive (w : world) (d : btd_device) (bearer : Z)
    (t : bdaddr_type_t) (Hone : one_preferred d) :
  one_preferred (device_of (device_set_prefer_bearer bearer d)) /\
  one_preferred (device_of (device_update_last_used w t d)) /\
  (prefer_bearer d = PREFER_LAST_USED ->
   let d' := device_of (device_update_last_used w t d) in
   prefer (get_state d' t) = true /\
   prefer (bredr_state d') = bdaddr_type_eqb t BDADDR_BREDR /\
   prefer (le_state d') = negb (bdaddr_type_eqb t BDADDR_BREDR)).
Proof.
  unfold one_preferred in *.
  pose proof (device_set_prefer_bearer_view bearer d) as Hs. cbv zeta in Hs.
  destruct Hs as (_ & _ & _ & _ & _ & _ & Hs).
  pose proof (device_update_last_used_view w t d) as Hu.
  unfold post in Hu.
  split; [|split].
  - destruct (bearer =? PREFER_LE); [|destruct (bearer =? PREFER_BREDR);
      [|destruct (bearer =? PREFER_LAST_SEEN)]];
    apply prefer_view_inv in Hs as (-> & -> & _); try reflexivity; exact Hone.
  - destruct (prefer_bearer d =? PREFER_LAST_USED).
    + apply prefer_view_inv in Hu as (-> & -> & _).
      destruct (bdaddr_type_eqb t BDADDR_BREDR); reflexivity.
    + apply prefer_view_eq in Hu as (-> & -> & _). exact Hone.
  - intros Hp. cbv zeta. rewrite Hp, Z.eqb_refl in Hu.
    apply prefer_view_inv in Hu as (Hb & Hl & _).
    unfold get_state. rewrite Hb, Hl.
    destruct (bdaddr_type_eqb t BDADDR_BREDR); repeat split; assumption.
Qed.

Lemma prefer_flag_exclusive_witness :
  one_preferred (device_of (device_set_prefer_bearer PREFER_LE dual0)) /\
  one_preferred
    (device_of (device_update_last_used world0 BDADDR_BREDR dual0)) /\
  prefer
    (bredr_state (device_of (device_update_last_used world0 BDADDR_BREDR dual0)))
  = true.
Proof.
  pose proof (prefer_flag_exclusive world0 dual0 PREFER_LE BDADDR_BREDR eq_refl)
    as (H1 & H2 & H3).
  split; [exact H1|]. split; [exact H2|].
  apply (H3 eq_refl).
Defined.

(** X3.  The preferred-bearer policy decides the next Connect: after
    [device_set_prefer_bearer] with PREFER_BREDR, [select_conn_bearer]
    answers BR/EDR; after PREFER_LE it answers the LE address type unless
    BR/EDR alone is bonded; PREFER_LAST_USED changes no flag, so the answer
    stays what it was; and under the last-used policy
    [device_update_last_used] makes the bearer just used the answer (for LE,
    unless BR/EDR alone is bonded). *)
Theorem prefer_policy_decides_connect (w : world) (d : btd_device) :
  select_conn_bearer w (device_of (device_set_prefer_bearer PREFER_BREDR d))
  = BDADDR_BREDR /\
  (bonded (bredr_state d) && negb (bonded (le_state d)) = false ->
   select_conn_bearer w (device_of (device_set_prefer_bearer PREFER_LE d))
   = bdaddr_type d) /\
  select_conn_bearer w (device_of (device_set_prefer_bearer PREFER_LAST_USED d))
  = select_conn_bearer w d /\
  (prefer_bearer d = PREFER_LAST_USED ->
   select_conn_bearer w (device_of (device_update_last_used w BDADDR_BREDR d))
   = BDADDR_BREDR /\
   forall t, t <> BDADDR_BREDR ->
     bonded (bredr_state d) && negb (bonded (le_state d)) = false ->
     select_conn_bearer w (device_of (device_update_last_used w t d))
     = bdaddr_type d).
Proof.
  split; [|split; [|split]].
  - pose proof (device_set_prefer_bearer_view PREFER_BREDR d) as H.
    cbv zeta in H. destruct H as (_ & _ & _ & _ & _ & _ & H).
    match type of H with prefer_view ?x = _ => set (d' := x) in * end.
    clearbody d'. cbn in H.
    apply prefer_view_inv in H as (Hb & _).
    unfold select_conn_bearer. rewrite Hb. reflexivity.
  - intros Hbond.
    pose proof (device_set_prefer_bearer_view PREFER_LE d) as H.
    cbv zeta in H. destruct H as (_ & _ & _ & _ & _ & _ & H).
    match type of H with prefer_view ?x = _ => set (d' := x) in * end.
    clearbody d'. cbn in H.
    apply prefer_view_inv in H as (Hb & Hl & Hbb & Hbl & Hty).
    unfold select_conn_bearer. rewrite Hb, Hl, Hbb, Hbl, Hty, Hbond.
    reflexivity.
  - reflexivity.
  - intros Hp.
    split.
    + pose proof (device_update_last_used_view w BDADDR_BREDR d) as H.
      unfold post in H. rewrite Hp, Z.eqb_refl in H.
      apply prefer_view_inv in H as (Hb & _).
      unfold select_conn_bearer. rewrite Hb. reflexivity.
    + intros t Ht Hbond.
      pose proof (device_update_last_used_view w t d) as H.
      unfold post in H. rewrite Hp, Z.eqb_refl in H.
      assert (Hne : bdaddr_type_eqb t BDADDR_BREDR = false)
        by (destruct t; try reflexivity; contradiction).
      rewrite Hne in H. cbn [negb] in H.
      apply prefer_view_inv in H as (Hb & Hl & Hbb & Hbl & Hty).
      unfold select_conn_bearer. rewrite Hb, Hl, Hbb, Hbl, Hty, Hbond.
      reflexivity.
Qed.

Lemma prefer_policy_decides_connect_witness :
  select_conn_bearer world0
    (device_of (device_set_prefer_bearer PREFER_LE bonded_bredr_dual))
  = BDADDR_BREDR /\
  select_conn_bearer world0
    (device_of (device_update_last_used world0 BDADDR_LE_PUBLIC dual0))
  = BDADDR_LE_PUBLIC.
Proof.
  pose proof (prefer_policy_decides_connect world0 dual0) as (_ & _ & _ & H).
  split; [reflexivity|].
  destruct (H eq_refl) as [_ H2].
  apply (H2 BDADDR_LE_PUBLIC); [discriminate | reflexivity].
Defined.

(** ** Bearer support *)

Lemma device_prefer_bearer_str_some (d : btd_device) :
  0 <= prefer_bearer d <= 3 ->
  is_some (device_prefer_bearer_str d) = bredr d && le d.
Proof.
  intros H. unfold device_prefer_bearer_str, PREFER_LAST_USED, PREFER_LE,
    PREFER_BREDR, PREFER_LAST_SEEN.
  destruct (bredr d), (le d); try reflexivity. cbn [negb orb andb].
  destruct (prefer_bearer d =? 0) eqn:H0; [reflexivity|].
  destruct (prefer_bearer d =? 1) eqn:H1; [reflexivity|].
  destruct (prefer_bearer d =? 2) eqn:H2; [reflexivity|].
  destruct (prefer_bearer d =? 3) eqn:H3; [reflexivity|].
  apply Z.eqb_neq in H0, H1, H2, H3. lia.
Qed.

(** X4.  With bearer objects available and a valid policy stored,
    [device_set_bredr_support] and [device_set_le_support] announce
    PreferredBearer exactly when the property comes into existence, that is
    when [device_prefer_bearer_str] had no value before the call and has one
    after it, and then once. *)
Theorem bearer_support_announces (w : world) (o : settings) (d : btd_device)
    (t : bdaddr_type_t)
    (Hnew : forall a, btd_bearer_new o a = true)
    (Hpolicy : 0 <= prefer_bearer d <= 3) :
  let appears (d' : btd_device) :=
    is_some (device_prefer_bearer_str d')
    && negb (is_some (device_prefer_bearer_str d)) in
  emitted "PreferredBearer" (trace_of (device_set_bredr_support w o d))
  = (if appears (device_of (device_set_bredr_support w o d)) then 1 else 0)%nat /\
  emitted "PreferredBearer" (trace_of (device_set_le_support w o t d))
  = (if appears (device_of (device_set_le_support w o t d)) then 1 else 0)%nat.
Proof.
  cbv zeta. rewrite (device_prefer_bearer_str_some d Hpolicy).
  split.
  - unfold device_set_bredr_support. run. rewrite Hnew.
    destruct (is_le_mode (mode o)); cbn [orb].
    { cbn. rewrite (device_prefer_bearer_str_some d Hpolicy).
      destruct (bredr d && le d); reflexivity. }
    destruct (bredr d) eqn:Hb; cbn [orb andb negb].
    { cbn. rewrite (device_prefer_bearer_str_some d Hpolicy), Hb.
      destruct (le d); reflexivity. }
    destruct (le d) eqn:Hl;
    match goal with |- context [store_device_info w ?x] =>
      destruct (store_device_info_cases w x) as [-> | ->] end;
    cbn [fst snd app]; rewrite device_prefer_bearer_str_some by exact Hpolicy;
    cbn; rewrite ?Hl; reflexivity.
  - unfold device_set_le_support. run. rewrite Hnew.
    destruct (is_bredr_mode (mode o)); cbn [orb].
    { cbn. rewrite (device_prefer_bearer_str_some d Hpolicy).
      destruct (bredr d && le d); reflexivity. }
    destruct (le d) eqn:Hl; cbn [orb andb negb].
    { cbn. rewrite (device_prefer_bearer_str_some d Hpolicy), Hl.
      destruct (bredr d); reflexivity. }
    destruct (bredr d) eqn:Hb;
    match goal with |- context [store_device_info w ?x] =>
      destruct (store_device_info_cases w x) as [-> | ->] end;
    cbn [fst snd app]; rewrite device_prefer_bearer_str_some by exact Hpolicy;
    cbn; rewrite ?Hb; reflexivity.
Qed.

Lemma bearer_support_announces_witness :
  emitted "PreferredBearer"
    (trace_of (device_set_bredr_support world0 settings0 device0)) = 1%nat /\
  emitted "PreferredBearer"
    (trace_of (device_set_le_support world0 settings0 BDADDR_LE_PUBLIC device0))
  = 0%nat.
Proof.
  pose proof (bearer_support_announces world0 settings0 device0 BDADDR_LE_PUBLIC
                (fun _ => eq_refl)
                ltac:(cbn; unfold PREFER_LAST_USED; lia)) as [H1 H2].
  split; [exact H1 | exact H2].
Defined.

(** X5.  With bearer objects available, a device whose address type names
    its LE bearer exactly when it has one stays so through
    [device_set_bredr_support] and through [device_set_le_support] with an
    LE address type; unless the daemon runs in the opposite single mode the
    bearer asked for is present afterwards, and a device that gains LE takes
    the address type given. *)
Theorem bearer_support_keeps_address (w : world) (o : settings)
    (d : btd_device) (t : bdaddr_type_t)
    (Hnew : forall a, btd_bearer_new o a = true)
    (Hle : t <> BDADDR_BREDR)
    (Hmatch : address_matches_bearers d) :
  let db := device_of (device_set_bredr_support w o d) in
  let dl := device_of (device_set_le_support w o t d) in
  address_matches_bearers db /\
  address_matches_bearers dl /\
  (mode o <> BT_MODE_LE -> bredr db = true) /\
  (mode o <> BT_MODE_BREDR ->
   le dl = true /\ (le d = false -> bdaddr_type dl = t)).
Proof.
  cbv zeta. destruct Hmatch as (Hsome & Hl1 & Hl0).
  unfold address_matches_bearers.
  split; [|split; [|split]].
  - unfold device_set_bredr_support. run. rewrite Hnew.
    destruct (is_le_mode (mode o) || bredr d); [cbn; auto|].
    destruct (le d) eqn:Hl;
    match goal with |- context [store_device_info w ?x] =>
      destruct (store_device_info_cases w x) as [-> | ->] end;
    cbn; rewrite ?Hl; intuition (try discriminate; try congruence).
  - unfold device_set_le_support. run. rewrite Hnew.
    destruct (is_bredr_mode (mode o) || le d); [cbn; auto|].
    destruct (bredr d) eqn:Hb;
    match goal with |- context [store_device_info w ?x] =>
      destruct (store_device_info_cases w x) as [-> | ->] end;
    cbn; rewrite ?Hb; intuition (try discriminate; try congruence).
  - intros Hm. unfold device_set_bredr_support. run. rewrite Hnew.
    destruct (mode o); try contradiction; cbn [is_le_mode orb];
    (destruct (bredr d) eqn:Hb; [exact Hb|]);
    destruct (le d);
    match goal with |- context [store_device_info w ?x] =>
      destruct (store_device_info_cases w x) as [-> | ->] end;
    reflexivity.
  - intros Hm. unfold device_set_le_support. run. rewrite Hnew.
    destruct (mode o); try contradiction; cbn [is_bredr_mode orb];
    (destruct (le d) eqn:Hl; [split; [exact Hl | discriminate]|]);
    destruct (bredr d);
    match goal with |- context [store_device_info w ?x] =>
      destruct (store_device_info_cases w x) as [-> | ->] end;
    split; reflexivity.
Qed.

Lemma bearer_support_keeps_address_witness :
  address_matches_bearers
    (device_of (device_set_bredr_support world0 settings0 device0)) /\
  bredr (device_of (device_set_bredr_support world0 settings0 device0)) = true.
Proof.
  pose proof (bearer_support_keeps_address world0 settings0 device0
                BDADDR_LE_PUBLIC (fun _ => eq_refl) ltac:(discriminate)
                ltac:(repeat split; auto; discriminate)) as (H1 & _ & H3 & _).
  split; [exact H1 | apply H3; discriminate].
Defined.

(** ** The connectable flag *)

(** X6.  [btd_device_set_connectable] followed by [device_is_connectable]:
    a device with a BR/EDR bearer always reads connectable; any other
    device reads the value just set; and the bearer of the address type
    counts as seen at the time of the call. *)
Theorem connectable_round_trip (w : world) (d : btd_device) (c : bool) :
  let d' := device_of (btd_device_set_connectable w c d) in
  device_is_connectable d' = bredr d || c /\
  last_seen (get_state d' (bdaddr_type d)) = now w.
Proof.
  cbv zeta.
  change (post (btd_device_set_connectable w c) d (fun _ d' _ =>
            device_is_connectable d' = bredr d || c /\
            last_seen (get_state d' (bdaddr_type d)) = now w)).
  unfold btd_device_set_connectable, device_update_last_seen.
  wp_step. wp_step. unfold id. wp_step. wp_step. wp_step. wp_step. unfold id.
  match goal with |- post _ ?x _ => set (d1 := x) end.
  assert (H1 : bredr d1 = bredr d /\ bdaddr_type d1 = bdaddr_type d /\
               connectable (get_state d1 (bdaddr_type d)) = c /\
               last_seen (get_state d1 (bdaddr_type d)) = now w).
  { subst d1. unfold upd_state, get_state.
    destruct (bdaddr_type_eqb (bdaddr_type d) BDADDR_BREDR) eqn:Ht;
    cbn; rewrite ?Ht; repeat split. }
  clearbody d1.
  wp_keep (fun x : btd_device =>
             (bredr x, bdaddr_type x, get_state x (bdaddr_type d))
             = (bredr d1, bdaddr_type d1, get_state d1 (bdaddr_type d)));
  [reflexivity|].
  match goal with H : _ = _ |- _ => injection H as Hb Ha Hs end.
  destruct H1 as (H1 & H2 & H3 & H4).
  unfold device_is_connectable. rewrite Hb, Ha, H1, H2, Hs, H3, H4.
  destruct (bredr d); split; reflexivity.
Qed.

(** ** The bonded flag *)

Lemma housekeeping_emitted (n : string) (t : list event) :
  forallb housekeeping t = true -> emitted n t = 0%nat.
Proof.
  unfold emitted. induction t as [|e t IH]; [reflexivity|].
  cbn [forallb filter]. intros H. apply andb_true_iff in H as [He Ht].
  destruct e; try discriminate; cbn; apply IH; exact Ht.
Qed.

Lemma housekeeping_loud (t : list event) :
  forallb housekeeping t = true -> loud t = [].
Proof.
  intros H. apply loud_quiet.
  induction t as [|e t IH]; [reflexivity|].
  cbn [forallb] in *. apply andb_true_iff in H as [He Ht].
  rewrite (IH Ht). destruct e; try discriminate; reflexivity.
Qed.

Lemma device_address_is_private_view (d d' : btd_device) :
  bdaddr d' = bdaddr d -> bdaddr_type d' = bdaddr_type d ->
  device_address_is_private d' = device_address_is_private d.
Proof. intros H1 H2. unfold device_address_is_private. now rewrite H1, H2. Qed.

Lemma triple_eq {A B C : Type} (a a' : A) (b b' : B) (c c' : C) :
  (a, b, c) = (a', b', c') -> a = a' /\ b = b' /\ c = c'.
Proof. intros H. injection H. auto. Qed.

(** [btd_device_set_temporary] touches neither the bearer flags nor the
    address, announces no property, and on a device whose address is not
    private leaves the temporary flag at the value given. *)
Lemma btd_device_set_temporary_post (w : world) (temp : bool) (d : btd_device) :
  post (btd_device_set_temporary w temp) d (fun _ d' t =>
    flags d' = flags d /\ bdaddr d' = bdaddr d /\
    (device_address_is_private d = false -> temporary d' = temp) /\
    forallb housekeeping t = true).
Proof.
  unfold btd_device_set_temporary.
  wp_step. wp_step. unfold id.
  destruct (Bool.eqb (temporary d) temp) eqn:He.
  { wp_step. apply eqb_prop in He. auto. }
  destruct (device_address_is_private d) eqn:Hp.
  { wp_step. repeat split; intros; discriminate. }
  wp_step. wp_step.
  wp_keeping (fun x : btd_device =>
                (flags x, bdaddr x, temporary x) = (flags d, bdaddr d, temp))
             housekeeping keeps_auto; [reflexivity|].
  match goal with
  | H : _ = (_, _, _) |- _ => apply triple_eq in H as (H1 & H2 & H3)
  end.
  auto.
Qed.

(** What [device_set_bonded] does. *)
Lemma device_set_bonded_post (w : world) (t : bdaddr_type_t) (d : btd_device) :
  post (device_set_bonded w t) d (fun _ d' tr =>
    bonded (get_state d' t) = true /\
    dev_property_get_bonded d' = true /\
    emitted "Bonded" tr
    = (if Bool.eqb (dev_property_get_bonded d) (dev_property_get_bonded d')
       then 0 else 1)%nat /\
    (if bdaddr_type_eqb t BDADDR_BREDR
     then bonded (le_state d') = bonded (le_state d)
     else bonded (bredr_state d') = bonded (bredr_state d)) /\
    (bonded (get_state d t) = false -> device_address_is_private d = false ->
     temporary d' = false) /\
    (bonded (get_state d t) = true -> temporary d' = temporary d)).
Proof.
  unfold device_set_bonded.
  wp_step. wp_step. unfold id.
  destruct (bonded (get_state d t)) eqn:Hbt.
  { wp_step. unfold dev_property_get_bonded, get_state in *.
    destruct (bdaddr_type_eqb t BDADDR_BREDR); rewrite Hbt;
    rewrite ?orb_true_r; cbn; repeat split; intros; discriminate. }
  wp_step. wp_step. wp_step. wp_step.
  match goal with |- post _ ?x _ => set (d1 := x) end.
  assert (Hd1 : bonded (get_state d1 t) = true /\
                (if bdaddr_type_eqb t BDADDR_BREDR
                 then bonded (le_state d1) = bonded (le_state d)
                 else bonded (bredr_state d1) = bonded (bredr_state d)) /\
                bdaddr d1 = bdaddr d /\ bdaddr_type d1 = bdaddr_type d).
  { subst d1. unfold upd_state, get_state.
    destruct (bdaddr_type_eqb t BDADDR_BREDR); repeat split. }
  clearbody d1. destruct Hd1 as (Hb1 & Ho1 & Ha1 & Hty1).
  apply post_bind.
  eapply post_conseq; [apply btd_device_set_temporary_post|].
  intros _ d2 t2 (Hf & Ha2 & Htemp & Hq). cbv beta.
  apply flags_eq in Hf as (Hfb & Hfl & _).
  apply (f_equal (fun p => snd (fst p))) in Hfb, Hfl. cbn in Hfb, Hfl.
  assert (Hpriv : device_address_is_private d1 = device_address_is_private d)
    by (apply device_address_is_private_view; assumption).
  rewrite Hpriv in Htemp.
  apply (housekeeping_emitted "Bonded") in Hq.
  wp_step. wp_step. unfold id. unfold get_state in *.
  unfold dev_property_get_bonded.
  destruct (bdaddr_type_eqb t BDADDR_BREDR);
  rewrite Hfb, Hfl; rewrite Hb1, Ho1 in *; rewrite Hbt;
  [destruct (bonded (le_state d)) | destruct (bonded (bredr_state d))];
  cbn [Bool.eqb orb]; wp_step; rewrite ?emitted_app, Hq;
  repeat split; auto; rewrite ?Hfb, ?Hfl; try reflexivity; discriminate.
Qed.

(** X7.  [device_set_bonded] leaves the bearer bonded and the other
    bearer's flag as it was, and announces Bonded exactly when the value
    read by [dev_property_get_bonded] changes, that is once when no bearer
    was bonded before and not at all otherwise; a bearer that was not
    bonded makes a device without a private address non-temporary. *)
Theorem device_set_bonded_announces (w : world) (d : btd_device)
    (t : bdaddr_type_t) :
  let r := device_set_bonded w t d in
  let d' := device_of r in
  bonded (get_state d' t) = true /\
  dev_property_get_bonded d' = true /\
  emitted "Bonded" (trace_of r)
  = (if Bool.eqb (dev_property_get_bonded d) (dev_property_get_bonded d')
     then 0 else 1)%nat /\
  (if bdaddr_type_eqb t BDADDR_BREDR
   then bonded (le_state d') = bonded (le_state d)
   else bonded (bredr_state d') = bonded (bredr_state d)) /\
  (bonded (get_state d t) = false -> device_address_is_private d = false ->
   temporary d' = false).
Proof.
  cbv zeta. pose proof (device_set_bonded_post w t d) as H. unfold post in H.
  destruct H as (H1 & H2 & H3 & H4 & H5 & _). auto.
Qed.

(** What [device_remove_bonding] does. *)
Lemma device_remove_bonding_post (w : world) (t : bdaddr_type_t)
    (d : btd_device) :
  post (device_remove_bonding w t) d (fun _ d' tr =>
    bonded (get_state d' t) = false /\
    (if bdaddr_type_eqb t BDADDR_BREDR
     then bonded (le_state d') = bonded (le_state d)
     else bonded (bredr_state d') = bonded (bredr_state d)) /\
    loud tr = [AdapterRemoveBonding t] /\
    emitted "Bonded" tr = 0%nat /\
    (dev_property_get_bonded d' = false ->
     device_address_is_private d = false -> temporary d' = true) /\
    (dev_property_get_bonded d' = true -> temporary d' = temporary d)).
Proof.
  unfold device_remove_bonding.
  wp_step.
  assert (Hpre : forall Q : unit -> btd_device -> list event -> Prop,
            Q tt (upd_state t (with_bonded false) d) [] ->
            post (if bdaddr_type_eqb t BDADDR_BREDR
                  then modify (fun d0 =>
                         with_bredr_state (with_bonded false (bredr_state d0)) d0)
                  else modify (fun d0 =>
                         with_le_state (with_bonded false (le_state d0)) d0))
                 d Q).
  { intros Q HQ. unfold upd_state in HQ.
    destruct (bdaddr_type_eqb t BDADDR_BREDR); exact HQ. }
  apply Hpre. clear Hpre.
  match goal with |- post _ ?x _ => set (d1 := x) end.
  assert (Hd1 : bonded (get_state d1 t) = false /\
                (if bdaddr_type_eqb t BDADDR_BREDR
                 then bonded (le_state d1) = bonded (le_state d)
                 else bonded (bredr_state d1) = bonded (bredr_state d)) /\
                bdaddr d1 = bdaddr d /\ bdaddr_type d1 = bdaddr_type d /\
                temporary d1 = temporary d).
  { subst d1. unfold upd_state, get_state.
    destruct (bdaddr_type_eqb t BDADDR_BREDR); repeat split. }
  clearbody d1. destruct Hd1 as (Hb1 & Ho1 & Ha1 & Hty1 & Htmp1).
  assert (Hpriv : device_address_is_private d1 = device_address_is_private d)
    by (apply device_address_is_private_view; assumption).
  wp_step. wp_step. unfold id. wp_step.
  destruct (negb (bonded (bredr_state d1)) && negb (bonded (le_state d1)))
    eqn:Hnone; unfold when.
  - eapply post_conseq; [apply btd_device_set_temporary_post|].
    intros _ d2 t2 (Hf & Ha2 & Htemp & Hq). cbv beta.
    apply flags_eq in Hf as (Hfb & Hfl & _).
    apply (f_equal (fun p => snd (fst p))) in Hfb, Hfl. cbn in Hfb, Hfl.
    rewrite Hpriv in Htemp. wp_step.
    rewrite !loud_app, (housekeeping_loud t2 Hq), !emitted_app,
      (housekeeping_emitted "Bonded" t2 Hq).
    unfold dev_property_get_bonded, get_state in *. rewrite Hfb, Hfl.
    apply andb_true_iff in Hnone as [Hn1 Hn2].
    apply negb_true_iff in Hn1, Hn2. rewrite Hn1, Hn2 in *.
    destruct (bdaddr_type_eqb t BDADDR_BREDR);
    repeat split; auto; discriminate.
  - wp_step. wp_step.
    unfold dev_property_get_bonded, get_state in *.
    destruct (bdaddr_type_eqb t BDADDR_BREDR); rewrite Hb1 in *.
    + cbn [negb andb orb] in *. apply negb_false_iff in Hnone.
      rewrite Hnone. cbn [orb]. repeat split; intros; try congruence; auto.
    + rewrite andb_true_r in Hnone. apply negb_false_iff in Hnone.
      rewrite Hnone. cbn [orb]. repeat split; intros; try congruence; auto.
Qed.

(** X8.  On a device whose address is not private, "a device bonded on
    some bearer is not temporary" is kept by [device_set_bonded] and by
    [device_remove_bonding]; [device_remove_bonding] clears the bonded flag
    of the bearer it is given and of no other, asks the adapter to remove
    exactly that bonding, turns the device temporary when no bonded bearer
    is left, and does not announce Bonded. *)
Theorem bonded_device_is_kept (w : world) (d : btd_device) (t : bdaddr_type_t)
    (Hpublic : device_address_is_private d = false)
    (Hkept : bonded_is_kept d) :
  let r := device_remove_bonding w t d in
  let d' := device_of r in
  bonded_is_kept (device_of (device_set_bonded w t d)) /\
  bonded_is_kept d' /\
  bonded (get_state d' t) = false /\
  (if bdaddr_type_eqb t BDADDR_BREDR
   then bonded (le_state d') = bonded (le_state d)
   else bonded (bredr_state d') = bonded (bredr_state d)) /\
  loud (trace_of r) = [AdapterRemoveBonding t] /\
  emitted "Bonded" (trace_of r) = 0%nat /\
  (dev_property_get_bonded d' = false -> temporary d' = true).
Proof.
  cbv zeta. unfold bonded_is_kept in *.
  pose proof (device_set_bonded_post w t d) as Hs. unfold post in Hs.
  destruct Hs as (Hs1 & Hs2 & _ & Hs4 & Hs5 & Hs6).
  pose proof (device_remove_bonding_post w t d) as Hr. unfold post in Hr.
  destruct Hr as (Hr1 & Hr2 & Hr3 & Hr4 & Hr5 & Hr6).
  split; [|split; [|repeat split; auto]].
  - intros _. destruct (bonded (get_state d t)) eqn:Hb.
    + rewrite (Hs6 eq_refl). apply Hkept.
      unfold dev_property_get_bonded, get_state in *.
      destruct (bdaddr_type_eqb t BDADDR_BREDR); rewrite Hb;
      rewrite ?orb_true_r; reflexivity.
    + apply Hs5; [reflexivity | exact Hpublic].
  - intros Hb'. rewrite (Hr6 Hb'). apply Hkept.
    unfold dev_property_get_bonded, get_state in *.
    destruct (bdaddr_type_eqb t BDADDR_BREDR); rewrite Hr1 in Hb';
    [rewrite Hr2 in Hb' | rewrite Hr2 in Hb'];
    cbn [orb] in Hb'; rewrite ?orb_false_r in Hb';
    destruct (bonded (le_state d)), (bonded (bredr_state d));
    try discriminate; reflexivity.
Qed.

Lemma bonded_device_is_kept_witness :
  temporary
    (device_of (device_remove_bonding world0 BDADDR_BREDR
                  (with_temporary false bonded_bredr_dual))) = true /\
  loud (trace_of (device_remove_bonding world0 BDADDR_BREDR
                    (with_temporary false bonded_bredr_dual)))
  = [AdapterRemoveBonding BDADDR_BREDR].
Proof.
  pose proof (bonded_device_is_kept world0
                (with_temporary false bonded_bredr_dual) BDADDR_BREDR
                eq_refl (fun _ => eq_refl))
    as (_ & _ & _ & _ & H5 & _ & H7).
  split; [apply H7; reflexivity | exact H5].
Defined.

(** ** What a disconnection shows *)

Lemma unnotable_seen (t : list event) :
  forallb unnotable t = true -> filter notable t = [].
Proof.
  induction t as [|e t IH]; [reflexivity|].
  cbn [forallb filter]. intros H. apply andb_true_iff in H as [He Ht].
  unfold unnotable in He. apply negb_true_iff in He. rewrite He.
  apply IH. exact Ht.
Qed.

Lemma emitted_seen (n : string) (t : list event) :
  n = "Connected" \/ n = "Paired" ->
  emitted n t = emitted n (filter notable t).
Proof.
  intros Hn. unfold emitted.
  induction t as [|e t IH]; [reflexivity|].
  cbn [filter]. destruct e; cbn; try exact IH.
  - destruct Hn as [-> | ->];
    destruct (String.eqb name "Connected") eqn:H1;
    destruct (String.eqb name "Paired") eqn:H2; cbn;
    rewrite ?H1, ?H2; cbn; rewrite IH; reflexivity.
  - destruct r; cbn; exact IH.
Qed.

Lemma in_seen (e : event) (t : list event) :
  notable e = true -> (In e t <-> In e (filter notable t)).
Proof. intros He. rewrite filter_In, He. tauto. Qed.

Lemma reply_disconnects_run (l : list DBusMessage) (d : btd_device) :
  reply_disconnects l d
  = (existsb is_remove_device l, d, map (SendMessage MethodReturn) l).
Proof.
  induction l as [|m l IH]; [reflexivity|].
  cbn [reply_disconnects]. unfold bind at 1. cbn [emit].
  unfold bind at 1. rewrite IH. unfold ret. cbn.
  rewrite app_nil_r. reflexivity.
Qed.

Lemma seen_returns (l : list DBusMessage) :
  filter notable (map (SendMessage MethodReturn) l)
  = map (SendMessage MethodReturn) l.
Proof. induction l as [|m l IH]; [reflexivity|]. cbn. now rewrite IH. Qed.

Lemma filter_returns_none (n : string) (l : list DBusMessage) :
  filter (is_property_changed n) (map (SendMessage MethodReturn) l) = [].
Proof. induction l as [|m l IH]; [reflexivity|]. exact IH. Qed.

Lemma in_returns_none (n : string) (z : Z) (l : list DBusMessage) :
  ~ In (EmitSignal n z) (map (SendMessage MethodReturn) l).
Proof.
  induction l as [|m l IH]; [intros []|].
  intros [H | H]; [discriminate | exact (IH H)].
Qed.

Lemma disconnect_view_eq (d d' : btd_device) :
  disconnect_view d' = disconnect_view d ->
  flags d' = flags d /\ disconnects d' = disconnects d.
Proof.
  unfold disconnect_view. intros H.
  split; [exact (f_equal fst H) | exact (f_equal snd H)].
Qed.

Lemma check_paired_status_seen (d : btd_device) :
  post check_paired_status d (fun u d' t =>
    pairing (bredr_state d') = unpair (pairing (bredr_state d)) /\
    pairing (le_state d') = unpair (pairing (le_state d)) /\
    disconnects d' = disconnects d /\
    u = unpairs (pairing (bredr_state d)) || unpairs (pairing (le_state d)) /\
    forallb unnotable t = true).
Proof.
  destruct d as [a at_ hb hl pp sr cbs eu ap svcs pd pr tmp dt dct tt_ br bo
                 au dis co atb att_ aio pb bs ls lc rc tr ac dac gc rs si].
  destruct bs as [bp bpa bbo bco bsr bi bcn bls blu].
  destruct ls as [lp lpa lbo lco lsr li lcn lls llu].
  destruct bpa, bbo, bco, lpa, lbo, lco; repeat split.
Qed.

Lemma upd_state_disconnect_view t f d :
  (forall s, pairing (f s) = pairing s) ->
  disconnect_view (upd_state t f d) = disconnect_view d.
Proof.
  intros Hf. unfold disconnect_view. rewrite upd_state_flags by exact Hf.
  unfold upd_state. destruct (bdaddr_type_eqb t BDADDR_BREDR); reflexivity.
Qed.

(** Step over a computation that leaves the bearer flags and the queued
    Disconnect requests alone and shows nothing. *)
Ltac wp_unseen :=
  match goal with
  | |- post _ ?x _ =>
      wp_keeping (fun y : btd_device => disconnect_view y = disconnect_view x)
                 unnotable
                 ltac:(keeps_auto;
                       try solve [intros ? <-; apply upd_state_disconnect_view;
                                  reflexivity]);
      [reflexivity|]
  end.

(** [device_remove_connection] on a connected bearer: the flags it leaves,
    what it shows, and what becomes of the queued Disconnect requests. *)
Lemma device_remove_connection_run (w : world) (t : bdaddr_type_t)
    (reason : Z) (d : btd_device) :
  connected (get_state d t) = true ->
  let pb := if bdaddr_type_eqb t BDADDR_BREDR
            then unconnected (pairing (bredr_state d))
            else pairing (bredr_state d) in
  let pl := if bdaddr_type_eqb t BDADDR_BREDR
            then pairing (le_state d)
            else unconnected (pairing (le_state d)) in
  let other := if bdaddr_type_eqb t BDADDR_BREDR
               then connected (le_state d) else connected (bredr_state d) in
  post (device_remove_connection w t reason) d (fun v d' tr =>
    pairing (bredr_state d') = unpair pb /\
    pairing (le_state d') = unpair pl /\
    filter notable tr
    = (if (unpairs pb || unpairs pl)
          && negb (fst (fst (unpair pb))) && negb (fst (fst (unpair pl)))
       then [PropertyChanged "Paired"] else [])
      ++ (if other then []
          else EmitSignal "Disconnected" reason
               :: PropertyChanged "Connected"
               :: map (SendMessage MethodReturn) (disconnects d)) /\
    disconnects d' = (if other then disconnects d else []) /\
    v = (if other then false
         else existsb is_remove_device (disconnects d))).
Proof.
  intros Hconn. cbv zeta.
  set (pb := if bdaddr_type_eqb t BDADDR_BREDR
             then unconnected (pairing (bredr_state d))
             else pairing (bredr_state d)).
  set (pl := if bdaddr_type_eqb t BDADDR_BREDR
             then pairing (le_state d)
             else unconnected (pairing (le_state d))).
  set (other := if bdaddr_type_eqb t BDADDR_BREDR
                then connected (le_state d) else connected (bredr_state d)).
  assert (Hother : snd pb || snd pl = other).
  { subst pb pl other. unfold unconnected, pairing.
    destruct (bdaddr_type_eqb t BDADDR_BREDR); cbn;
    rewrite ?orb_false_r; reflexivity. }
  unfold device_remove_connection.
  wp_step. wp_step. unfold id. rewrite Hconn. cbn [negb].
  wp_step. wp_step.
  match goal with |- post _ ?x _ => set (d0 := x) end.
  assert (Hd0 : pairing (bredr_state d0) = pb /\
                pairing (le_state d0) = pl /\
                disconnects d0 = disconnects d).
  { subst d0 pb pl. unfold upd_state, pairing, unconnected.
    destruct (bdaddr_type_eqb t BDADDR_BREDR); repeat split. }
  clearbody d0 pb pl other. destruct Hd0 as (Hb0 & Hl0 & Hdis0).
  wp_unseen. wp_unseen. wp_unseen. wp_unseen.
  wp_step. wp_step.
  apply post_bind. eapply post_conseq; [apply check_paired_status_seen|].
  intros u dE tE (HbE & HlE & HdE & Hu & HtE). cbv beta.
  repeat match goal with
  | H : disconnect_view _ = disconnect_view _ |- _ =>
      apply disconnect_view_eq in H as [? ?]
  end.
  repeat match goal with
  | H : flags _ = flags _ |- _ => apply flags_eq in H as (? & ? & ?)
  end.
  assert (HbE' : pairing (bredr_state dE) = unpair pb) by congruence.
  assert (HlE' : pairing (le_state dE) = unpair pl) by congruence.
  assert (HdE' : disconnects dE = disconnects d) by congruence.
  assert (Hu' : u = unpairs pb || unpairs pl) by congruence.
  assert (Hseen : forall x, filter notable (t0 ++ t1 ++ t2 ++ t3 ++ x)
                            = filter notable x).
  { intros x. rewrite !filter_app.
    rewrite (unnotable_seen t0), (unnotable_seen t1), (unnotable_seen t2),
      (unnotable_seen t3) by assumption. reflexivity. }
  apply unnotable_seen in HtE.
  clear - Hother HbE' HlE' HdE' Hu' Hseen HtE. subst u.
  wp_step. wp_step. unfold id.
  change (paired (bredr_state dE)) with (fst (fst (pairing (bredr_state dE)))).
  change (paired (le_state dE)) with (fst (fst (pairing (le_state dE)))).
  change (connected (bredr_state dE)) with (snd (pairing (bredr_state dE))).
  change (connected (le_state dE)) with (snd (pairing (le_state dE))).
  rewrite HbE', HlE'.
  assert (Hsnd : forall p, snd (unpair p) = snd p)
    by (intros [[[] []] []]; reflexivity).
  rewrite !Hsnd, Hother. clear Hsnd Hother.
  set (A := unpairs pb || unpairs pl).
  set (B := negb (fst (fst (unpair pb)))).
  set (C := negb (fst (fst (unpair pl)))).
  clearbody A B C.
  assert (Hpaired : post (when (B && C && A) (emit (PropertyChanged "Paired")))
            dE (fun _ d2 t4 =>
                  d2 = dE /\
                  t4 = (if A && B && C then [PropertyChanged "Paired"] else []))).
  { destruct A, B, C; cbn [andb]; unfold when; wp_step; split; reflexivity. }
  apply post_bind. eapply post_conseq; [exact Hpaired|]. clear Hpaired.
  intros _ d5 t5 [-> ->]. cbv beta.
  set (tp := if A && B && C then [PropertyChanged "Paired"] else []).
  assert (Hfront : forall x,
            filter notable
              ([] ++ [] ++ t0 ++ t1 ++ t2 ++ t3
               ++ [BearerDisconnected (bearer_of t) reason] ++ tE ++ [] ++ tp ++ x)
            = tp ++ filter notable x).
  { intros x. cbn [app]. rewrite Hseen. cbn [filter notable].
    rewrite !filter_app, HtE. cbn [app]. f_equal.
    subst tp. destruct (A && B && C); reflexivity. }
  clearbody tp. clear Hseen HtE.
  destruct other.
  - wp_step. rewrite Hfront. cbn. rewrite app_nil_r. auto.
  - wp_unseen. wp_step. wp_step. unfold device_disconnected.
    wp_step. wp_step. wp_step. wp_step. wp_step. wp_step. unfold id.
    wp_step. unfold post at 1. rewrite reply_disconnects_run.
    cbn [value_of device_of trace_of fst snd].
    wp_step. wp_step. wp_step.
    apply disconnect_view_eq in H as [Hf Hd].
    apply flags_eq in Hf as (Hfb & Hfl & _).
    change (pairing (bredr_state (with_disconnects [] (with_eir_uuids [] d'))))
      with (pairing (bredr_state d')).
    change (pairing (le_state (with_disconnects [] (with_eir_uuids [] d'))))
      with (pairing (le_state d')).
    change (disconnects (with_eir_uuids [] d')) with (disconnects d').
    rewrite Hfb, Hfl, Hd, HdE', Hfront.
    rewrite filter_app, (unnotable_seen t4 H0). cbn [app filter notable].
    rewrite app_nil_r, seen_returns. cbn. auto.
Qed.

(** X9.  [device_remove_connection] announces Connected exactly when the
    value read by [dev_property_get_connected] changes, and Paired exactly
    when the value read by [dev_property_get_paired] changes, each once; the
    Disconnected signal goes out with the change of Connected; and a bearer
    that is bonded keeps its paired flag. *)
Theorem disconnect_announces_changes (w : world) (d : btd_device)
    (t : bdaddr_type_t) (reason : Z) :
  let r := device_remove_connection w t reason d in
  let d' := device_of r in
  let changed (get : btd_device -> bool) := negb (Bool.eqb (get d) (get d')) in
  emitted "Connected" (trace_of r)
  = (if changed dev_property_get_connected then 1 else 0)%nat /\
  emitted "Paired" (trace_of r)
  = (if changed dev_property_get_paired then 1 else 0)%nat /\
  (In (EmitSignal "Disconnected" reason) (trace_of r) <->
   changed dev_property_get_connected = true) /\
  (bonded (get_state d t) = true ->
   paired (get_state d' t) = paired (get_state d t)).
Proof.
  cbv zeta.
  destruct (connected (get_state d t)) eqn:Hconn.
  2: { unfold device_remove_connection. run. rewrite Hconn. cbn.
       rewrite !eqb_reflx. cbn. repeat split; intros; try discriminate;
       try contradiction; reflexivity. }
  pose proof (device_remove_connection_run w t reason d Hconn) as H.
  cbv zeta in H. unfold post in H.
  destruct H as (Hb & Hl & Hseen & _ & _).
  rewrite (emitted_seen "Connected") by (left; reflexivity).
  rewrite (emitted_seen "Paired") by (right; reflexivity).
  rewrite (in_seen (EmitSignal "Disconnected" reason)) by reflexivity.
  rewrite Hseen. clear Hseen.
  unfold dev_property_get_connected, dev_property_get_paired.
  change (paired (bredr_state (device_of (device_remove_connection w t reason d))))
    with (fst (fst (pairing
            (bredr_state (device_of (device_remove_connection w t reason d)))))).
  change (paired (le_state (device_of (device_remove_connection w t reason d))))
    with (fst (fst (pairing
            (le_state (device_of (device_remove_connection w t reason d)))))).
  change (connected
            (bredr_state (device_of (device_remove_connection w t reason d))))
    with (snd (pairing
            (bredr_state (device_of (device_remove_connection w t reason d))))).
  change (connected (le_state (device_of (device_remove_connection w t reason d))))
    with (snd (pairing
            (le_state (device_of (device_remove_connection w t reason d))))).
  unfold get_state in *.
  change (paired (if bdaddr_type_eqb t BDADDR_BREDR
                  then bredr_state (device_of (device_remove_connection w t reason d))
                  else le_state (device_of (device_remove_connection w t reason d))))
    with (fst (fst (pairing
            (if bdaddr_type_eqb t BDADDR_BREDR
             then bredr_state (device_of (device_remove_connection w t reason d))
             else le_state (device_of (device_remove_connection w t reason d)))))).
  assert (Hsel : forall x y : bearer_state,
            pairing (if bdaddr_type_eqb t BDADDR_BREDR then x else y)
            = if bdaddr_type_eqb t BDADDR_BREDR then pairing x else pairing y)
    by (intros; destruct (bdaddr_type_eqb t BDADDR_BREDR); reflexivity).
  rewrite Hsel, Hb, Hl. clear Hb Hl Hsel.
  unfold pairing, unconnected, unpair, unpairs, emitted.
  destruct (bdaddr_type_eqb t BDADDR_BREDR);
  [rewrite Hconn | rewrite Hconn];
  destruct (paired (bredr_state d)), (bonded (bredr_state d)),
    (paired (le_state d)), (bonded (le_state d));
  try destruct (connected (le_state d));
  try destruct (connected (bredr_state d));
  cbn; rewrite ?filter_returns_none;
  repeat split; intros; try discriminate; try reflexivity; try tauto;
  try (exfalso; eapply in_returns_none; eassumption);
  repeat match goal with
  | H : _ \/ _ |- _ => destruct H
  | H : False |- _ => destruct H
  end; discriminate.
Qed.

Lemma method_returns_seen (t : list event) :
  filter is_method_return t = filter is_method_return (filter notable t).
Proof.
  induction t as [|e t IH]; [reflexivity|].
  cbn [filter]. destruct (notable e) eqn:Hn.
  - cbn [filter]. now rewrite IH.
  - destruct e; try exact IH; try discriminate.
    destruct r; try exact IH; discriminate.
Qed.

Lemma method_returns_all (l : list DBusMessage) :
  filter is_method_return (map (SendMessage MethodReturn) l)
  = map (SendMessage MethodReturn) l.
Proof. induction l as [|m l IH]; [reflexivity|]. cbn. now rewrite IH. Qed.

(** X10.  When [device_remove_connection] takes down a connected bearer,
    the queued Disconnect requests wait as long as the other bearer is
    connected: nothing is answered and the queue is kept.  Once no bearer
    is connected every queued request is answered with a method return,
    once and in order of arrival, the queue is emptied, and the result
    tells whether one of them was a RemoveDevice call. *)
Theorem disconnect_answers_requests (w : world) (d : btd_device)
    (t : bdaddr_type_t) (reason : Z)
    (Hconn : connected (get_state d t) = true) :
  let r := device_remove_connection w t reason d in
  let still := dev_property_get_connected (device_of r) in
  filter is_method_return (trace_of r)
  = (if still then [] else map (SendMessage MethodReturn) (disconnects d)) /\
  disconnects (device_of r) = (if still then disconnects d else []) /\
  value_of r
  = (if still then false else existsb is_remove_device (disconnects d)).
Proof.
  cbv zeta.
  pose proof (device_remove_connection_run w t reason d Hconn) as H.
  cbv zeta in H. unfold post in H.
  destruct H as (Hb & Hl & Hseen & Hdis & Hval).
  rewrite method_returns_seen, Hseen, Hdis, Hval. clear Hseen Hdis Hval.
  unfold dev_property_get_connected.
  change (connected
            (bredr_state (device_of (device_remove_connection w t reason d))))
    with (snd (pairing
            (bredr_state (device_of (device_remove_connection w t reason d))))).
  change (connected (le_state (device_of (device_remove_connection w t reason d))))
    with (snd (pairing
            (le_state (device_of (device_remove_connection w t reason d))))).
  rewrite Hb, Hl. clear Hb Hl.
  assert (Hsnd : forall p, snd (unpair p) = snd p)
    by (intros [[[] []] []]; reflexivity).
  rewrite !Hsnd. rewrite filter_app.
  match goal with
  | |- context [filter is_method_return (if ?c then _ else _)] =>
      replace (filter is_method_return
                 (if c then [PropertyChanged "Paired"] else []))
        with (@nil event) by (destruct c; reflexivity)
  end.
  unfold unconnected, pairing.
  destruct (bdaddr_type_eqb t BDADDR_BREDR); cbn [snd orb app];
  [destruct (connected (le_state d)) | destruct (connected (bredr_state d))];
  cbn [filter is_method_return orb]; rewrite ?method_returns_all;
  repeat split.
Qed.

Lemma disconnect_answers_requests_witness :
  filter is_method_return
    (trace_of (device_remove_connection world0 BDADDR_LE_PUBLIC 0 disconnecting))
  = [SendMessage MethodReturn disconnect_msg] /\
  disconnects
    (device_of (device_remove_connection world0 BDADDR_LE_PUBLIC 0 disconnecting))
  = [].
Proof.
  pose proof (disconnect_answers_requests world0 disconnecting BDADDR_LE_PUBLIC 0
                eq_refl) as (H1 & H2 & _).
  split; [exact H1 | exact H2].
Defined.

(** ** The temporary timer *)

(** Finish with a computation that keeps the invariant [I] as a whole. *)
Ltac wp_keep_all I :=
  lazymatch goal with
  | |- post ?m ?d _ =>
      let H := fresh "Hk" in
      assert (H : keeps I any_event m) by keeps_auto;
      eapply post_conseq;
      [ apply (H d) | clear H; intros ? ? ? [? _]; cbv beta ]
  end.

Lemma clear_temporary_timer_clears (d : btd_device)
    (Q : unit -> btd_device -> list event -> Prop) :
  (forall d' t, temporary_timer d' = 0 -> temporary d' = temporary d -> Q tt d' t) ->
  post clear_temporary_timer d Q.
Proof.
  intros HQ. unfold clear_temporary_timer. wp_step. wp_step. unfold id.
  destruct (temporary_timer d =? 0) eqn:Ht; cbn [negb]; unfold when.
  - wp_step. apply HQ; [apply Z.eqb_eq; exact Ht | reflexivity].
  - wp_step. wp_step. wp_step. apply HQ; reflexivity.
Qed.

Lemma btd_device_set_temporary_timer (w : world) (temp : bool)
    (d : btd_device) :
  timer_when_temporary d ->
  post (btd_device_set_temporary w temp) d (fun _ d' _ =>
    timer_when_temporary d').
Proof.
  intros Hd. unfold btd_device_set_temporary.
  wp_step. wp_step. unfold id.
  destruct (Bool.eqb (temporary d) temp); [wp_step; exact Hd|].
  destruct (device_address_is_private d); [wp_step; exact Hd|].
  wp_step. wp_step. destruct temp.
  - wp_keep_all (fun x : btd_device => temporary x = true); [reflexivity|].
    unfold timer_when_temporary. intros Hf. congruence.
  - wp_step. apply clear_temporary_timer_clears. intros d1 t1 Ht1 _.
    wp_keep_all (fun x : btd_device => temporary_timer x = 0); [exact Ht1|].
    unfold timer_when_temporary. intros _. assumption.
Qed.

Lemma device_update_last_seen_timer (w : world) (t : bdaddr_type_t)
    (c : bool) (d : btd_device) :
  timer_when_temporary d ->
  post (device_update_last_seen w t c) d (fun _ d' _ =>
    timer_when_temporary d').
Proof.
  intros Hd. unfold device_update_last_seen.
  wp_step. wp_step. wp_step. wp_step. unfold id.
  match goal with |- post _ ?x _ => set (d1 := x) end.
  assert (H1 : temporary d1 = temporary d /\
               temporary_timer d1 = temporary_timer d).
  { subst d1. unfold upd_state.
    destruct (bdaddr_type_eqb t BDADDR_BREDR); split; reflexivity. }
  clearbody d1. destruct H1 as [H1 H2].
  destruct (temporary d1) eqn:Htmp; cbn [negb].
  - wp_keep_all (fun x : btd_device => temporary x = true); [exact Htmp|].
    unfold timer_when_temporary. intros Hf. congruence.
  - wp_step. unfold timer_when_temporary in *. intros _.
    rewrite H2. apply Hd. congruence.
Qed.

(** X11.  The temporary timer runs only on a temporary device: a device on
    which a cleared temporary flag means no timer keeps that property
    through [btd_device_set_temporary], [device_update_last_seen],
    [btd_device_set_connectable], [device_connect_le],
    [device_disappeared], [device_set_bonded] and
    [device_remove_bonding]. *)
Theorem temporary_timer_only_when_temporary (w : world) (d : btd_device)
    (t : bdaddr_type_t) (flag : bool)
    (Htimer : timer_when_temporary d) :
  timer_when_temporary (device_of (btd_device_set_temporary w flag d)) /\
  timer_when_temporary (device_of (device_update_last_seen w t flag d)) /\
  timer_when_temporary (device_of (btd_device_set_connectable w flag d)) /\
  timer_when_temporary (device_of (device_connect_le w d)) /\
  timer_when_temporary (device_of (device_disappeared d)) /\
  timer_when_temporary (device_of (device_set_bonded w t d)) /\
  timer_when_temporary (device_of (device_remove_bonding w t d)).
Proof.
  split; [apply (btd_device_set_temporary_timer w flag d Htimer)|].
  split; [apply (device_update_last_seen_timer w t flag d Htimer)|].
  split.
  { change (post (btd_device_set_connectable w flag) d (fun _ d' _ =>
              timer_when_temporary d')).
    unfold btd_device_set_connectable. wp_step. wp_step. unfold id.
    eapply post_conseq;
    [apply (device_update_last_seen_timer w (bdaddr_type d) flag d Htimer)|].
    intros ? d' t' H. exact H. }
  split; [|split; [|split]].
  - change (post (device_connect_le w) d (fun _ d' _ =>
              timer_when_temporary d')).
    unfold device_connect_le. wp_step. wp_step. unfold id.
    destruct (att_io d || att d); [wp_step; exact Htimer|].
    wp_step. wp_step. wp_step. wp_step.
    match goal with |- post _ ?x _ => set (d1 := x) end.
    assert (H1 : temporary d1 = temporary d /\
                 temporary_timer d1 = temporary_timer d)
      by (split; reflexivity).
    clearbody d1. destruct H1 as [H1 H2].
    destruct (bt_io_connect w); cbn [negb].
    + wp_step. wp_step. wp_step.
      destruct (temporary d) eqn:Htmp; unfold when.
      * wp_keep_all (fun x : btd_device => temporary x = true);
        [cbn; congruence|].
        wp_step. unfold timer_when_temporary. intros Hf. congruence.
      * wp_step. wp_step. unfold timer_when_temporary in *. cbn.
        intros _. rewrite H2. apply Htimer. exact Htmp.
    + wp_keep_all (fun x : btd_device =>
                 (temporary x, temporary_timer x)
                 = (temporary d1, temporary_timer d1)); [reflexivity|].
      unfold timer_when_temporary in *.
      match goal with H : (_, _) = (_, _) |- _ => injection H as Ha Hb end.
      intros Hf. rewrite Hb, H2. apply Htimer. congruence.
  - unfold device_disappeared. run.
    destruct (device_service_connected d); [exact Htimer|].
    intros _. reflexivity.
  - change (post (device_set_bonded w t) d (fun _ d' _ =>
              timer_when_temporary d')).
    unfold device_set_bonded. wp_step. wp_step. unfold id.
    destruct (bonded (get_state d t)); [wp_step; exact Htimer|].
    wp_step. wp_step. wp_step. wp_step.
    match goal with |- post _ ?x _ => set (d1 := x) end.
    assert (H1 : timer_when_temporary d1).
    { subst d1. unfold timer_when_temporary, upd_state in *.
      destruct (bdaddr_type_eqb t BDADDR_BREDR); exact Htimer. }
    clearbody d1. apply post_bind.
    eapply post_conseq; [apply (btd_device_set_temporary_timer w false d1 H1)|].
    intros ? d2 t2 H2. cbv beta.
    wp_step. wp_step. unfold id.
    destruct (Bool.eqb (bonded (bredr_state d2)) (bonded (le_state d2)));
    wp_step; exact H2.
  - change (post (device_remove_bonding w t) d (fun _ d' _ =>
              timer_when_temporary d')).
    unfold device_remove_bonding. wp_step.
    destruct (bdaddr_type_eqb t BDADDR_BREDR); wp_step;
    match goal with |- post _ ?x _ => set (d1 := x) end;
    (assert (H1 : timer_when_temporary d1) by exact Htimer);
    clearbody d1; wp_step; wp_step; unfold id; wp_step;
    (destruct (negb (bonded (bredr_state d1)) && negb (bonded (le_state d1)));
     unfold when;
     [eapply post_conseq;
      [apply (btd_device_set_temporary_timer w true d1 H1)|];
      intros ? d2 t2 H2; cbv beta; wp_step; exact H2
     |wp_step; wp_step; exact H1]).
Qed.

Lemma temporary_timer_only_when_temporary_witness :
  timer_when_temporary
    (device_of (btd_device_set_temporary world0 false
                  (with_temporary_timer 8 device0))) /\
  temporary_timer
    (device_of (btd_device_set_temporary world0 false
                  (with_temporary_timer 8 device0))) = 0.
Proof.
  pose proof (temporary_timer_only_when_temporary world0
                (with_temporary_timer 8 device0) BDADDR_LE_PUBLIC false
                ltac:(intros H; discriminate H)) as (H1 & _).
  split; [exact H1 | apply H1; reflexivity].
Defined.

(** ** Service-complete callbacks *)

Lemma find_svc_callback_none (l : list svc_callback) (ident : Z) :
  ~ In ident (map cb_id l) ->
  find_svc_callback l ident = None /\ svc_callbacks_remove l ident = l.
Proof.
  induction l as [|cb l IH]; [split; reflexivity|].
  cbn. intros H.
  destruct (cb_id cb =? ident) eqn:He.
  - apply Z.eqb_eq in He. tauto.
  - destruct IH as [H1 H2]; [tauto|]. rewrite H1, H2. split; reflexivity.
Qed.

Lemma find_svc_callback_some (l : list svc_callback) (ident : Z) :
  In ident (map cb_id l) ->
  exists cb, find_svc_callback l ident = Some cb /\ In cb l /\ cb_id cb = ident.
Proof.
  induction l as [|cb l IH]; [intros []|].
  cbn. intros H. destruct (cb_id cb =? ident) eqn:He.
  - apply Z.eqb_eq in He. exists cb. auto.
  - apply Z.eqb_neq in He. destruct H as [H | H]; [contradiction|].
    destruct (IH H) as (cb' & H1 & H2 & H3). exists cb'. auto.
Qed.

Lemma svc_callbacks_remove_filter (l : list svc_callback) (ident : Z) :
  NoDup (map cb_id l) ->
  svc_callbacks_remove l ident
  = filter (fun cb => negb (cb_id cb =? ident)) l.
Proof.
  induction l as [|cb l IH]; [reflexivity|].
  cbn. intros H. inversion H as [|x xs Hx Hnd]; subst.
  destruct (cb_id cb =? ident) eqn:He; cbn.
  - apply Z.eqb_eq in He. subst ident.
    symmetry. apply forallb_filter_id. apply forallb_forall.
    intros c Hc. apply negb_true_iff, Z.eqb_neq. intros Heq.
    apply Hx. rewrite <- Heq. apply in_map. exact Hc.
  - rewrite IH by exact Hnd. reflexivity.
Qed.

Lemma cb_id_distinct (l : list svc_callback) (a c : svc_callback) :
  NoDup (map cb_id l) -> In a l -> In c l -> cb_id a = cb_id c -> a = c.
Proof.
  induction l as [|x l IH]; [intros _ []|].
  cbn. intros Hn Ha Hc Heq. inversion Hn as [|y ys Hy Hnd]; subst.
  destruct Ha as [Ha | Ha], Hc as [Hc | Hc].
  - congruence.
  - exfalso. apply Hy. subst x. rewrite Heq. apply in_map. exact Hc.
  - exfalso. apply Hy. subst x. rewrite <- Heq. apply in_map. exact Ha.
  - apply IH; assumption.
Qed.

Lemma svc_callback_remove_filter_fresh (last_id : Z) (l : list svc_callback)
    (ident : Z) :
  Forall (fun cb => 0 < cb_id cb <= last_id) l -> NoDup (map cb_id l) ->
  Forall (fun cb => 0 < cb_id cb <= last_id) (svc_callbacks_remove l ident) /\
  NoDup (map cb_id (svc_callbacks_remove l ident)).
Proof.
  induction l as [|cb l IH]; [auto|].
  cbn. intros Hr Hn.
  inversion Hr as [|x xs Hx Hrest]; subst.
  inversion Hn as [|y ys Hy Hnd]; subst.
  destruct (cb_id cb =? ident); [auto|].
  destruct (IH Hrest Hnd) as [H1 H2].
  split; [constructor; assumption|].
  cbn. constructor; [|exact H2].
  intros Hin. apply Hy. clear - Hin.
  induction l as [|c l IH]; [exact Hin|].
  cbn in *. destruct (cb_id c =? ident); [right; exact Hin|].
  destruct Hin as [H | H]; [left; exact H | right; apply IH; exact H].
Qed.

(** X12.  A callback registered with [device_wait_for_svc_complete] is
    given the next id of the 32-bit counter; handing that id to
    [device_remove_svc_complete_callback] right away finds it, answers
    [true] and leaves the list of callbacks as it was before the
    registration. *)
Theorem svc_callback_round_trip (w : world) (o : settings) (d : btd_device)
    (last_id : Z) :
  let r := device_wait_for_svc_complete w o last_id d in
  let r' := device_remove_svc_complete_callback (value_of r) (device_of r) in
  value_of r = uint32 (last_id + 1) /\
  List.length (svc_callbacks (device_of r))
  = S (List.length (svc_callbacks d)) /\
  value_of r' = true /\
  svc_callbacks (device_of r') = svc_callbacks d.
Proof.
  cbv zeta. unfold device_wait_for_svc_complete. run.
  destruct (svc_resolved (bredr_state d) || negb (reverse_discovery o)).
  - cbn. unfold device_remove_svc_complete_callback. run. cbn.
    rewrite Z.eqb_refl. cbn.
    destruct (0 <? g_idle_add w); cbn; repeat split.
  - destruct (0 <? discov_timer d); cbn;
    unfold device_remove_svc_complete_callback; run; cbn;
    rewrite Z.eqb_refl; cbn; repeat split.
Qed.

(** X13.  [device_remove_svc_complete_callback] answers whether a callback
    is registered under the id.  When none is it changes nothing and calls
    nothing.  When the registered ids are distinct it takes out the callback
    of that id and keeps every other one, in order; a pending idle source
    of the callback taken out is removed. *)
Theorem svc_callback_remove (d : btd_device) (ident : Z)
    (Hdistinct : NoDup (map cb_id (svc_callbacks d))) :
  let r := device_remove_svc_complete_callback ident d in
  value_of r = existsb (fun cb => cb_id cb =? ident) (svc_callbacks d) /\
  (value_of r = false -> device_of r = d /\ trace_of r = []) /\
  svc_callbacks (device_of r)
  = filter (fun cb => negb (cb_id cb =? ident)) (svc_callbacks d) /\
  has_no_callback ident (device_of r) /\
  (forall cb, In cb (svc_callbacks d) -> cb_id cb = ident -> 0 < idle_id cb ->
     trace_of r = [Call "g_source_remove"]).
Proof.
  cbv zeta.
  assert (Hex : existsb (fun cb => cb_id cb =? ident) (svc_callbacks d) = true
                <-> In ident (map cb_id (svc_callbacks d))).
  { rewrite existsb_exists, in_map_iff. split.
    - intros (cb & H1 & H2). apply Z.eqb_eq in H2. exists cb. auto.
    - intros (cb & H1 & H2). exists cb. split; [exact H2|].
      apply Z.eqb_eq. exact H1. }
  assert (Hgone : ~ In ident
                      (map cb_id (filter (fun cb => negb (cb_id cb =? ident))
                                         (svc_callbacks d)))).
  { rewrite in_map_iff. intros (cb & H1 & H2).
    apply filter_In in H2 as [_ H2]. apply negb_true_iff, Z.eqb_neq in H2.
    contradiction. }
  unfold device_remove_svc_complete_callback, has_no_callback. run.
  destruct (existsb (fun cb => cb_id cb =? ident) (svc_callbacks d)) eqn:He.
  - destruct (find_svc_callback_some _ _ (proj1 Hex eq_refl))
      as (cb & Hf & Hin & Hid).
    rewrite Hf.
    assert (Huniq : forall cb', In cb' (svc_callbacks d) -> cb_id cb' = ident ->
                                cb' = cb).
    { intros cb' Hin' Hid'.
      apply (cb_id_distinct (svc_callbacks d)); congruence. }
    destruct (0 <? idle_id cb) eqn:Hidle; cbn;
    rewrite (svc_callbacks_remove_filter _ _ Hdistinct);
    (split; [reflexivity|]); (split; [discriminate|]);
    (split; [reflexivity|]); (split; [exact Hgone|]);
    intros cb' Hin' Hid' Hpos; rewrite (Huniq cb' Hin' Hid') in Hpos;
    [reflexivity | apply Z.ltb_ge in Hidle; lia].
  - assert (Hno : ~ In ident (map cb_id (svc_callbacks d))).
    { intros H. apply Hex in H. congruence. }
    destruct (find_svc_callback_none _ _ Hno) as [Hf Hr]. rewrite Hf. cbn.
    split; [reflexivity|]. split; [auto|].
    split.
    + rewrite <- (svc_callbacks_remove_filter _ _ Hdistinct). symmetry. exact Hr.
    + split; [exact Hno|].
      intros cb Hin Hid _. exfalso. apply Hno. rewrite <- Hid.
      apply in_map. exact Hin.
Qed.

Lemma svc_callback_remove_witness :
  svc_callbacks (device_of (device_remove_svc_complete_callback 2 waiting))
  = [{| cb_id := 1; idle_id := 0 |}] /\
  trace_of (device_remove_svc_complete_callback 2 waiting)
  = [Call "g_source_remove"].
Proof.
  pose proof (svc_callback_remove waiting 2
                ltac:(repeat constructor; cbn; intuition discriminate))
    as (_ & _ & H3 & _ & H5).
  split; [exact H3|].
  apply (H5 {| cb_id := 2; idle_id := 7 |}); [left; reflexivity | reflexivity |].
  cbn. lia.
Defined.

(** X14.  While the 32-bit id counter has not wrapped around, registered
    ids stay distinct: on a device whose callbacks carry distinct ids
    between 1 and the counter, [device_wait_for_svc_complete] hands out the
    counter plus one, an id no registered callback has, and leaves the ids
    distinct and within the new counter;
    [device_remove_svc_complete_callback] keeps them so. *)
Theorem svc_ids_stay_fresh (w : world) (o : settings) (d : btd_device)
    (last_id ident : Z)
    (Hroom : 0 <= last_id < 2 ^ 32 - 1)
    (Hfresh : svc_ids_fresh last_id d) :
  let r := device_wait_for_svc_complete w o last_id d in
  value_of r = last_id + 1 /\
  has_no_callback (value_of r) d /\
  svc_ids_fresh (value_of r) (device_of r) /\
  svc_ids_fresh last_id
    (device_of (device_remove_svc_complete_callback ident d)).
Proof.
  cbv zeta. destruct Hfresh as [Hrange Hnodup].
  assert (Hid : uint32 (last_id + 1) = last_id + 1)
    by (unfold uint32; apply Z.mod_small; lia).
  assert (Hnew : ~ In (last_id + 1) (map cb_id (svc_callbacks d))).
  { rewrite in_map_iff. intros (cb & H1 & H2).
    rewrite Forall_forall in Hrange. specialize (Hrange cb H2). lia. }
  assert (Hval : value_of (device_wait_for_svc_complete w o last_id d)
                 = last_id + 1).
  { unfold device_wait_for_svc_complete. run.
    destruct (svc_resolved (bredr_state d) || negb (reverse_discovery o));
    [|destruct (0 <? discov_timer d)]; cbn; exact Hid. }
  rewrite Hval.
  split; [reflexivity|]. split; [exact Hnew|]. split.
  - unfold svc_ids_fresh, device_wait_for_svc_complete. run. rewrite Hid.
    assert (Hwider : Forall (fun cb => 0 < cb_id cb <= last_id + 1)
                            (svc_callbacks d)).
    { eapply Forall_impl; [|exact Hrange]. cbn. intros cb H. lia. }
    destruct (svc_resolved (bredr_state d) || negb (reverse_discovery o));
    [|destruct (0 <? discov_timer d)]; cbn;
    (split; [constructor; [cbn; lia | exact Hwider]
            |constructor; [exact Hnew | exact Hnodup]]).
  - pose proof (svc_callback_remove_filter_fresh last_id (svc_callbacks d) ident
                  Hrange Hnodup) as Hrem.
    unfold svc_ids_fresh, device_remove_svc_complete_callback. run.
    destruct (find_svc_callback (svc_callbacks d) ident) as [cb|];
    [destruct (0 <? idle_id cb)|]; cbn;
    [exact Hrem | exact Hrem | split; assumption].
Qed.

Lemma svc_ids_stay_fresh_witness :
  value_of (device_wait_for_svc_complete world0 settings0 2 waiting) = 3 /\
  svc_ids_fresh 3
    (device_of (device_wait_for_svc_complete world0 settings0 2 waiting)).
Proof.
  pose proof (svc_ids_stay_fresh world0 settings0 waiting 2 0
                ltac:(cbn; lia)
                ltac:(split; [repeat constructor; cbn; lia
                             |repeat constructor; cbn; intuition discriminate]))
    as (H1 & _ & H3 & _).
  rewrite H1 in H3. split; [exact H1 | exact H3].
Defined.

Lemma upd_state_svc_callbacks t f d :
  svc_callbacks (upd_state t f d) = svc_callbacks d.
Proof.
  unfold upd_state. destruct (bdaddr_type_eqb t BDADDR_BREDR); reflexivity.
Qed.

Lemma run_svc_callbacks_unregistered (I : btd_device -> Prop) (ident : Z)
    (cbs : list svc_callback) (err : Z) :
  ~ In ident (map cb_id cbs) ->
  keeps I (not_callback ident) (run_svc_callbacks cbs err).
Proof.
  induction cbs as [|cb cbs IH]; cbn [run_svc_callbacks map]; intros Hno.
  - apply keeps_ret.
  - apply keeps_bind; [apply keeps_when, keeps_emit; reflexivity | intros _].
    apply keeps_bind; [| intros _; apply IH; cbn in Hno; tauto].
    apply keeps_emit. cbn. apply negb_true_iff, Z.eqb_neq.
    cbn in Hno. tauto.
Qed.

(** Keep track of the callbacks that are not registered. *)
Ltac unregistered_auto :=
  repeat first
    [ lazymatch goal with
      | |- keeps _ _ (run_svc_callbacks _ _) =>
          apply run_svc_callbacks_unregistered; assumption
      end
    | keeps_step
    | keeps_open
    | solve [intros ? ?; unfold has_no_callback in *;
             rewrite upd_state_svc_callbacks; assumption]
    | solve [intros ? ?; unfold has_no_callback in *; assumption]
    | solve [intros ? ?; unfold has_no_callback; cbn; tauto] ].

Lemma connect_next_from_unregistered w ident l err :
  keeps (has_no_callback ident) (not_callback ident)
    (connect_next_from w l err).
Proof.
  revert err. induction l as [|service rest IH]; intros err;
  cbn [connect_next_from]; unregistered_auto.
  apply IH.
Qed.

Section Unregistered.

Variable redispatch : DBusMessage -> M (option reply).
Variable w : world.
Variable ident : Z.
Hypothesis redispatch_unregistered :
  forall m, keeps (has_no_callback ident) (not_callback ident) (redispatch m).

Lemma browse_request_complete_unregistered req type t err :
  keeps (has_no_callback ident) (not_callback ident)
    (browse_request_complete redispatch w req type t err).
Proof.
  unfold browse_request_complete. unregistered_auto.
  apply redispatch_unregistered.
Qed.

Lemma device_svc_resolved_unregistered type t err :
  keeps (has_no_callback ident) (not_callback ident)
    (device_svc_resolved redispatch w type t err).
Proof.
  unfold device_svc_resolved. unregistered_auto.
  apply browse_request_complete_unregistered.
Qed.

Lemma resolve_services_unregistered t msg :
  keeps (has_no_callback ident) (not_callback ident)
    (resolve_services redispatch w t msg).
Proof.
  unfold resolve_services, device_browse_sdp, device_browse_gatt.
  unregistered_auto. apply device_svc_resolved_unregistered.
Qed.

Lemma connect_profiles_unregistered t msg uuid :
  keeps (has_no_callback ident) (not_callback ident)
    (connect_profiles redispatch w t msg uuid).
Proof.
  unfold connect_profiles, connect_next. unregistered_auto;
  first [apply resolve_services_unregistered
        |apply connect_next_from_unregistered].
Qed.

Lemma dev_connect_unregistered msg :
  keeps (has_no_callback ident) (not_callback ident)
    (dev_connect redispatch w msg).
Proof.
  unfold dev_connect. unregistered_auto. apply connect_profiles_unregistered.
Qed.

Lemma connect_profile_unregistered msg :
  keeps (has_no_callback ident) (not_callback ident)
    (connect_profile redispatch w msg).
Proof.
  unfold connect_profile. unregistered_auto.
  apply connect_profiles_unregistered.
Qed.

End Unregistered.

Lemma request_unregistered w ident depth :
  forall msg,
    keeps (has_no_callback ident) (not_callback ident) (request w depth msg).
Proof.
  induction depth as [|n IH]; intros msg; cbn [request].
  - unregistered_auto.
  - destruct (String.eqb (member msg) "Connect");
    [apply dev_connect_unregistered | apply connect_profile_unregistered];
    exact IH.
Qed.

Lemma not_callback_absent (ident : Z) (t : list event) :
  forallb (not_callback ident) t = true ->
  forall err, ~ In (SvcCallback ident err) t.
Proof.
  intros H err Hin. rewrite forallb_forall in H.
  specialize (H _ Hin). cbn in H. rewrite Z.eqb_refl in H. discriminate.
Qed.

(** X15.  A callback that is no longer registered is not invoked when
    services are resolved, whatever request the resolution hands back to
    the connect functions, as long as those leave the callbacks alone: this
    holds after [device_remove_svc_complete_callback] has taken the
    callback out, and after [svc_idle_cb] has run it from idle, which
    invokes it with error 0 exactly then. *)
Theorem unregistered_callback_not_invoked
    (redispatch : DBusMessage -> M (option reply)) (w : world)
    (d : btd_device) (cb : svc_callback) (type : browse_type_t)
    (t : bdaddr_type_t) (err : Z)
    (Hredispatch : forall m, keeps (has_no_callback (cb_id cb))
                               (not_callback (cb_id cb)) (redispatch m))
    (Hdistinct : NoDup (map cb_id (svc_callbacks d))) :
  let removed := device_of (device_remove_svc_complete_callback (cb_id cb) d) in
  let ran := svc_idle_cb cb d in
  (forall e, ~ In (SvcCallback (cb_id cb) e)
               (trace_of (device_svc_resolved redispatch w type t err removed))) /\
  trace_of ran = [SvcCallback (cb_id cb) 0] /\
  (forall e, ~ In (SvcCallback (cb_id cb) e)
               (trace_of (device_svc_resolved redispatch w type t err
                            (device_of ran)))).
Proof.
  cbv zeta.
  assert (Hgone : forall x,
            svc_callbacks x
            = filter (fun c => negb (cb_id c =? cb_id cb)) (svc_callbacks d) ->
            has_no_callback (cb_id cb) x).
  { intros x Hx. unfold has_no_callback. rewrite Hx, in_map_iff.
    intros (c & H1 & H2).
    apply filter_In in H2 as [_ H2]. apply negb_true_iff, Z.eqb_neq in H2.
    contradiction. }
  assert (Hresolved : forall x, has_no_callback (cb_id cb) x ->
            forall e, ~ In (SvcCallback (cb_id cb) e)
              (trace_of (device_svc_resolved redispatch w type t err x))).
  { intros x Hx.
    destruct (device_svc_resolved_unregistered redispatch w (cb_id cb)
                Hredispatch type t err x Hx) as [_ Hq].
    apply not_callback_absent. exact Hq. }
  split; [|split].
  - apply Hresolved, Hgone.
    unfold device_remove_svc_complete_callback. run.
    rewrite <- (svc_callbacks_remove_filter _ _ Hdistinct).
    destruct (find_svc_callback (svc_callbacks d) (cb_id cb)) as [c|] eqn:Hf.
    + destruct (0 <? idle_id c); reflexivity.
    + cbn. symmetry.
      destruct (in_dec Z.eq_dec (cb_id cb) (map cb_id (svc_callbacks d)))
        as [Hin | Hno].
      * destruct (find_svc_callback_some _ _ Hin) as (c & Hc & _). congruence.
      * apply (find_svc_callback_none _ _ Hno).
  - reflexivity.
  - apply Hresolved, Hgone. cbn.
    apply (svc_callbacks_remove_filter _ _ Hdistinct).
Qed.

Lemma unregistered_callback_not_invoked_witness :
  trace_of (svc_idle_cb {| cb_id := 2; idle_id := 7 |} waiting)
  = [SvcCallback 2 0] /\
  ~ In (SvcCallback 2 0)
      (trace_of
         (device_svc_resolved (request world0 2) world0 BROWSE_GATT
            BDADDR_LE_PUBLIC 0
            (device_of (device_remove_svc_complete_callback 2 waiting)))).
Proof.
  pose proof (unregistered_callback_not_invoked (request world0 2) world0
                waiting {| cb_id := 2; idle_id := 7 |} BROWSE_GATT
                BDADDR_LE_PUBLIC 0 (request_unregistered world0 2 2)
                ltac:(repeat constructor; cbn; intuition discriminate))
    as (H & Hran & _).
  split; [exact Hran | exact (H 0)].
Defined.

Lemma not_svc_callback_none (t : list event) :
  forallb not_svc_callback t = true -> filter is_svc_callback t = [].
Proof.
  induction t as [|e t IH]; [reflexivity|].
  cbn [forallb filter]. intros H. apply andb_true_iff in H as [He Ht].
  unfold not_svc_callback in He. apply negb_true_iff in He. rewrite He.
  apply IH. exact Ht.
Qed.

Lemma run_svc_callbacks_run (cbs : list svc_callback) (err : Z)
    (d : btd_device) :
  device_of (run_svc_callbacks cbs err d) = d /\
  filter is_svc_callback (trace_of (run_svc_callbacks cbs err d))
  = map (fun cb => SvcCallback (cb_id cb) err) cbs.
Proof.
  induction cbs as [|cb cbs IH]; [split; reflexivity|].
  cbn [run_svc_callbacks map]. destruct IH as [IH1 IH2].
  unfold bind, when, emit, ret.
  destruct (run_svc_callbacks cbs err d) as [[u d1] t1] eqn:Hr.
  cbn in IH1, IH2. subst d1.
  destruct (0 <? idle_id cb); cbn; rewrite Hr; cbn; rewrite IH2;
  split; reflexivity.
Qed.

(** X16.  When no service discovery of the resolved kind is outstanding,
    [device_svc_resolved] invokes every registered callback exactly once,
    in the order of the list (latest registration first), each with the
    error it was given, and leaves no callback registered. *)
Theorem svc_resolved_runs_callbacks
    (redispatch : DBusMessage -> M (option reply)) (w : world)
    (d : btd_device) (type : browse_type_t) (t : bdaddr_type_t) (err : Z)
    (Hidle : forall req, browse d = Some req -> browse_type req <> type) :
  let r := device_svc_resolved redispatch w type t err d in
  filter is_svc_callback (trace_of r)
  = map (fun cb => SvcCallback (cb_id cb) err) (svc_callbacks d) /\
  svc_callbacks (device_of r) = [].
Proof.
  cbv zeta.
  change (post (device_svc_resolved redispatch w type t err) d (fun _ d' tr =>
    filter is_svc_callback tr
    = map (fun cb => SvcCallback (cb_id cb) err) (svc_callbacks d) /\
    svc_callbacks d' = [])).
  unfold device_svc_resolved.
  wp_step. wp_step. unfold id.
  assert (Hskip : forall (m : M unit) (k : M unit) (x : btd_device) Q,
            keeps (fun y => svc_callbacks y = svc_callbacks d)
                  not_svc_callback m ->
            svc_callbacks x = svc_callbacks d ->
            (forall x' t', svc_callbacks x' = svc_callbacks d ->
               filter is_svc_callback t' = [] ->
               post k x' (fun u d' tk => Q u d' (t' ++ tk))) ->
            post (m ;; k) x Q).
  { intros m k x Q Hm Hx Hk. apply post_bind.
    eapply post_conseq; [apply (Hm x Hx)|].
    intros u x' t' [H1 H2]. cbv beta. apply Hk; [exact H1|].
    apply not_svc_callback_none. exact H2. }
  apply Hskip; [keeps_auto; intros ? <-; apply upd_state_svc_callbacks
               |reflexivity|].
  intros x1 t1 Hx1 Ht1.
  apply Hskip; [keeps_auto | exact Hx1|]. intros x2 t2 Hx2 Ht2.
  apply Hskip; [keeps_auto | exact Hx2|]. intros x3 t3 Hx3 Ht3.
  apply Hskip; [keeps_auto | exact Hx3|]. intros x4 t4 Hx4 Ht4.
  apply Hskip; [keeps_auto | exact Hx4|]. intros x5 t5 Hx5 Ht5.
  apply Hskip; [|exact Hx5|].
  { destruct (browse d) as [req|] eqn:Hb; [|apply keeps_ret].
    unfold browse_request_complete.
    destruct (browse_type_eqb (browse_type req) type) eqn:He.
    - exfalso. apply (Hidle req eq_refl).
      destruct (browse_type req), type; try discriminate; reflexivity.
    - apply keeps_ret. }
  intros x6 t6 Hx6 Ht6.
  wp_step. wp_step. wp_step.
  destruct (run_svc_callbacks_run (svc_callbacks x6) err x6) as [Hd Htr].
  unfold post at 1. rewrite Hd. cbv beta.
  wp_step. wp_step. wp_step. wp_step. wp_step.
  split; [|reflexivity].
  rewrite !filter_app, Ht1, Ht2, Ht3, Ht4, Ht5, Ht6, Htr, Hx6. cbn.
  rewrite app_nil_r. reflexivity.
Qed.

Lemma svc_resolved_runs_callbacks_witness :
  filter is_svc_callback
    (trace_of (device_svc_resolved (request world0 2) world0 BROWSE_GATT
                 BDADDR_LE_PUBLIC 0 waiting))
  = [SvcCallback 2 0; SvcCallback 1 0].
Proof.
  pose proof (svc_resolved_runs_callbacks (request world0 2) world0 waiting
                BROWSE_GATT BDADDR_LE_PUBLIC 0
                ltac:(intros req H; discriminate H)) as [H _].
  exact H.
Defined.

(** ** Authentication requests *)

Lemma new_auth_busy w t type sec d a :
  authr d = Some a -> new_auth w t type sec d = (None, d, []).
Proof. intros H. unfold new_auth. run. rewrite H. reflexivity. Qed.

Lemma new_auth_free w t type sec d :
  authr d = None ->
  new_auth w t type sec d
  = match new_auth_agent w d with
    | None => (None, d, [])
    | Some a =>
        let auth := {| auth_type := type; auth_agent := Some a;
                       addr_type := t; passkey := 0; pincode := None;
                       secure := sec |} in
        (Some auth, with_authr (Some auth) d, [])
    end.
Proof.
  intros H. unfold new_auth. run. rewrite H. cbn.
  destruct (new_auth_agent w d); reflexivity.
Qed.

(** X17.  One authentication request at a time: while a request is pending
    on the device, [device_request_pincode], [device_request_passkey],
    [device_notify_pincode], [device_confirm_passkey] without the confirm
    hint, and [device_notify_passkey] unless the pending request is itself a
    passkey notification, answer -EPERM, call nothing and leave the pending
    request as it is. *)
Theorem authentication_one_at_a_time (w : world) (o : settings)
    (d : btd_device) (a : authentication_req) (t : bdaddr_type_t)
    (sec : bool) (pin : string) (key : Z)
    (Hpending : authr d = Some a) :
  device_request_pincode w o sec d = (- EPERM, d, []) /\
  device_request_passkey w o t d = (- EPERM, d, []) /\
  device_notify_pincode w o sec pin d = (- EPERM, d, []) /\
  device_confirm_passkey w t key 0 d = (- EPERM, d, []) /\
  (auth_type a <> AUTH_TYPE_NOTIFY_PASSKEY ->
   device_notify_passkey w o t d = (- EPERM, d, [])).
Proof.
  repeat split.
  - unfold device_request_pincode, bind.
    rewrite (new_auth_busy _ _ _ _ _ _ Hpending). reflexivity.
  - unfold device_request_passkey, bind.
    rewrite (new_auth_busy _ _ _ _ _ _ Hpending). reflexivity.
  - unfold device_notify_pincode, bind.
    rewrite (new_auth_busy _ _ _ _ _ _ Hpending). reflexivity.
  - unfold device_confirm_passkey, bind, gets. cbn [Z.eqb negb andb].
    cbv iota. rewrite (new_auth_busy _ _ _ _ _ _ Hpending). reflexivity.
  - intros Htype. unfold device_notify_passkey. run. rewrite Hpending.
    destruct (auth_type a); try contradiction; reflexivity.
Qed.

Lemma authentication_one_at_a_time_witness :
  device_request_pincode world0 settings0 false authenticating
  = (- EPERM, authenticating, []) /\
  device_notify_passkey world0 settings0 BDADDR_LE_PUBLIC authenticating
  = (- EPERM, authenticating, []).
Proof.
  pose proof (authentication_one_at_a_time world0 settings0 authenticating _
                BDADDR_LE_PUBLIC false "0000" 0 eq_refl)
    as (H1 & _ & _ & _ & H5).
  split; [exact H1 | apply H5; discriminate].
Defined.

(** X18.  On a device with no authentication request pending,
    [device_request_pincode], [device_request_passkey],
    [device_notify_passkey] and [device_notify_pincode] leave a request
    pending exactly when they do not answer a negative value: a refusal (no
    agent, -EPERM) or a failed call to the agent leaves none behind, and
    anything else leaves the request of the kind asked for. *)
Theorem authentication_request_outcome (w : world) (o : settings)
    (d : btd_device) (t : bdaddr_type_t) (sec : bool) (pin : string)
    (Hfree : authr d = None) :
  let pending (r : Z * btd_device * list event) (type : auth_type_t) :=
    (value_of r < 0 <-> device_is_authenticating (device_of r) = false) /\
    (0 <= value_of r ->
     option_map auth_type (authr (device_of r)) = Some type) in
  pending (device_request_pincode w o sec d) AUTH_TYPE_PINCODE /\
  pending (device_request_passkey w o t d) AUTH_TYPE_PASSKEY /\
  pending (device_notify_passkey w o t d) AUTH_TYPE_NOTIFY_PASSKEY /\
  pending (device_notify_pincode w o sec pin d) AUTH_TYPE_NOTIFY_PINCODE.
Proof.
  cbv zeta. unfold EPERM, device_is_authenticating.
  split; [|split; [|split]].
  - unfold device_request_pincode, bind.
    rewrite (new_auth_free _ _ _ _ _ Hfree).
    destruct (new_auth_agent w d); cbv zeta; run; [|cbn; rewrite Hfree].
    + destruct (agent_request_pincode o <? 0) eqn:He; cbn;
      [apply Z.ltb_lt in He | apply Z.ltb_ge in He];
      repeat split; intros; try reflexivity; try discriminate; lia.
    + repeat split; intros; try reflexivity; lia.
  - unfold device_request_passkey, bind.
    rewrite (new_auth_free _ _ _ _ _ Hfree).
    destruct (new_auth_agent w d); cbv zeta; run; [|cbn; rewrite Hfree].
    + destruct (agent_request_passkey o <? 0) eqn:He; cbn;
      [apply Z.ltb_lt in He | apply Z.ltb_ge in He];
      repeat split; intros; try reflexivity; try discriminate; lia.
    + repeat split; intros; try reflexivity; lia.
  - unfold device_notify_passkey. run. rewrite Hfree.
    rewrite (new_auth_free _ _ _ _ _ Hfree).
    destruct (new_auth_agent w d); cbv zeta; run; [|cbn; rewrite Hfree].
    + destruct (agent_display_passkey o <? 0) eqn:He; cbn;
      [apply Z.ltb_lt in He | apply Z.ltb_ge in He];
      repeat split; intros; try reflexivity; try discriminate; lia.
    + repeat split; intros; try reflexivity; lia.
  - unfold device_notify_pincode, bind.
    rewrite (new_auth_free _ _ _ _ _ Hfree).
    destruct (new_auth_agent w d); cbv zeta; run; [|cbn; rewrite Hfree].
    + destruct (agent_display_pincode o <? 0) eqn:He;
      [destruct (agent_display_pincode o =? - EINPROGRESS) eqn:Hp|]; cbn;
      [apply Z.ltb_lt in He | apply Z.ltb_lt in He | apply Z.ltb_ge in He];
      repeat split; intros; try reflexivity; try discriminate; lia.
    + repeat split; intros; try reflexivity; lia.
Qed.

Lemma authentication_request_outcome_witness :
  option_map auth_type
    (authr (device_of (device_request_passkey world0 settings0
                         BDADDR_LE_PUBLIC device0)))
  = Some AUTH_TYPE_PASSKEY.
Proof.
  pose proof (authentication_request_outcome world0 settings0 device0
                BDADDR_LE_PUBLIC false "0000" eq_refl) as H.
  cbv zeta in H. destruct H as (_ & (_ & H2) & _).
  apply H2. cbn. lia.
Defined.

(** [cancel_authentication] takes the agent out of the request and does
    nothing else. *)
Lemma cancel_authentication_run (d : btd_device) :
  cancel_authentication d
  = (tt,
     match authr d with
     | Some auth =>
         match auth_agent auth with
         | Some _ => with_authr (Some (with_auth_agent None auth)) d
         | None => d
         end
     | None => d
     end, []).
Proof.
  unfold cancel_authentication, pincode_cb, passkey_cb, confirm_cb. run.
  destruct (authr d) as [auth|]; [|reflexivity].
  destruct (auth_agent auth); [|reflexivity].
  destruct (auth_type auth); reflexivity.
Qed.

(** X19.  [device_cancel_authentication] always leaves the device without
    a pending authentication request; it cancels the agent's request
    exactly when the pending request still holds its agent; and it hands
    no reply to the adapter, aborted or not, because
    [cancel_authentication] takes the agent out of the request before it
    runs the reply callback, which then finds nothing to answer. *)
Theorem cancel_authentication_replies_nothing (d : btd_device)
    (aborted : bool) :
  let r := device_cancel_authentication aborted d in
  device_is_authenticating (device_of r) = false /\
  filter is_adapter_reply (trace_of r) = [] /\
  (forall a, In (AgentCancel a) (trace_of r) <->
             exists auth, authr d = Some auth /\ auth_agent auth = Some a) /\
  trace_of (cancel_authentication d) = [].
Proof.
  cbv zeta. split; [|split; [|split]].
  4: rewrite cancel_authentication_run; reflexivity.
  - unfold device_is_authenticating.
    change (post (device_cancel_authentication aborted) d (fun _ d' _ =>
              is_some (authr d') = false)).
    unfold device_cancel_authentication, device_auth_req_free.
    wp_step. wp_step. wp_step. wp_step. unfold id.
    destruct (authr d) as [auth|] eqn:Ha; [|wp_step; rewrite Ha; reflexivity].
    wp_step. destruct (auth_agent auth); wp_step; wp_step;
    (destruct aborted; cbn [negb]; unfold when;
     [wp_step | unfold post at 1; rewrite cancel_authentication_run; cbv beta;
                cbn [value_of device_of trace_of fst snd]]);
    wp_step; reflexivity.
  - change (post (device_cancel_authentication aborted) d (fun _ _ tr =>
              filter is_adapter_reply tr = [])).
    unfold device_cancel_authentication, device_auth_req_free.
    wp_step. wp_step. wp_step. wp_step. unfold id.
    destruct (authr d) as [auth|]; [|wp_step; reflexivity].
    wp_step. destruct (auth_agent auth); wp_step; wp_step;
    (destruct aborted; cbn [negb]; unfold when;
     [wp_step | unfold post at 1; rewrite cancel_authentication_run; cbv beta;
                cbn [value_of device_of trace_of fst snd]]);
    wp_step; reflexivity.
  - change (post (device_cancel_authentication aborted) d (fun _ _ tr =>
              forall a, In (AgentCancel a) tr <->
                exists auth, authr d = Some auth /\ auth_agent auth = Some a)).
    unfold device_cancel_authentication, device_auth_req_free.
    wp_step. wp_step. wp_step. wp_step. unfold id.
    destruct (authr d) as [auth|] eqn:Ha.
    2: { wp_step. intros a. cbn. split.
         - intros [H | []]. discriminate.
         - intros (auth & H & _). discriminate. }
    wp_step. destruct (auth_agent auth) as [a0|] eqn:Hag; wp_step; wp_step;
    (destruct aborted; cbn [negb]; unfold when;
     [wp_step | unfold post at 1; rewrite cancel_authentication_run; cbv beta;
                cbn [value_of device_of trace_of fst snd]]);
    wp_step; intros a; cbn; split;
    try (intros [H | [H | H]]; try discriminate; try contradiction;
         injection H as <-; exists auth; split; [reflexivity | exact Hag]);
    try (intros [H | H]; try discriminate; contradiction);
    intros (auth' & H1 & H2); injection H1 as <-;
    rewrite Hag in H2; try discriminate; injection H2 as <-; auto.
Qed.

(** X20.  The adapter gets at most one reply per authentication request:
    whichever of [pincode_cb], [passkey_cb] and [confirm_cb] has run, a
    callback that runs after it hands nothing to the adapter and changes
    nothing; and each of them replies exactly when the pending request
    still holds its agent. *)
Theorem authentication_reply_once (d : btd_device) (failed : bool) :
  let holds_agent :=
    match authr d with
    | Some auth => is_some (auth_agent auth)
    | None => false
    end in
  let replies (r : unit * btd_device * list event) :=
    List.length (filter is_adapter_reply (trace_of r))
    = (if holds_agent then 1 else 0)%nat in
  let spent (r : unit * btd_device * list event) :=
    pincode_cb (device_of r) = (tt, device_of r, []) /\
    passkey_cb (device_of r) = (tt, device_of r, []) /\
    confirm_cb failed (device_of r) = (tt, device_of r, []) in
  replies (pincode_cb d) /\ replies (passkey_cb d) /\
  replies (confirm_cb failed d) /\
  spent (pincode_cb d) /\ spent (passkey_cb d) /\ spent (confirm_cb failed d).
Proof.
  cbv zeta. unfold pincode_cb, passkey_cb, confirm_cb. run.
  destruct (authr d) as [auth|] eqn:Ha; cbn; rewrite ?Ha; [|repeat split].
  destruct (auth_agent auth) as [a0|] eqn:Hag; cbn; rewrite ?Ha, ?Hag;
  repeat split.
Qed.

(** ** Service discovery on demand *)

(** X21.  A discovery that is asked for while a browse request is
    outstanding starts nothing: [device_discover_services] answers -EBUSY
    and leaves the device and the outstanding request as they are, and
    [start_discovery] only clears the discovery timer.  Whenever
    [device_discover_services] answers 0 no discovery timer is left. *)
Theorem discovery_never_doubles
    (redispatch : DBusMessage -> M (option reply)) (w : world)
    (d : btd_device) :
  (forall req, browse d = Some req ->
     device_discover_services redispatch w d = (- EBUSY, d, []) /\
     start_discovery redispatch w d = (false, with_discov_timer 0 d, [])) /\
  (value_of (device_discover_services redispatch w d) = 0 ->
   discov_timer (device_of (device_discover_services redispatch w d)) = 0).
Proof.
  split.
  - intros req Hb.
    assert (Hs : device_browse_sdp w None d = (- EBUSY, d, [])).
    { unfold device_browse_sdp, browse_request_new. run. rewrite Hb.
      reflexivity. }
    assert (Hg : device_browse_gatt redispatch w None d = (- EBUSY, d, [])).
    { unfold device_browse_gatt, browse_request_new. run. rewrite Hb.
      reflexivity. }
    unfold device_discover_services, start_discovery. run.
    destruct (bredr d); rewrite ?Hs, ?Hg; cbn; split; reflexivity.
  - change (post (device_discover_services redispatch w) d (fun v d' _ =>
              v = 0 -> discov_timer d' = 0)).
    unfold device_discover_services.
    wp_step. wp_step. unfold id. apply post_bind. unfold post at 1. cbv beta.
    match goal with
    | |- post _ (device_of ?m) _ =>
        generalize (device_of m); generalize (value_of m)
    end.
    intros err d1. wp_step. wp_step. unfold id. wp_step.
    destruct (err =? 0) eqn:He; cbn [andb].
    + destruct (discov_timer d1 =? 0) eqn:Ht; cbn [negb]; unfold when.
      * wp_step. wp_step. intros _. apply Z.eqb_eq. exact Ht.
      * wp_step. wp_step. wp_step. wp_step. intros _. reflexivity.
    + unfold when. wp_step. wp_step. intros H. apply Z.eqb_neq in He.
      contradiction.
Qed.

(** ** Connecting the pending services *)

Lemma last_cons_default {A : Type} (x : A) (l : list A) (a : A) :
  last (x :: l) a = last l x.
Proof.
  revert x a. induction l as [|y l IH]; intros x a; [reflexivity|].
  change (last (x :: y :: l) a) with (last (y :: l) a).
  rewrite !IH. reflexivity.
Qed.

Lemma connect_next_from_run (w : world) (l : list btd_service) :
  forall (err : Z) (d : btd_device),
  let r := connect_next_from w l err d in
  match first_willing w l with
  | Some (before, s, after) =>
      value_of r = 0 /\ pending (device_of r) = s :: after /\
      calls "btd_service_connect" (trace_of r) = S (List.length before)
  | None =>
      value_of r = last (map (btd_service_connect w) l) err /\
      pending (device_of r) = [] /\
      calls "btd_service_connect" (trace_of r) = List.length l
  end.
Proof.
  induction l as [|s rest IH]; intros err d; cbv zeta.
  - cbn. repeat split.
  - cbn [connect_next_from first_willing]. run.
    destruct (btd_service_connect w s =? 0) eqn:Hs.
    + cbn. repeat split.
    + specialize (IH (btd_service_connect w s) d). cbv zeta in IH.
      destruct (connect_next_from w rest (btd_service_connect w s) d)
        as [[v d1] t1].
      unfold value_of, device_of, trace_of in *. cbn [fst snd] in *.
      destruct (first_willing w rest) as [[[before x] after]|].
      * destruct IH as (H1 & H2 & H3). unfold calls in *. cbn.
        rewrite H3. repeat split; assumption.
      * destruct IH as (H1 & H2 & H3). unfold calls in *. cbn [map].
        rewrite last_cons_default, H1. cbn. rewrite H3.
        repeat split; assumption.
Qed.

Lemma first_willing_split (w : world) (l : list btd_service) :
  match first_willing w l with
  | Some (before, s, after) =>
      l = before ++ s :: after /\ btd_service_connect w s = 0 /\
      Forall (fun x => btd_service_connect w x <> 0) before
  | None => Forall (fun x => btd_service_connect w x <> 0) l
  end.
Proof.
  induction l as [|s rest IH]; cbn; [constructor|].
  destruct (btd_service_connect w s =? 0) eqn:Hs.
  - apply Z.eqb_eq in Hs. repeat split; [exact Hs | constructor].
  - apply Z.eqb_neq in Hs.
    destruct (first_willing w rest) as [[[before x] after]|].
    + destruct IH as (H1 & H2 & H3). rewrite H1.
      repeat split; [exact H2 | constructor; assumption].
    + constructor; assumption.
Qed.

(** X22.  [connect_next] tries the pending services in order until one
    accepts the connection.  If one does, the answer is 0, that service
    heads the pending list with the services after it, those before it
    (which all refused) are dropped, and [btd_service_connect] was called
    once for each service up to and including it.  If none does, the
    pending list is emptied and the answer is the error of the last service,
    or -ENOENT when nothing was pending. *)
Theorem connect_next_first_willing (w : world) (d : btd_device) :
  let r := connect_next w d in
  match first_willing w (pending d) with
  | Some (before, s, after) =>
      pending d = before ++ s :: after /\
      btd_service_connect w s = 0 /\
      Forall (fun x => btd_service_connect w x <> 0) before /\
      value_of r = 0 /\ pending (device_of r) = s :: after /\
      calls "btd_service_connect" (trace_of r) = S (List.length before)
  | None =>
      Forall (fun x => btd_service_connect w x <> 0) (pending d) /\
      value_of r = last (map (btd_service_connect w) (pending d)) (- ENOENT) /\
      pending (device_of r) = [] /\
      calls "btd_service_connect" (trace_of r) = List.length (pending d)
  end.
Proof.
  cbv zeta.
  pose proof (first_willing_split w (pending d)) as Hsplit.
  pose proof (connect_next_from_run w (pending d) (- ENOENT) d) as Hrun.
  cbv zeta in Hrun.
  assert (Heq : connect_next w d = connect_next_from w (pending d) (- ENOENT) d).
  { unfold connect_next. run.
    destruct (connect_next_from w (pending d) (- ENOENT) d) as [[v d1] t1].
    reflexivity. }
  rewrite Heq.
  destruct (first_willing w (pending d)) as [[[before s] after]|].
  - destruct Hsplit as (H1 & H2 & H3). destruct Hrun as (H4 & H5 & H6).
    repeat split; assumption.
  - destruct Hrun as (H4 & H5 & H6). repeat split; assumption.
Qed.

(** ** Auto connect *)

(** X23.  [device_set_auto_connect] on an LE device whose address is not
    private leaves the flag at the value given.  It calls the adapter only
    when the flag changes; enabling adds the device to the kernel's
    auto-connect list unless the preferred bearer reads "bredr", in which
    case the flag is set all the same and no call is made; disabling
    removes it from the connect list and the auto-connect list.  Without
    an LE bearer, or with a private address, nothing happens. *)
Theorem auto_connect_follows (d : btd_device) (enable : bool) :
  let r := device_set_auto_connect enable d in
  let prefers_bredr :=
    match device_prefer_bearer_str d with
    | Some s => String.eqb s "bredr"
    | None => false
    end in
  (le d = false \/ device_address_is_private d = true ->
   r = (tt, d, [])) /\
  (le d = true -> device_address_is_private d = false ->
   auto_connect (device_of r) = enable /\
   (auto_connect d = enable -> r = (tt, d, [])) /\
   (auto_connect d <> enable ->
    calls "adapter_auto_connect_add" (trace_of r)
    = (if enable && negb prefers_bredr then 1 else 0)%nat /\
    calls "adapter_auto_connect_remove" (trace_of r)
    = (if enable then 0 else 1)%nat /\
    (enable = true -> prefers_bredr = true -> trace_of r = []))).
Proof.
  cbv zeta. unfold device_set_auto_connect. run. split.
  - intros [Hl | Hp]; [rewrite Hl; reflexivity|].
    rewrite Hp, orb_true_r. reflexivity.
  - intros Hl Hp. rewrite Hl, Hp. cbn [negb orb].
    destruct (Bool.eqb (auto_connect d) enable) eqn:He.
    + apply eqb_prop in He. cbn. repeat split; auto; intros; contradiction.
    + apply eqb_false_iff in He.
      destruct enable; cbn [negb andb].
      * destruct (device_prefer_bearer_str d) as [s|]; cbn;
        [destruct (String.eqb s "bredr"); cbn|];
        try destruct (attrib d); cbn;
        repeat split; intros; try reflexivity; try contradiction;
        discriminate.
      * cbn. repeat split; intros; try reflexivity; try contradiction;
        discriminate.
Qed.

(** ** A new connection *)

Lemma upd_state_connections t f d :
  (forall s, connected (f s) = connected s) ->
  connections (upd_state t f d) = connections d.
Proof.
  intros Hf. unfold upd_state, connections.
  destruct (bdaddr_type_eqb t BDADDR_BREDR); cbn; now rewrite Hf.
Qed.

Lemma connections_eq d d' :
  connections d' = connections d ->
  connected (bredr_state d') = connected (bredr_state d) /\
  connected (le_state d') = connected (le_state d).
Proof.
  unfold connections. intros H.
  split; [exact (f_equal fst H) | exact (f_equal snd H)].
Qed.

Lemma connections_eq_pair d (cb cl : bool) :
  connections d = (cb, cl) ->
  connected (bredr_state d) = cb /\ connected (le_state d) = cl.
Proof.
  unfold connections. intros H.
  split; [exact (f_equal fst H) | exact (f_equal snd H)].
Qed.

Lemma silent_emitted (n : string) (t : list event) :
  forallb (silent n) t = true -> emitted n t = 0%nat.
Proof.
  unfold emitted, silent. induction t as [|e t IH]; [reflexivity|].
  cbn [forallb filter]. intros H. apply andb_true_iff in H as [He Ht].
  apply negb_true_iff in He. rewrite He. apply IH. exact Ht.
Qed.

Lemma clear_temporary_timer_run (d : btd_device) :
  clear_temporary_timer d
  = if temporary_timer d =? 0 then (tt, d, [])
    else (tt, with_temporary_timer 0 d, [TimeoutRemove (temporary_timer d)]).
Proof.
  unfold clear_temporary_timer. run.
  destruct (temporary_timer d =? 0); reflexivity.
Qed.

(** Step over a computation that connects or disconnects nothing and does
    not announce Connected. *)
Ltac connections_auto :=
  unfold device_update_last_used, device_set_bredr_support,
    device_set_le_support;
  repeat first
    [ keeps_step
    | keeps_open
    | solve [intros ? <-; apply upd_state_connections; reflexivity] ].

Ltac wp_connections :=
  match goal with
  | |- post _ ?x _ =>
      wp_keeping (fun y : btd_device => connections y = connections x)
                 (silent "Connected") connections_auto;
      [reflexivity|]
  end.

(** What [device_add_connection] does. *)
Lemma device_add_connection_post (w : world) (o : settings)
    (t : bdaddr_type_t) (conn_flags : Z) (d : btd_device) :
  post (device_add_connection w o t conn_flags) d (fun v d' tr =>
    connections d'
    = (if bdaddr_type_eqb t BDADDR_BREDR
       then (true, connected (le_state d))
       else (connected (bredr_state d), true)) /\
    emitted "Connected" tr
    = (if connected (bredr_state d) || connected (le_state d)
       then 0 else 1)%nat /\
    (connected (get_state d t) = true -> v = None) /\
    (connected (get_state d t) = false ->
     v <> None /\ initiator (get_state d' t) = Z.testbit conn_flags 3) /\
    (connected (bredr_state d) || connected (le_state d) = false ->
     temporary_timer d' = 0)).
Proof.
  unfold device_add_connection.
  wp_connections. wp_connections.
  wp_step. wp_step. unfold id.
  repeat match goal with
  | H : connections _ = connections _ |- _ =>
      apply connections_eq in H as [? ?]
  end.
  assert (Hb : connected (bredr_state d'0) = connected (bredr_state d))
    by congruence.
  assert (Hl : connected (le_state d'0) = connected (le_state d))
    by congruence.
  assert (Hs : forall q, emitted "Connected" (t0 ++ t1 ++ q)
                         = emitted "Connected" q).
  { intros q. rewrite !emitted_app.
    rewrite (silent_emitted _ t0), (silent_emitted _ t1) by assumption.
    reflexivity. }
  clear - Hb Hl Hs. revert Hb Hl. generalize d'0. clear d'0. intros x Hb Hl.
  assert (Hxt : connected (get_state x t) = connected (get_state d t)).
  { unfold get_state. destruct (bdaddr_type_eqb t BDADDR_BREDR); assumption. }
  rewrite Hxt.
  destruct (connected (get_state d t)) eqn:Hct.
  - wp_step. rewrite Hs. unfold connections, get_state in *.
    rewrite Hb, Hl.
    destruct (bdaddr_type_eqb t BDADDR_BREDR); rewrite Hct in *;
    rewrite ?orb_true_r; cbn; repeat split; intros; discriminate.
  - wp_step.
    assert (Hsup : post (if bdaddr_type_eqb t BDADDR_BREDR
                         then device_set_bredr_support w o ;;
                              emit (Call "btd_bearer_connected")
                         else device_set_le_support w o t ;;
                              emit (Call "btd_bearer_connected"))
                     x (fun _ y ty =>
                          connections y = connections x /\
                          forallb (silent "Connected") ty = true)).
    { destruct (bdaddr_type_eqb t BDADDR_BREDR).
      - wp_connections. wp_step. split; [assumption|].
        rewrite forallb_app. cbn. rewrite andb_true_r. assumption.
      - wp_connections. wp_step. split; [assumption|].
        rewrite forallb_app. cbn. rewrite andb_true_r. assumption. }
    eapply post_conseq; [exact Hsup|]. clear Hsup.
    intros _ y ty [Hy Hty]. cbv beta.
    apply connections_eq in Hy as [Hyb Hyl].
    wp_step. wp_step. wp_step. wp_step. unfold id.
    match goal with |- post _ ?z _ => set (y1 := z) end.
    assert (Hy1 : connections y1
                  = (if bdaddr_type_eqb t BDADDR_BREDR
                     then (true, connected (le_state d))
                     else (connected (bredr_state d), true)) /\
                  initiator (get_state y1 t) = Z.testbit conn_flags 3 /\
                  temporary_timer y1 = temporary_timer y).
    { subst y1. unfold upd_state, connections, get_state.
      destruct (bdaddr_type_eqb t BDADDR_BREDR); cbn;
      rewrite ?Hyb, ?Hyl, ?Hb, ?Hl; repeat split. }
    clearbody y1. destruct Hy1 as (Hc1 & Hi1 & Htm1).
    unfold get_state in *.
    destruct (bdaddr_type_eqb t BDADDR_BREDR) eqn:Ht;
    pose proof (connections_eq_pair y1 _ _ Hc1) as [Hc1b Hc1l];
    rewrite Hc1b, Hc1l; rewrite Hct in *; cbn [fst snd andb orb] in *.
    + destruct (connected (le_state d)) eqn:Hle; cbn [andb].
      * wp_step. rewrite Hs, !emitted_app, (silent_emitted _ ty Hty).
        repeat split; intros; try discriminate; assumption.
      * wp_step. unfold post at 1. rewrite clear_temporary_timer_run.
        destruct (temporary_timer y1 =? 0) eqn:Htz;
        cbn [value_of device_of trace_of fst snd]; cbv beta;
        wp_step; wp_step; wp_step;
        rewrite Hs, !emitted_app, (silent_emitted _ ty Hty);
        repeat split; intros; try discriminate; try assumption;
        try reflexivity; apply Z.eqb_eq; exact Htz.
    + destruct (connected (bredr_state d)) eqn:Hbr; cbn [andb];
      rewrite ?andb_true_r, ?andb_false_r.
      * wp_step. rewrite Hs, !emitted_app, (silent_emitted _ ty Hty).
        repeat split; intros; try discriminate; assumption.
      * wp_step. unfold post at 1. rewrite clear_temporary_timer_run.
        destruct (temporary_timer y1 =? 0) eqn:Htz;
        cbn [value_of device_of trace_of fst snd]; cbv beta;
        wp_step; wp_step; wp_step;
        rewrite Hs, !emitted_app, (silent_emitted _ ty Hty);
        repeat split; intros; try discriminate; try assumption;
        try reflexivity; apply Z.eqb_eq; exact Htz.
Qed.

(** X24.  [device_add_connection] leaves the bearer connected and
    announces Connected exactly when the value read by
    [dev_property_get_connected] changes, that is for the first bearer to
    connect; the first connection also stops the temporary timer and
    decides what [btd_device_is_initiator] answers, bit 3 of the connection
    flags.  For a bearer that is already connected nothing is recorded as
    the connection address. *)
Theorem device_add_connection_announces (w : world) (o : settings)
    (d : btd_device) (t : bdaddr_type_t) (conn_flags : Z) :
  let r := device_add_connection w o t conn_flags d in
  let d' := device_of r in
  connected (get_state d' t) = true /\
  emitted "Connected" (trace_of r)
  = (if Bool.eqb (dev_property_get_connected d)
                 (dev_property_get_connected d')
     then 0 else 1)%nat /\
  (dev_property_get_connected d = false ->
   temporary_timer d' = 0 /\
   btd_device_is_initiator d' = Z.testbit conn_flags 3) /\
  (connected (get_state d t) = true -> value_of r = None) /\
  (connected (get_state d t) = false -> value_of r <> None).
Proof.
  cbv zeta.
  pose proof (device_add_connection_post w o t conn_flags d) as H.
  unfold post in H. destruct H as (Hc & He & Hv & Hi & Ht).
  rewrite He. clear He.
  unfold dev_property_get_connected, btd_device_is_initiator, get_state in *.
  destruct (bdaddr_type_eqb t BDADDR_BREDR);
  apply connections_eq_pair in Hc as [Hcb Hcl]; rewrite Hcb, Hcl;
  destruct (connected (bredr_state d)) eqn:Hb;
  destruct (connected (le_state d)) eqn:Hl; cbn [orb Bool.eqb];
  repeat split; intros; try discriminate; try reflexivity;
  try (apply Ht; reflexivity); try (apply Hv; reflexivity);
  try (apply Hi; reflexivity); try (apply Hi; assumption);
  try (apply Hv; assumption).
Qed.

(** X25.  A bearer that connects and then disconnects leaves both bearers'
    connected flags as they were, and the two steps announce Connected
    alike: once each when the other bearer is not connected, and not at all
    when it is. *)
Theorem connection_round_trip (w : world) (o : settings) (d : btd_device)
    (t : bdaddr_type_t) (conn_flags reason : Z)
    (Hfree : connected (get_state d t) = false) :
  let up := device_add_connection w o t conn_flags d in
  let down := device_remove_connection w t reason (device_of up) in
  let other := if bdaddr_type_eqb t BDADDR_BREDR
               then connected (le_state d) else connected (bredr_state d) in
  connections (device_of down) = connections d /\
  emitted "Connected" (trace_of up) = (if other then 0 else 1)%nat /\
  emitted "Connected" (trace_of down) = (if other then 0 else 1)%nat.
Proof.
  cbv zeta.
  pose proof (device_add_connection_post w o t conn_flags d) as H.
  unfold post in H. destruct H as (Hc & He & _).
  set (d1 := device_of (device_add_connection w o t conn_flags d)) in *.
  clearbody d1.
  assert (Hconn : connected (get_state d1 t) = true).
  { unfold get_state. destruct (bdaddr_type_eqb t BDADDR_BREDR);
    apply connections_eq_pair in Hc as [Hcb Hcl]; assumption. }
  pose proof (device_remove_connection_run w t reason d1 Hconn) as H.
  cbv zeta in H. unfold post in H. destruct H as (Hb & Hl & Hseen & _).
  rewrite (emitted_seen "Connected"
             (trace_of (device_remove_connection w t reason d1)))
    by (left; reflexivity).
  rewrite Hseen, He. clear Hseen He.
  assert (Hsnd : forall p, snd (unpair p) = snd p)
    by (intros [[[] []] []]; reflexivity).
  apply (f_equal snd) in Hb, Hl. rewrite Hsnd in Hb, Hl.
  unfold connections.
  change (connected (bredr_state
            (device_of (device_remove_connection w t reason d1))))
    with (snd (pairing (bredr_state
                 (device_of (device_remove_connection w t reason d1))))).
  change (connected (le_state
            (device_of (device_remove_connection w t reason d1))))
    with (snd (pairing (le_state
                 (device_of (device_remove_connection w t reason d1))))).
  rewrite Hb, Hl. clear Hb Hl Hsnd.
  unfold get_state in Hfree.
  destruct (bdaddr_type_eqb t BDADDR_BREDR);
  apply connections_eq_pair in Hc as [Hcb Hcl];
  unfold unconnected, pairing; cbn [snd]; rewrite ?Hcb, ?Hcl, Hfree;
  [destruct (connected (le_state d)) | destruct (connected (bredr_state d))];
  cbn [orb]; rewrite emitted_app;
  match goal with
  | |- context [emitted "Connected" (if ?c then _ else _)] =>
      replace (emitted "Connected"
                 (if c then [PropertyChanged "Paired"] else []))
        with 0%nat by (destruct c; reflexivity)
  end;
  unfold emitted; cbn; rewrite ?filter_returns_none; repeat split.
Qed.

Lemma connection_round_trip_witness :
  connections
    (device_of
       (device_remove_connection world0 BDADDR_LE_PUBLIC 0
          (device_of (device_add_connection world0 settings0 BDADDR_LE_PUBLIC 8
                        device0))))
  = (false, false) /\
  emitted "Connected"
    (trace_of (device_add_connection world0 settings0 BDADDR_LE_PUBLIC 8 device0))
  = 1%nat.
Proof.
  pose proof (connection_round_trip world0 settings0 device0 BDADDR_LE_PUBLIC
                8 0 eq_refl) as (H1 & H2 & _).
  split; [exact H1 | exact H2].
Defined.

(** ** Sightings and the bearer selection *)

Lemma select_conn_bearer_view (w : world) (d d' : btd_device) :
  selection_view d' = selection_view d ->
  select_conn_bearer w d' = select_conn_bearer w d.
Proof.
  unfold selection_view. intros H.
  assert (H1 := f_equal (fun x => fst (fst (fst (fst x)))) H).
  assert (H2 := f_equal (fun x => snd (fst (fst (fst x)))) H).
  assert (H3 := f_equal (fun x => snd (fst (fst x))) H).
  assert (H4 := f_equal (fun x => snd (fst x)) H).
  assert (H5 := f_equal snd H). cbn in H1, H2, H3, H4, H5.
  unfold select_conn_bearer. rewrite H1, H2, H3, H4, H5. reflexivity.
Qed.

Lemma device_update_last_seen_view (w : world) (t : bdaddr_type_t)
    (c : bool) (d : btd_device) :
  selection_view (device_of (device_update_last_seen w t c d))
  = selection_view
      (upd_state t (fun s => with_connectable c (with_last_seen (now w) s)) d).
Proof.
  change (post (device_update_last_seen w t c) d (fun _ d' _ =>
            selection_view d'
            = selection_view
                (upd_state t
                   (fun s => with_connectable c (with_last_seen (now w) s)) d))).
  unfold device_update_last_seen. wp_step. wp_step.
  match goal with |- post _ ?x _ => generalize x end. intros d1.
  wp_keep_all (fun y : btd_device => selection_view y = selection_view d1);
  [reflexivity | assumption].
Qed.



(** ** Installing a signature key *)

(** X27.  [device_set_csrk] keeps the two keys apart: types 0 and 2 install
    the local key and leave the remote key alone, types 1 and 3 install the
    remote key and leave the local key alone, types 2 and 3 mark the key
    authenticated, and any other type changes nothing.  The counter that
    comes with a local key is the first one [local_counter] hands out.
    Without the store hint nothing is scheduled or called. *)
Theorem device_set_csrk_slots (w : world) (d : btd_device) (val : list Z)
    (cnt type : Z) (store_hint : bool) :
  let r := device_set_csrk w val cnt type store_hint d in
  let installed := Some {| key := val; counter := cnt; auth := 2 <=? type |} in
  (type = 0 \/ type = 2 ->
   local_csrk (device_of r) = installed /\
   remote_csrk (device_of r) = remote_csrk d /\
   value_of (local_counter w (device_of r)) = Some cnt) /\
  (type = 1 \/ type = 3 ->
   remote_csrk (device_of r) = installed /\
   local_csrk (device_of r) = local_csrk d) /\
  (type < 0 \/ 3 < type -> device_of r = d) /\
  (store_hint = false -> 0 <= type <= 3 -> trace_of r = []).
Proof.
  cbv zeta.
  assert (Hlocal : forall x k, local_csrk x = Some k ->
            value_of (local_counter w x) = Some (counter k)).
  { intros x k Hx. unfold local_counter. run. rewrite Hx.
    match goal with |- context [store_device_info w ?y] =>
      destruct (store_device_info_cases w y) as [-> | ->] end; reflexivity. }
  assert (Hkeys : 0 <= type <= 3 ->
            post (device_set_csrk w val cnt type store_hint) d (fun _ d' _ =>
              (local_csrk d', remote_csrk d')
              = (if (type =? 0) || (type =? 2)
                 then (Some {| key := val; counter := cnt; auth := 2 <=? type |},
                       remote_csrk d)
                 else (local_csrk d,
                       Some {| key := val; counter := cnt;
                               auth := 2 <=? type |})))).
  { intros Htype.
    assert (Hcases : type = 0 \/ type = 1 \/ type = 2 \/ type = 3) by lia.
    unfold device_set_csrk.
    destruct Hcases as [-> | [-> | [-> | ->]]];
    cbn [Z.eqb Z.leb Z.compare Pos.compare Pos.compare_cont Pos.eqb orb];
    cbv iota zeta beta; wp_step; wp_step;
    match goal with
    | |- post _ ?x _ =>
        wp_keep_all (fun y : btd_device =>
                       (local_csrk y, remote_csrk y)
                       = (local_csrk x, remote_csrk x));
        [reflexivity | assumption]
    end. }
  split; [|split; [|split]].
  - intros Htype. specialize (Hkeys ltac:(lia)). unfold post in Hkeys.
    assert (Hc : (type =? 0) || (type =? 2) = true)
      by (destruct Htype as [-> | ->]; reflexivity).
    rewrite Hc in Hkeys.
    assert (H1 := f_equal fst Hkeys). assert (H2 := f_equal snd Hkeys).
    cbn [fst snd] in H1, H2.
    split; [exact H1|]. split; [exact H2|].
    rewrite (Hlocal _ _ H1). reflexivity.
  - intros Htype. specialize (Hkeys ltac:(lia)). unfold post in Hkeys.
    assert (Hc : (type =? 0) || (type =? 2) = false)
      by (destruct Htype as [-> | ->]; reflexivity).
    rewrite Hc in Hkeys.
    assert (H1 := f_equal fst Hkeys). assert (H2 := f_equal snd Hkeys).
    cbn [fst snd] in H1, H2.
    split; [exact H2 | exact H1].
  - intros Htype. unfold device_set_csrk.
    destruct (type =? 0) eqn:H0; [apply Z.eqb_eq in H0; lia|].
    destruct (type =? 1) eqn:H1; [apply Z.eqb_eq in H1; lia|].
    destruct (type =? 2) eqn:H2; [apply Z.eqb_eq in H2; lia|].
    destruct (type =? 3) eqn:H3; [apply Z.eqb_eq in H3; lia|].
    reflexivity.
  - intros -> Htype. unfold device_set_csrk.
    assert (Hcases : type = 0 \/ type = 1 \/ type = 2 \/ type = 3) by lia.
    destruct Hcases as [-> | [-> | [-> | ->]]]; reflexivity.
Qed.

(** ** Connecting over LE *)

(** X28.  [device_connect_le] makes one attempt at a time: with an ATT
    channel present or being set up it answers -EALREADY and touches
    nothing.  Otherwise the device becomes the LE initiator; when the I/O
    channel is obtained the answer is 0, the channel is kept and a bonding
    request in flight stays; when it is not, the answer is -EIO, no channel
    is kept, and a bonding request in flight is answered with a failure,
    cancelled at the adapter and dropped. *)
Theorem device_connect_le_outcome (w : world) (d : btd_device) :
  let r := device_connect_le w d in
  let d' := device_of r in
  (att_io d || att d = true -> r = (- EALREADY, d, [])) /\
  (att_io d || att d = false ->
   initiator (le_state d') = true /\
   (bt_io_connect w = true ->
    value_of r = 0 /\ att_io d' = true /\ bonding d' = bonding d) /\
   (bt_io_connect w = false ->
    value_of r = - EIO /\ att_io d' = false /\ bonding d' = None /\
    forall bd, bonding d = Some bd ->
      In (SendMessage (ErrFailed "gerr->message") (bonding_msg bd)) (trace_of r) /\
      In (AdapterCancelBonding (bdaddr_type d)) (trace_of r))).
Proof.
  cbv zeta. split.
  - intros Hbusy. unfold device_connect_le. run. rewrite Hbusy. reflexivity.
  - intros Hfree.
    assert (Hio : att_io d = false)
      by (destruct (att_io d); [discriminate | reflexivity]).
    destruct (bt_io_connect w) eqn:Hconn.
    + change (post (device_connect_le w) d (fun v d' _ =>
                initiator (le_state d') = true /\
                (true = true ->
                 v = 0 /\ att_io d' = true /\ bonding d' = bonding d) /\
                (true = false ->
                 v = - EIO /\ att_io d' = false /\ bonding d' = None /\
                 forall bd, bonding d = Some bd ->
                   In (SendMessage (ErrFailed "gerr->message") (bonding_msg bd))
                      (trace_of (device_connect_le w d)) /\
                   In (AdapterCancelBonding (bdaddr_type d))
                      (trace_of (device_connect_le w d))))).
      unfold device_connect_le at 1. wp_step. wp_step. unfold id.
      rewrite Hfree, Hconn. cbn [negb]. cbv iota.
      wp_step. wp_step. wp_step. wp_step. wp_step. wp_step. wp_step.
      match goal with
      | |- post _ ?x _ =>
          wp_keep_all (fun y : btd_device =>
                         (initiator (le_state y), att_io y, bonding y)
                         = (initiator (le_state x), att_io x, bonding x));
          [reflexivity|]
      end.
      match goal with
      | H : _ = (_, _, _) |- _ => apply triple_eq in H as (H1 & H2 & H3)
      end.
      wp_step. cbn in H1, H2, H3.
      split; [exact H1|]. split; [auto | intros; discriminate].
    + unfold device_connect_le, bonding_request_cancel, bonding_request_free.
      run. rewrite Hfree, Hconn. cbn [negb].
      destruct (bonding d) as [bd|] eqn:Hb.
      * destruct (listener_id bd =? 0), (bonding_agent bd),
          (retry_timer bd =? 0); cbn;
        (split; [reflexivity|]); (split; [intros; discriminate|]);
        intros _; rewrite ?Hio;
        (split; [reflexivity|]); (split; [reflexivity|]);
        (split; [reflexivity|]);
        intros bd' Hbd'; injection Hbd' as <-; split; cbn; auto 10.
      * cbn. rewrite Hb.
        split; [reflexivity|]. split; [intros; discriminate|].
        intros _. split; [reflexivity|]. split; [assumption|].
        split; [reflexivity|]. intros bd' Hbd'. discriminate.
Qed.

Lemma device_connect_le_outcome_witness :
  value_of (device_connect_le unreachable0 bonding0) = - EIO /\
  bonding (device_of (device_connect_le unreachable0 bonding0)) = None /\
  In (AdapterCancelBonding BDADDR_LE_PUBLIC)
     (trace_of (device_connect_le unreachable0 bonding0)).
Proof.
  pose proof (device_connect_le_outcome unreachable0 bonding0) as [_ H].
  destruct (H eq_refl) as (_ & _ & Hfail).
  destruct (Hfail eq_refl) as (Hv & _ & Hb & Hin).
  destruct (Hin _ eq_refl) as [_ Hc].
  repeat split; assumption.
Defined.
